(** * NRG risk engine: a shallow embedding of [src/risk_engine.py]

    The embedding follows [RiskEngine] and the part of [Storage] it talks to.

    Numbers.  Every Python [float] that the engine reads or computes is
    modelled as an exact rational ([Q]); the only non-finite value the engine
    ever creates on its own, [float('inf')] for the utilization of a thesis
    without budget, is modelled by the extra constructor [Inf] of [xfloat].
    Rounding, NaN and signed zeros are outside this model.  Numerical
    statements are therefore stated up to [Qeq] ([==]).

    Effects.  [compute] reads and appends to the SQLite store and may raise;
    it is embedded in a state-and-exception monad over [Storage.t], in which
    whatever was written before an exception stays written.

    Regular expressions.  [re.match] is a parameter of the methods of
    [RiskEngine]; [SimpleRe] is a small instance used by the worked
    examples.

    Around the engine.  The loaders of the configuration, the message
    builders of [notifications.py], the row builders of [sheets_writer.py]
    and the parsing done by the connectors are embedded as functions of what
    they read; requests, files and transports are inputs or are left out,
    and the text functions of Python they call ([str.strip], [float], ...)
    are parameters, with [PyStr] as an instance on ASCII text. *)

From Stdlib Require Import Floats QArith Qabs Qround Qminmax Lqa.
From Stdlib Require Import ZArith Lia Bool List String Ascii DecimalString.
From Stdlib Require Import Permutation Sorted.
Import ListNotations.

Open Scope string_scope.
Open Scope Q_scope.

(** ** Python values *)

(** Exceptions the modelled code can raise. *)
Inductive PyError : Type :=
| ValueError (msg : string)
| ZeroDivisionError
| OverflowError (msg : string).

Inductive Result (A : Type) : Type :=
| Ok (a : A)
| Raise (e : PyError).
Arguments Ok {A} a.
Arguments Raise {A} e.

(** What a call of [re.match] does: it returns a match object or [None]
    ([Found true], [Found false]), raises [re.error], or raises another
    exception. *)
Inductive ReOutcome : Type :=
| Found (matched : bool)
| ReError
| ReRaises (e : PyError).

Module PyFloat.

(** [a > b] and [a < b] on floats. *)
Definition gtb (a b : Q) : bool := negb (Qle_bool a b).
Definition ltb (a b : Q) : bool := negb (Qle_bool b a).

(** [max(a, b)]: the first argument is kept unless the second is greater. *)
Definition max (a b : Q) : Q := if gtb b a then b else a.

(** [a / b]; Python raises on a zero divisor. *)
Definition div (a b : Q) : Result Q :=
  if Qeq_bool b 0 then Raise ZeroDivisionError else Ok (a / b).

(** A float that may be [float('inf')]. *)
Inductive xfloat : Type :=
| Fin (q : Q)
| Inf.

Definition xgtb (a b : xfloat) : bool :=
  match a, b with
  | Fin x, Fin y => gtb x y
  | Inf, Fin _ => true
  | _, Inf => false
  end.

Definition xltb (a b : xfloat) : bool := xgtb b a.

(** [a == b] on floats. *)
Definition xeqb (a b : xfloat) : bool :=
  match a, b with
  | Fin x, Fin y => Qeq_bool x y
  | Inf, Inf => true
  | _, _ => false
  end.

(** [b <= a], the order in which a descending sort leaves its keys. *)
Definition xgeb (a b : xfloat) : bool := negb (xgtb b a).

End PyFloat.
Export PyFloat(xfloat, Fin, Inf).

(** ** Format specifications used by the f-strings of the engine *)

Module Fmt.

(** Round half to even, as the [f] and [%] presentation types do. *)
Definition round_half_even (q : Q) : Z :=
  let f := Qfloor q in
  let r := q - inject_Z f in
  if PyFloat.ltb r (1 # 2) then f
  else if PyFloat.gtb r (1 # 2) then (f + 1)%Z
  else if Z.even f then f else (f + 1)%Z.

Definition digits (n : Z) : list ascii :=
  list_ascii_of_string (NilEmpty.string_of_uint (N.to_uint (Z.to_N n))).

(** Left-pad with zeros to at least [k] digits. *)
Definition pad (k : nat) (ds : list ascii) : list ascii :=
  (repeat "0"%char (k - List.length ds) ++ ds)%list.

(** Thousands separators, working on the reversed integer digits. *)
Fixpoint group3 (rev_ds : list ascii) (fuel : nat) : list ascii :=
  match fuel with
  | O => rev_ds
  | S fuel' =>
    match rev_ds with
    | a :: b :: c :: (_ :: _) as rest =>
      a :: b :: c :: ","%char :: group3 rest fuel'
    | _ => rev_ds
    end
  end.

Definition commas (ds : list ascii) : list ascii :=
  rev (group3 (rev ds) (List.length ds)).

(** [format(q, ".<d>f")], or [",.<d>f"] when [sep] is set. *)
Definition fixed (sep : bool) (d : nat) (q : Q) : string :=
  let n := round_half_even (q * inject_Z (10 ^ Z.of_nat d)) in
  let ds := pad (S d) (digits (Z.abs n)) in
  let ip := firstn (List.length ds - d) ds in
  let fp := skipn (List.length ds - d) ds in
  let ip := if sep then commas ip else ip in
  let sign := if PyFloat.ltb q 0 then "-" else "" in
  sign ++ string_of_list_ascii ip
       ++ match fp with [] => "" | _ => "." ++ string_of_list_ascii fp end.

(** [format(q, ".<d>%")]. *)
Definition percent (d : nat) (q : Q) : string :=
  fixed false d (q * 100) ++ "%".

Definition xpercent (d : nat) (u : xfloat) : string :=
  match u with
  | Fin q => percent d q
  | Inf => "inf%"
  end.

End Fmt.

(** ** A dict: insertion-ordered association list with string keys *)

Module Dict.

Definition t (V : Type) : Type := list (string * V).

Fixpoint get {V} (d : t V) (k : string) : option V :=
  match d with
  | [] => None
  | (k', v) :: d' => if String.eqb k' k then Some v else get d' k
  end.

Definition get_default {V} (d : t V) (k : string) (dflt : V) : V :=
  match get d k with Some v => v | None => dflt end.

Definition mem {V} (d : t V) (k : string) : bool :=
  match get d k with Some _ => true | None => false end.

(** [d[k] = v]: an existing key keeps its place, a new key goes last. *)
Fixpoint set {V} (d : t V) (k : string) (v : V) : t V :=
  match d with
  | [] => [(k, v)]
  | (k', v') :: d' =>
    if String.eqb k' k then (k', v) :: d' else (k', v') :: set d' k v
  end.

Definition keys {V} (d : t V) : list string := map fst d.
Definition values {V} (d : t V) : list V := map snd d.

End Dict.

(** ** Data model ([connectors/base.py], [risk_engine.py]) *)

(** [datetime.now()]: a clock reading.  Its ISO-8601 text, which is what the
    store keeps and orders by, sorts the way the readings do. *)
Definition datetime : Type := N.

Inductive InstrumentType : Type := STOCK | ETF | OPTION | CASH | OTHER.

Inductive RiskMode : Type := NORMAL | HALF | MIN.

Inductive ThesisStatus : Type := ACTIVE | WATCH | BROKEN.

Definition RiskMode_value (m : RiskMode) : string :=
  match m with NORMAL => "NORMAL" | HALF => "HALF" | MIN => "MIN" end.

(** [RiskMode(s)] *)
Definition RiskMode_of_value (s : string) : Result RiskMode :=
  if String.eqb s "NORMAL" then Ok NORMAL
  else if String.eqb s "HALF" then Ok HALF
  else if String.eqb s "MIN" then Ok MIN
  else Raise (ValueError ("'" ++ s ++ "' is not a valid RiskMode")).

Definition ThesisStatus_value (s : ThesisStatus) : string :=
  match s with ACTIVE => "ACTIVE" | WATCH => "WATCH" | BROKEN => "BROKEN" end.

(** [ThesisStatus(s)] *)
Definition ThesisStatus_of_value (s : string) : Result ThesisStatus :=
  if String.eqb s "ACTIVE" then Ok ACTIVE
  else if String.eqb s "WATCH" then Ok WATCH
  else if String.eqb s "BROKEN" then Ok BROKEN
  else Raise (ValueError ("'" ++ s ++ "' is not a valid ThesisStatus")).

Definition InstrumentType_value (i : InstrumentType) : string :=
  match i with
  | STOCK => "STOCK" | ETF => "ETF" | OPTION => "OPTION"
  | CASH => "CASH" | OTHER => "OTHER"
  end.

Definition RiskMode_eqb (a b : RiskMode) : bool :=
  match a, b with
  | NORMAL, NORMAL | HALF, HALF | MIN, MIN => true
  | _, _ => false
  end.

Definition ThesisStatus_eqb (a b : ThesisStatus) : bool :=
  match a, b with
  | ACTIVE, ACTIVE | WATCH, WATCH | BROKEN, BROKEN => true
  | _, _ => false
  end.

Module Position.
Record t : Type := mk {
  broker : string;
  account_id : string;
  symbol : string;
  instrument_type : InstrumentType;
  qty : Q;
  multiplier : Q;
  price : Q;
  mv : Q;
  currency : string;
  thesis : string;
  notes : option string
}.

(** [pos.thesis = th] *)
Definition set_thesis (pos : t) (th : string) : t :=
  mk (broker pos) (account_id pos) (symbol pos) (instrument_type pos)
     (qty pos) (multiplier pos) (price pos) (mv pos) (currency pos)
     th (notes pos).
End Position.

Module AccountData.
Record t : Type := mk {
  broker : string;
  account_id : string;
  equity : Q;
  cash : Q;
  positions : list Position.t;
  status : string;
  error_message : option string
}.
End AccountData.

Module ThesisConfig.
Record t : Type := mk {
  name : string;
  stress_pct : Q;
  budget_pct : Q;
  status : ThesisStatus;
  falsifier : string;
  time_window_end : option string
}.
End ThesisConfig.

Module ThesisResult.
Record t : Type := mk {
  name : string;
  mv : Q;
  stress_pct : Q;
  budget_pct : Q;
  worst_loss : Q;
  budget_dollars : Q;
  utilization : xfloat;
  action : option string;
  reduce_amount : Q;
  target_mv : Q;
  status : ThesisStatus;
  falsifier : string;
  positions : list Position.t
}.
End ThesisResult.

Module RiskResult.
Record t : Type := mk {
  timestamp : datetime;
  equity : Q;
  peak : Q;
  drawdown : Q;
  mode : RiskMode;
  risk_scale : Q;
  thesis_results : list ThesisResult.t;
  positions : list Position.t;
  status : string;
  broker_statuses : Dict.t string;
  actions : list string;
  mode_changed : bool;
  old_mode : option RiskMode
}.
End RiskResult.

(** ** The store ([storage.py]): four append-only tables *)

Module EquitySnapshot.
Record t : Type := mk {
  timestamp : datetime;
  equity : Q;
  peak : Q;
  drawdown : Q;
  mode : string;
  risk_scale : Q;
  status : string
}.
End EquitySnapshot.

Module ModeChange.
Record t : Type := mk {
  timestamp : datetime;
  old_mode : option string;
  new_mode : string;
  equity : Q;
  drawdown : Q
}.
End ModeChange.

Module ThesisMetric.
Record t : Type := mk {
  timestamp : datetime;
  thesis : string;
  mv : Q;
  stress_pct : Q;
  budget_pct : Q;
  worst_loss : Q;
  budget_dollars : Q;
  utilization : xfloat;
  action : option string;
  status : string
}.
End ThesisMetric.

Module PositionRecord.
Record t : Type := mk {
  timestamp : datetime;
  broker : string;
  account_id : string;
  symbol : string;
  instrument_type : string;
  qty : Q;
  multiplier : Q;
  price : Q;
  mv : Q;
  currency : string;
  thesis : string;
  notes : option string
}.
End PositionRecord.

Module Storage.

(** The tables, oldest row first. *)
Record t : Type := mk {
  equity_history : list EquitySnapshot.t;
  mode_history : list ModeChange.t;
  thesis_metrics : list ThesisMetric.t;
  positions : list PositionRecord.t
}.

Definition empty : t := mk [] [] [] [].

(** [SELECT MAX(peak)]: NULL on an empty table. *)
Fixpoint sql_max (l : list Q) : option Q :=
  match l with
  | [] => None
  | x :: l' =>
    match sql_max l' with
    | None => Some x
    | Some m => Some (if PyFloat.gtb x m then x else m)
    end
  end.

(** [row["peak"] if row and row["peak"] else 0.0] *)
Definition get_peak (st : t) : Q :=
  match sql_max (map EquitySnapshot.peak (equity_history st)) with
  | Some p => if Qeq_bool p 0 then 0 else p
  | None => 0
  end.

(** [ORDER BY timestamp DESC LIMIT 1]; among rows of one timestamp the one
    inserted last. *)
Definition latest (rows : list EquitySnapshot.t) : option EquitySnapshot.t :=
  fold_left
    (fun best row =>
       match best with
       | None => Some row
       | Some b =>
         if (EquitySnapshot.timestamp b <=? EquitySnapshot.timestamp row)%N
         then Some row else Some b
       end)
    rows None.

Definition get_last_mode (st : t) : option string :=
  option_map EquitySnapshot.mode (latest (equity_history st)).

Definition save_equity_snapshot (snapshot : EquitySnapshot.t) (st : t) : t :=
  mk (equity_history st ++ [snapshot]) (mode_history st)
     (thesis_metrics st) (positions st).

Definition save_mode_change (timestamp : datetime) (old_mode : option string)
    (new_mode : string) (equity drawdown : Q) (st : t) : t :=
  mk (equity_history st)
     (mode_history st
        ++ [ModeChange.mk timestamp old_mode new_mode equity drawdown])
     (thesis_metrics st) (positions st).

Definition save_thesis_metrics (metrics : list ThesisMetric.t) (st : t) : t :=
  mk (equity_history st) (mode_history st)
     (thesis_metrics st ++ metrics) (positions st).

Definition save_positions (rows : list PositionRecord.t) (st : t) : t :=
  mk (equity_history st) (mode_history st)
     (thesis_metrics st) (positions st ++ rows).

End Storage.

(** ** The monad of [compute]: store passing with exceptions *)

Definition M (A : Type) : Type := Storage.t -> Result A * Storage.t.

Definition ret {A} (a : A) : M A := fun st => (Ok a, st).

Definition raise {A} (e : PyError) : M A := fun st => (Raise e, st).

Definition bind {A B} (c : M A) (k : A -> M B) : M B :=
  fun st =>
    match c st with
    | (Ok a, st') => k a st'
    | (Raise e, st') => (Raise e, st')
    end.

Definition lift {A} (r : Result A) : M A := fun st => (r, st).

Definition reads {A} (f : Storage.t -> A) : M A := fun st => (Ok (f st), st).

Definition writes (f : Storage.t -> Storage.t) : M unit :=
  fun st => (Ok tt, f st).

Notation "x <- c ;; k" := (bind c (fun x => k))
  (at level 61, c at next level, right associativity).
Notation "c ;;; k" := (bind c (fun _ => k))
  (at level 61, right associativity).

(** ** Configuration *)

Module Mapping.
(** One row of [mapping.csv] as [_load_mappings] keeps it. *)
Record t : Type := mk {
  pattern : string;
  thesis : string;
  weight : Q
}.
End Mapping.

Module AccountConfig.
(** The dict read from [account.yaml]; [None] is a missing key. *)
Record t : Type := mk {
  drawdown_x : option Q;
  risk_scale : option (Dict.t Q)
}.
End AccountConfig.

Module RawThesis.
(** One entry of [theses:] in [thesis.yaml]; [None] is a missing key. *)
Record t : Type := mk {
  stress_pct : option Q;
  budget_pct : option Q;
  status : option string;
  falsifier : option string;
  time_window_end : option string
}.
End RawThesis.

(** ** Regular expressions: [re.match] on a fragment of the syntax

    [RiskEngine] calls [re.match(f"^{pattern}$", symbol, re.IGNORECASE)].
    This module follows [re] on ASCII text for the syntax made of literal
    characters, [.], [^], [$], [|], groups [( )] and [(?: )], the
    quantifiers [*], [+], [?] and [{m,n}] with their lazy forms, character
    sets [[...]] and the escapes of a class or of a punctuation character.
    [parse] reads a pattern from left to right as [re._parser] does and
    stops at the first thing that ends the compilation: [Bad] is
    [re.error], [TooLarge] the [OverflowError] of a repetition count of
    [MAXREPEAT] or more, and [Outside] says that the pattern leaves the
    fragment (look-around, back-references, flags, named groups, possessive
    quantifiers, counts above [LIMIT], groups nested deeper than [DEPTH],
    bytes that are not ASCII).  Matching computes the set of positions at
    which a match starting at a given position can end. *)

Module SimpleRe.

Definition MAXREPEAT : N := 4294967295%N.
Definition LIMIT : N := 100%N.
Definition DEPTH : nat := 16%nat.

Inductive category : Type := Digit | Space | Word.

Inductive class_item : Type :=
| Lit (c : ascii)
| Range (lo hi : ascii)
| Category (negated : bool) (kind : category).

Inductive regex : Type :=
| Empty
| Literal (c : ascii)
| Any
| In (negate : bool) (set : list class_item)
| Bol
| Eol
| Group (r : regex)
| Seq (r1 r2 : regex)
| Branch (r1 r2 : regex)
| Repeat (lo hi : N) (r : regex).

Inductive outcome : Type :=
| Parsed (r : regex)
| Bad
| TooLarge
| Outside.

(** *** Characters *)

Definition code (c : ascii) : nat := nat_of_ascii c.

Definition is_ascii (c : ascii) : bool := (code c <? 128)%nat.
Definition is_digit (c : ascii) : bool :=
  ((48 <=? code c) && (code c <=? 57))%nat.
Definition is_upper (c : ascii) : bool :=
  ((65 <=? code c) && (code c <=? 90))%nat.
Definition is_lower (c : ascii) : bool :=
  ((97 <=? code c) && (code c <=? 122))%nat.
Definition is_letter (c : ascii) : bool := is_upper c || is_lower c.

Definition lower (c : ascii) : ascii :=
  if is_upper c then ascii_of_nat (code c + 32) else c.
Definition upper (c : ascii) : ascii :=
  if is_lower c then ascii_of_nat (code c - 32) else c.

Definition newline : ascii := "010"%char.

Inductive kind : Type :=
| KPipe | KClose | KOpen | KEscape | KSet | KStar | KPlus | KQuestion
| KBrace | KDot | KCaret | KDollar | KOther | KNonAscii.

Definition kind_of (c : ascii) : kind :=
  if negb (is_ascii c) then KNonAscii
  else if Ascii.eqb c "|" then KPipe
  else if Ascii.eqb c ")" then KClose
  else if Ascii.eqb c "(" then KOpen
  else if Ascii.eqb c "\" then KEscape
  else if Ascii.eqb c "[" then KSet
  else if Ascii.eqb c "*" then KStar
  else if Ascii.eqb c "+" then KPlus
  else if Ascii.eqb c "?" then KQuestion
  else if Ascii.eqb c "{" then KBrace
  else if Ascii.eqb c "." then KDot
  else if Ascii.eqb c "^" then KCaret
  else if Ascii.eqb c "$" then KDollar
  else KOther.

(** A character that stands for itself in a pattern. *)
Definition plain (c : ascii) : bool :=
  match kind_of c with KOther => true | _ => false end.

(** *** Parsing *)

(** A pattern being read: the branches of the current group that are
    complete, and the items of the branch being read, both latest first. *)
Record frame : Type := mk_frame {
  branches : list regex;
  items : list regex
}.

Definition empty_frame : frame := mk_frame [] [].

Definition seq_of (items : list regex) : regex :=
  fold_left (fun acc r => Seq r acc) items Empty.

Definition close (f : frame) : regex :=
  fold_left (fun acc r => Branch r acc) (branches f) (seq_of (items f)).

Definition push (f : frame) (r : regex) : frame :=
  mk_frame (branches f) (r :: items f).

Definition next_branch (f : frame) : frame :=
  mk_frame (seq_of (items f) :: branches f) [].

(** The item a quantifier applies to: [None] is "nothing to repeat" or
    "multiple repeat". *)
Definition repeat_last (f : frame) (lo hi : N) : option frame :=
  match items f with
  | [] => None
  | Bol :: _ => None
  | Eol :: _ => None
  | Repeat _ _ _ :: _ => None
  | r :: rest => Some (mk_frame (branches f) (Repeat lo hi r :: rest))
  end.

Inductive escaped : Type :=
| ELit (c : ascii)
| ECat (negated : bool) (kind : category)
| EBad
| EOutside.

(** The character after a backslash. *)
Definition escape_of (e : ascii) : escaped :=
  if negb (is_ascii e) then EOutside
  else if Ascii.eqb e "d" then ECat false Digit
  else if Ascii.eqb e "D" then ECat true Digit
  else if Ascii.eqb e "s" then ECat false Space
  else if Ascii.eqb e "S" then ECat true Space
  else if Ascii.eqb e "w" then ECat false Word
  else if Ascii.eqb e "W" then ECat true Word
  else if Ascii.eqb e "n" then ELit "010"
  else if Ascii.eqb e "t" then ELit "009"
  else if Ascii.eqb e "r" then ELit "013"
  else if Ascii.eqb e "f" then ELit "012"
  else if Ascii.eqb e "v" then ELit "011"
  else if Ascii.eqb e "a" then ELit "007"
  else if existsb (Ascii.eqb e) (list_ascii_of_string "bBAZxuUN") then EOutside
  else if is_digit e then EOutside
  else if is_letter e then EBad
  else ELit e.

Inductive member : Type :=
| MOk (item : class_item) (rest : list ascii)
| MBad
| MOutside.

(** One member of a character set, [c] being its first character. *)
Definition member_of (c : ascii) (rest : list ascii) : member :=
  if Ascii.eqb c "\" then
    match rest with
    | [] => MBad
    | e :: rest' =>
      match escape_of e with
      | ELit l => MOk (Lit l) rest'
      | ECat negated k => MOk (Category negated k) rest'
      | EBad => MBad
      | EOutside => MOutside
      end
    end
  else MOk (Lit c) rest.

Inductive set_outcome : Type :=
| SetOk (set : list class_item) (rest : list ascii)
| SetBad
| SetOutside.

(** The members of a set up to its closing bracket; [set] has those read
    so far, latest first. *)
Fixpoint parse_set (fuel : nat) (set : list class_item) (input : list ascii)
  : set_outcome :=
  match fuel with
  | O => SetOutside
  | S fuel =>
    match input with
    | [] => SetBad
    | c :: rest =>
      if negb (is_ascii c) then SetOutside
      else if Ascii.eqb c "]" && negb (match set with [] => true | _ => false end)
      then SetOk (rev set) rest
      else
        match member_of c rest with
        | MBad => SetBad
        | MOutside => SetOutside
        | MOk code1 rest1 =>
          match rest1 with
          | dash :: rest2 =>
            if Ascii.eqb dash "-" then
              match rest2 with
              | [] => SetBad
              | d :: rest3 =>
                if negb (is_ascii d) then SetOutside
                else if Ascii.eqb d "]"
                then SetOk (rev (Lit "-" :: code1 :: set)) rest3
                else
                  match member_of d rest3 with
                  | MBad => SetBad
                  | MOutside => SetOutside
                  | MOk code2 rest4 =>
                    match code1, code2 with
                    | Lit lo, Lit hi =>
                      if (code hi <? code lo)%nat then SetBad
                      else parse_set fuel (Range lo hi :: set) rest4
                    | _, _ => SetBad
                    end
                  end
              end
            else parse_set fuel (code1 :: set) rest1
          | [] => parse_set fuel (code1 :: set) rest1
          end
        end
    end
  end.

Definition digit_value (c : ascii) : N := N.of_nat (code c - 48).

(** The digits at the head of the input, as a number: [None] without any. *)
Fixpoint digits (acc : option N) (input : list ascii)
  : option N * list ascii :=
  match input with
  | c :: rest =>
    if is_digit c
    then digits (Some (10 * match acc with Some n => n | None => 0 end
                       + digit_value c)%N) rest
    else (acc, input)
  | [] => (acc, [])
  end.

Inductive progress : Type :=
| Continue (stack : list frame) (cur : frame) (rest : list ascii)
| Stop (o : outcome).

(** After a quantifier: [?] makes it lazy, which matches the same strings;
    [+] makes it possessive. *)
Definition quantified (stack : list frame) (f : option frame)
    (rest : list ascii) : progress :=
  match f with
  | None => Stop Bad
  | Some f =>
    match rest with
    | c :: rest' =>
      if Ascii.eqb c "?" then Continue stack f rest'
      else if Ascii.eqb c "+" then Stop Outside
      else Continue stack f rest
    | [] => Continue stack f rest
    end
  end.

(** [{m,n}] after the brace: a repetition, or a literal brace when the
    text is not of that form. *)
Definition braces (stack : list frame) (cur : frame) (rest : list ascii)
  : progress :=
  let literal := Continue stack (push cur (Literal "{")) rest in
  match rest with
  | c :: _ =>
    if Ascii.eqb c "}" then literal
    else
      let '(lo, rest1) := digits None rest in
      let '(hi, rest2) :=
        match rest1 with
        | comma :: rest1' =>
          if Ascii.eqb comma "," then digits None rest1' else (lo, rest1)
        | [] => (lo, rest1)
        end in
      match rest2 with
      | b :: rest3 =>
        if Ascii.eqb b "}" then
          match rest3 with
          | ["\"%char] => Stop Bad
          | _ =>
            let min := match lo with Some n => n | None => 0%N end in
            let max := match hi with Some n => n | None => MAXREPEAT end in
            if match lo with Some n => (MAXREPEAT <=? n)%N | None => false end
            then Stop TooLarge
            else if match hi with
                    | Some n => (MAXREPEAT <=? n)%N
                    | None => false
                    end
            then Stop TooLarge
            else if match hi with Some n => (n <? min)%N | None => false end
            then Stop Bad
            else if match lo with Some n => (LIMIT <? n)%N | None => false end
                    || match hi with
                       | Some n => (LIMIT <? n)%N
                       | None => false
                       end
            then Stop Outside
            else quantified stack (repeat_last cur min max) rest3
          end
        else literal
      | [] => literal
      end
  | [] => literal
  end.

(** One turn of the loop of [_parse]. *)
Definition step (stack : list frame) (cur : frame) (input : list ascii)
  : progress :=
  match input with
  | [] =>
    match stack with
    | [] => Stop (Parsed (close cur))
    | _ :: _ => Stop Bad
    end
  | c :: rest =>
    match kind_of c with
    | KNonAscii => Stop Outside
    | KPipe => Continue stack (next_branch cur) rest
    | KClose =>
      match stack with
      | [] => Stop Bad
      | f :: stack' => Continue stack' (push f (Group (close cur))) rest
      end
    | KOpen =>
      let open_group rest :=
        if (DEPTH <=? List.length stack)%nat then Stop Outside
        else Continue (cur :: stack) empty_frame rest in
      match rest with
      | q :: rest' =>
        if Ascii.eqb q "?" then
          match rest' with
          | colon :: rest'' =>
            if Ascii.eqb colon ":" then open_group rest'' else Stop Outside
          | [] => Stop Outside
          end
        else open_group rest
      | [] => open_group rest
      end
    | KEscape =>
      match rest with
      | [] => Stop Bad
      | e :: rest' =>
        match escape_of e with
        | ELit l => Continue stack (push cur (Literal l)) rest'
        | ECat negated k =>
          Continue stack (push cur (In false [Category negated k])) rest'
        | EBad => Stop Bad
        | EOutside => Stop Outside
        end
      end
    | KSet =>
      let '(negate, rest) :=
        match rest with
        | n :: rest' => if Ascii.eqb n "^" then (true, rest') else (false, rest)
        | [] => (false, rest)
        end in
      match parse_set (S (List.length rest)) [] rest with
      | SetOk set rest' => Continue stack (push cur (In negate set)) rest'
      | SetBad => Stop Bad
      | SetOutside => Stop Outside
      end
    | KStar => quantified stack (repeat_last cur 0 MAXREPEAT) rest
    | KPlus => quantified stack (repeat_last cur 1 MAXREPEAT) rest
    | KQuestion => quantified stack (repeat_last cur 0 1) rest
    | KBrace => braces stack cur rest
    | KDot => Continue stack (push cur Any) rest
    | KCaret => Continue stack (push cur Bol) rest
    | KDollar => Continue stack (push cur Eol) rest
    | KOther => Continue stack (push cur (Literal c)) rest
    end
  end.

Fixpoint parse_loop (fuel : nat) (stack : list frame) (cur : frame)
    (input : list ascii) : outcome :=
  match fuel with
  | O => Outside
  | S fuel =>
    match step stack cur input with
    | Continue stack cur rest => parse_loop fuel stack cur rest
    | Stop o => o
    end
  end.

Definition parse (pattern : string) : outcome :=
  let input := list_ascii_of_string pattern in
  parse_loop (S (List.length input)) [] empty_frame input.

(** *** Matching *)

Definition in_category (k : category) (c : ascii) : bool :=
  match k with
  | Digit => is_digit c
  | Space =>
    (((9 <=? code c) && (code c <=? 13))
     || ((28 <=? code c) && (code c <=? 32)))%nat
  | Word => is_digit c || is_letter c || Ascii.eqb c "_"
  end.

Definition between (lo hi c : ascii) : bool :=
  ((code lo <=? code c) && (code c <=? code hi))%nat.

Definition item_ok (ignorecase : bool) (item : class_item) (c : ascii)
  : bool :=
  match item with
  | Lit l =>
    if ignorecase then Ascii.eqb (lower l) (lower c) else Ascii.eqb l c
  | Range lo hi =>
    if ignorecase
    then between lo hi c || between lo hi (lower c) || between lo hi (upper c)
    else between lo hi c
  | Category negated k => xorb negated (in_category k c)
  end.

Fixpoint dedup (l : list nat) : list nat :=
  match l with
  | [] => []
  | x :: l' => if existsb (Nat.eqb x) l' then dedup l' else x :: dedup l'
  end.

(** The positions after [k] more rounds of [body], and after up to
    [extra] rounds beyond those. *)
Fixpoint rounds (body : nat -> list nat) (k : nat) (ps : list nat)
  : list nat :=
  match k with
  | O => ps
  | S k => rounds body k (dedup (flat_map body ps))
  end.

Fixpoint upto (body : nat -> list nat) (extra : nat) (ps : list nat)
  : list nat :=
  match extra with
  | O => ps
  | S extra => dedup (ps ++ upto body extra (dedup (flat_map body ps)))
  end.

Section Matching.

Variable ignorecase : bool.
Variable s : list ascii.

Definition one (ok : ascii -> bool) (i : nat) : list nat :=
  match nth_error s i with
  | Some c => if ok c then [S i] else []
  | None => []
  end.

(** [$]: the end of the string, or just before a newline that ends it. *)
Definition at_end (i : nat) : bool :=
  (i =? List.length s)%nat
  || ((S i =? List.length s)%nat
      && match nth_error s i with
         | Some c => Ascii.eqb c newline
         | None => false
         end).

(** The positions where a match of [r] that starts at [i] can end.  More
    rounds of a repetition than the string has positions reach nothing
    new, so the counts are cut there. *)
Fixpoint ends (r : regex) (i : nat) : list nat :=
  match r with
  | Empty => [i]
  | Literal l => one (item_ok ignorecase (Lit l)) i
  | Any => one (fun c => negb (Ascii.eqb c newline)) i
  | In negate set =>
    one (fun c => xorb negate (existsb (fun item => item_ok ignorecase item c)
                                 set)) i
  | Bol => if (i =? 0)%nat then [i] else []
  | Eol => if at_end i then [i] else []
  | Group r' => ends r' i
  | Seq r1 r2 => dedup (flat_map (ends r2) (ends r1 i))
  | Branch r1 r2 => dedup (ends r1 i ++ ends r2 i)
  | Repeat lo hi r' =>
    let cut := N.of_nat (S (List.length s)) in
    let lo' := N.to_nat (N.min lo cut) in
    let hi' := N.to_nat (N.min hi cut) in
    upto (ends r') (hi' - lo') (rounds (ends r') lo' [i])
  end.

End Matching.

Definition nonempty (positions : list nat) : bool :=
  match positions with [] => false | _ :: _ => true end.

Definition too_large : PyError :=
  OverflowError "the repetition number is too large".

(** [re.match(pattern, s, flags)] with [flags] either [re.IGNORECASE] or
    none; [None] outside the fragment. *)
Definition py_match (ignorecase : bool) (pattern s : string)
  : option ReOutcome :=
  match parse pattern with
  | Bad => Some ReError
  | TooLarge => Some (ReRaises too_large)
  | Outside => None
  | Parsed r =>
    let text := list_ascii_of_string s in
    if forallb is_ascii text
    then Some (Found (nonempty (ends ignorecase text r 0)))
    else None
  end.

Definition supported (pattern s : string) : bool :=
  match py_match true pattern s with Some _ => true | None => false end.

(** [re.match(pattern, s, re.IGNORECASE)].  Outside the fragment the
    pattern is treated as one that does not compile; what is stated below
    about a pattern is stated where [supported] holds. *)
Definition re_match (pattern s : string) : ReOutcome :=
  match py_match true pattern s with
  | Some o => o
  | None => ReError
  end.

End SimpleRe.

(** ** [class RiskEngine] *)

Module RiskEngine.

(** The three configurations loaded by [__init__]; the store is the state of
    the monad. *)
Record t : Type := mk {
  account_config : AccountConfig.t;
  thesis_configs : Dict.t ThesisConfig.t;
  mappings : list Mapping.t
}.

(** [_load_account_config]; [None] is a file that could not be read. *)
Definition _load_account_config (raw : option AccountConfig.t)
  : AccountConfig.t :=
  match raw with
  | Some cfg => cfg
  | None =>
    AccountConfig.mk (Some 0.12)
      (Some [("NORMAL", 1.0); ("HALF", 0.5); ("MIN", 0.2)])
  end.

Definition or_default {A} (o : option A) (d : A) : A :=
  match o with Some a => a | None => d end.

(** The thesis used when none is configured, and when loading fails. *)
Definition default_thesis (name : string) : ThesisConfig.t :=
  ThesisConfig.mk name 0.25 0.02 ACTIVE "N/A" None.

(** The loop of [_load_thesis_config]: it stops at the first entry whose
    status is not a [ThesisStatus], keeping what it stored before. *)
Fixpoint load_theses (items : list (string * RawThesis.t))
    (configs : Dict.t ThesisConfig.t)
  : Dict.t ThesisConfig.t * option PyError :=
  match items with
  | [] => (configs, None)
  | (name, cfg) :: items' =>
    match ThesisStatus_of_value (or_default (RawThesis.status cfg) "ACTIVE") with
    | Raise e => (configs, Some e)
    | Ok st =>
      load_theses items'
        (Dict.set configs name
           (ThesisConfig.mk name
              (or_default (RawThesis.stress_pct cfg) 0.25)
              (or_default (RawThesis.budget_pct cfg) 0.05)
              st
              (or_default (RawThesis.falsifier cfg) "N/A")
              (RawThesis.time_window_end cfg)))
    end
  end.

(** [_load_thesis_config]; [None] is a file that could not be read, and the
    inner [None] a document without [theses:]. *)
Definition _load_thesis_config
    (raw : option (option (list (string * RawThesis.t))))
  : Dict.t ThesisConfig.t :=
  match raw with
  | None => Dict.set [] "_UNMAPPED" (default_thesis "_UNMAPPED")
  | Some data =>
    match load_theses (or_default data []) [] with
    | (configs, None) => configs
    | (configs, Some _) =>
      Dict.set configs "_UNMAPPED" (default_thesis "_UNMAPPED")
    end
  end.

(** [l.append(x)] *)
Definition append {A} (l : list A) (x : A) : list A := (l ++ [x])%list.

Section Methods.

(** [re_match p s] is [re.match(p, s, re.IGNORECASE)].  Only [re.error] is
    caught by the loop; any other exception of [re.match] leaves it. *)
Variable re_match : string -> string -> ReOutcome.

Fixpoint resolve (mappings : list Mapping.t) (symbol : string)
  : Result (string * Q) :=
  match mappings with
  | [] => Ok ("_UNMAPPED", 1.0)
  | mapping :: rest =>
    let pattern := Mapping.pattern mapping in
    if String.eqb pattern symbol
    then Ok (Mapping.thesis mapping, Mapping.weight mapping)
    else
      match re_match ("^" ++ pattern ++ "$") symbol with
      | Found true => Ok (Mapping.thesis mapping, Mapping.weight mapping)
      | Found false => resolve rest symbol
      | ReError => resolve rest symbol
      | ReRaises e => Raise e
      end
  end.

Definition _map_position_to_thesis (self : t) (symbol : string)
  : Result (string * Q) :=
  resolve (mappings self) symbol.

Definition _compute_mode (self : t) (drawdown : Q) : RiskMode * Q :=
  let x := or_default (AccountConfig.drawdown_x (account_config self)) 0.12 in
  let risk_scales :=
    or_default (AccountConfig.risk_scale (account_config self)) [] in
  let mode :=
    if PyFloat.gtb drawdown (- x) then NORMAL
    else if PyFloat.gtb drawdown (-2 * x) then HALF
    else MIN in
  let scale := Dict.get_default risk_scales (RiskMode_value mode) 1.0 in
  (mode, scale).

(** The first loop of [compute]: equity and positions of the accounts whose
    status is OK. *)
Definition aggregate_step
    (st : Dict.t string * Q * list Position.t * string)
    (acc : AccountData.t)
  : Dict.t string * Q * list Position.t * string :=
  let '(broker_statuses, total_equity, all_positions, status) := st in
  let broker_statuses :=
    Dict.set broker_statuses
      (AccountData.broker acc ++ ":" ++ AccountData.account_id acc)
      (AccountData.status acc) in
  if String.eqb (AccountData.status acc) "OK"
  then (broker_statuses, total_equity + AccountData.equity acc,
        (all_positions ++ AccountData.positions acc)%list, status)
  else (broker_statuses, total_equity, all_positions, "DEGRADED").

Definition aggregate (accounts_data : list AccountData.t)
  : Dict.t string * Q * list Position.t * string :=
  fold_left aggregate_step accounts_data ([], 0, [], "OK").

(** The loop that sets [pos.thesis]; the weight is dropped.  An exception
    of [_map_position_to_thesis] ends the loop and the run. *)
Fixpoint map_positions (self : t) (all_positions : list Position.t)
  : Result (list Position.t) :=
  match all_positions with
  | [] => Ok []
  | pos :: rest =>
    match _map_position_to_thesis self (Position.symbol pos) with
    | Raise e => Raise e
    | Ok (thesis, weight) =>
      match map_positions self rest with
      | Raise e => Raise e
      | Ok rest' => Ok (Position.set_thesis pos thesis :: rest')
      end
    end
  end.

(** The loop that fills [thesis_mvs] and [thesis_positions]. *)
Definition group_step
    (st : Dict.t Q * Dict.t (list Position.t)) (pos : Position.t)
  : Dict.t Q * Dict.t (list Position.t) :=
  let '(thesis_mvs, thesis_positions) := st in
  let thesis := Position.thesis pos in
  let '(thesis_mvs, thesis_positions) :=
    if negb (Dict.mem thesis_mvs thesis)
    then (Dict.set thesis_mvs thesis 0, Dict.set thesis_positions thesis [])
    else (thesis_mvs, thesis_positions) in
  (Dict.set thesis_mvs thesis
     (Dict.get_default thesis_mvs thesis 0 + Position.mv pos),
   Dict.set thesis_positions thesis
     (append (Dict.get_default thesis_positions thesis []) pos)).

Definition group_by_thesis (all_positions : list Position.t)
  : Dict.t Q * Dict.t (list Position.t) :=
  fold_left group_step all_positions ([], []).

Definition is_short_option (p : Position.t) : bool :=
  match Position.instrument_type p with
  | OPTION => PyFloat.ltb (Position.qty p) 0
  | _ => false
  end.

(** [worst_loss / budget_dollars if budget_dollars > 0 else float('inf')] *)
Definition utilization_of (worst_loss budget_dollars : Q) : xfloat :=
  if PyFloat.gtb budget_dollars 0
  then Fin (worst_loss / budget_dollars) else Inf.

(** The body of the loop over [thesis_mvs.items()]: the metrics and the
    action of one thesis, and the entries it adds to the action log. *)
Definition compute_thesis (self : t) (total_equity risk_scale : Q)
    (thesis_positions : Dict.t (list Position.t))
    (thesis_name : string) (mv : Q) (actions : list string)
  : Result (list string * ThesisResult.t) :=
  let config :=
    match Dict.get (thesis_configs self) thesis_name with
    | Some config => config
    | None => default_thesis thesis_name
    end in
  let positions := Dict.get_default thesis_positions thesis_name [] in
  let actions :=
    if existsb is_short_option positions
    then append actions
           ("WARNING: " ++ thesis_name ++ " has short options - "
              ++ "risk may be understated (UNSUPPORTED_RISK)")
    else actions in
  let worst_loss := Qabs mv * ThesisConfig.stress_pct config in
  let budget_dollars :=
    total_equity * ThesisConfig.budget_pct config * risk_scale in
  let utilization := utilization_of worst_loss budget_dollars in
  let result action reduce_amount target_mv :=
    ThesisResult.mk thesis_name mv
      (ThesisConfig.stress_pct config) (ThesisConfig.budget_pct config)
      worst_loss budget_dollars utilization action reduce_amount target_mv
      (ThesisConfig.status config) (ThesisConfig.falsifier config)
      positions in
  if ThesisStatus_eqb (ThesisConfig.status config) BROKEN then
    Ok (append actions (thesis_name ++ ": EXIT (thesis BROKEN)"),
        result (Some "EXIT") mv 0)
  else if PyFloat.xgtb utilization (Fin 1.0) then
    match PyFloat.div budget_dollars (ThesisConfig.stress_pct config) with
    | Raise e => Raise e
    | Ok target_mv =>
      let reduce_amount := mv - target_mv in
      let action := "REDUCE $" ++ Fmt.fixed true 0 reduce_amount in
      Ok (append actions
            (thesis_name ++ ": " ++ action ++ " (Util="
               ++ Fmt.xpercent 1 utilization ++ ")"),
          result (Some action) reduce_amount target_mv)
    end
  else Ok (actions, result None 0 mv).

Definition compute_theses (self : t) (total_equity risk_scale : Q)
    (thesis_positions : Dict.t (list Position.t))
  : list (string * Q) -> list string -> list ThesisResult.t ->
    Result (list string * list ThesisResult.t) :=
  fix loop items actions thesis_results :=
    match items with
    | [] => Ok (actions, thesis_results)
    | (thesis_name, mv) :: items' =>
      match compute_thesis self total_equity risk_scale thesis_positions
              thesis_name mv actions with
      | Raise e => Raise e
      | Ok (actions, r) => loop items' actions (append thesis_results r)
      end
    end.

(** [thesis_results.sort(key=lambda t: t.utilization, reverse=True)].
    Python's sort is stable, with [reverse=True] too: theses of equal
    utilization keep their order.  There is one such arrangement of a list,
    and inserting from the right is a way to compute it. *)
Fixpoint insert_desc (x : ThesisResult.t) (l : list ThesisResult.t)
  : list ThesisResult.t :=
  match l with
  | [] => [x]
  | y :: l' =>
    if PyFloat.xgtb (ThesisResult.utilization y) (ThesisResult.utilization x)
    then y :: insert_desc x l'
    else x :: l
  end.

Definition sort_by_utilization (l : list ThesisResult.t)
  : list ThesisResult.t :=
  fold_right insert_desc [] l.

Definition _save_results (timestamp : datetime) (equity peak drawdown : Q)
    (mode : RiskMode) (risk_scale : Q) (status : string)
    (thesis_results : list ThesisResult.t) (positions : list Position.t)
  : M unit :=
  writes (Storage.save_equity_snapshot
            (EquitySnapshot.mk timestamp equity peak drawdown
               (RiskMode_value mode) risk_scale status)) ;;;
  writes (Storage.save_thesis_metrics
            (map (fun t =>
                    ThesisMetric.mk timestamp (ThesisResult.name t)
                      (ThesisResult.mv t) (ThesisResult.stress_pct t)
                      (ThesisResult.budget_pct t) (ThesisResult.worst_loss t)
                      (ThesisResult.budget_dollars t)
                      (ThesisResult.utilization t) (ThesisResult.action t)
                      (ThesisStatus_value (ThesisResult.status t)))
                 thesis_results)) ;;;
  writes (Storage.save_positions
            (map (fun p =>
                    PositionRecord.mk timestamp (Position.broker p)
                      (Position.account_id p) (Position.symbol p)
                      (InstrumentType_value (Position.instrument_type p))
                      (Position.qty p) (Position.multiplier p)
                      (Position.price p) (Position.mv p)
                      (Position.currency p) (Position.thesis p)
                      (Position.notes p))
                 positions)).

(** [RiskMode(old_mode_str) if old_mode_str else None] *)
Definition parse_old_mode (old_mode_str : option string)
  : Result (option RiskMode) :=
  match old_mode_str with
  | None => Ok None
  | Some s =>
    if String.eqb s "" then Ok None
    else match RiskMode_of_value s with
         | Ok m => Ok (Some m)
         | Raise e => Raise e
         end
  end.

(** [compute]; [timestamp] is what [datetime.now()] returns at its start. *)
Definition compute (self : t) (timestamp : datetime)
    (accounts_data : list AccountData.t) : M RiskResult.t :=
  let '(broker_statuses, total_equity, all_positions, status) :=
    aggregate accounts_data in
  if Qle_bool total_equity 0
  then raise (ValueError "Equity cannot be computed reliably")
  else
    historical_peak <- reads Storage.get_peak ;;
    let peak := PyFloat.max historical_peak total_equity in
    let drawdown :=
      if PyFloat.gtb peak 0 then (total_equity - peak) / peak else 0 in
    let '(mode, risk_scale) := _compute_mode self drawdown in
    old_mode_str <- reads Storage.get_last_mode ;;
    old_mode <- lift (parse_old_mode old_mode_str) ;;
    let mode_changed :=
      match old_mode with
      | Some om => negb (RiskMode_eqb om mode)
      | None => false
      end in
    actions <-
      (if mode_changed
       then
         writes (Storage.save_mode_change timestamp old_mode_str
                   (RiskMode_value mode) total_equity drawdown) ;;;
         ret ["MODE CHANGE: "
                ++ match old_mode with
                   | Some om => RiskMode_value om
                   | None => ""
                   end
                ++ " -> " ++ RiskMode_value mode]
       else ret []) ;;
    let actions :=
      match mode with
      | NORMAL => actions
      | _ => append actions
               ("Account in " ++ RiskMode_value mode
                  ++ " mode - risk scaled to " ++ Fmt.percent 0 risk_scale)
      end in
    all_positions <- lift (map_positions self all_positions) ;;
    let '(thesis_mvs, thesis_positions) := group_by_thesis all_positions in
    r <- lift (compute_theses self total_equity risk_scale thesis_positions
                 thesis_mvs actions []) ;;
    let '(actions, thesis_results) := r in
    let thesis_results := sort_by_utilization thesis_results in
    _save_results timestamp total_equity peak drawdown mode risk_scale
      status thesis_results all_positions ;;;
    ret (RiskResult.mk timestamp total_equity peak drawdown mode risk_scale
           thesis_results all_positions status broker_statuses actions
           mode_changed old_mode).

End Methods.

End RiskEngine.

(** ** Vocabulary of the specification *)

(** Sum of [equity] over the accounts whose status is OK. *)
Definition sum_ok_equity (accounts : list AccountData.t) : Q :=
  fold_left (fun s acc => s + AccountData.equity acc)
    (filter (fun acc => String.eqb (AccountData.status acc) "OK") accounts) 0.

(** Positions of the accounts whose status is OK, in account order. *)
Definition ok_positions (accounts : list AccountData.t) : list Position.t :=
  flat_map AccountData.positions
    (filter (fun acc => String.eqb (AccountData.status acc) "OK") accounts).

(** [sum(p.mv for p in positions)] *)
Definition sum_mv (positions : list Position.t) : Q :=
  fold_left (fun s p => s + Position.mv p) positions 0.

(** [sum(t.mv for t in thesis_results)] *)
Definition sum_thesis_mv (results : list ThesisResult.t) : Q :=
  fold_left (fun s t => s + ThesisResult.mv t) results 0.

(** A sum written from the right, to reason about the left folds of the
    code. *)
Fixpoint total {A} (f : A -> Q) (l : list A) : Q :=
  match l with
  | [] => 0
  | x :: l' => f x + total f l'
  end.

(** The members of a thesis among the mapped positions. *)
Definition members (thesis : string) (positions : list Position.t)
  : list Position.t :=
  filter (fun p => String.eqb (Position.thesis p) thesis) positions.

(** The distinct ids of a list in the order of their first occurrence,
    leaving out those already [seen]. *)
Fixpoint first_seen (seen : list string) (ids : list string) : list string :=
  match ids with
  | [] => []
  | x :: ids' =>
    if existsb (String.eqb x) seen then first_seen seen ids'
    else x :: first_seen (x :: seen) ids'
  end.

(** [x] occurs somewhere before [y] in [l]. *)
Definition before {A} (x y : A) (l : list A) : Prop :=
  exists l1 l2 l3, l = (l1 ++ x :: l2 ++ y :: l3)%list.

(** [a >= b] on utilizations: the order of a descending list. *)
Definition util_ge (a b : ThesisResult.t) : Prop :=
  PyFloat.xgtb (ThesisResult.utilization b) (ThesisResult.utilization a)
  = false.

(** Two utilizations compare equal. *)
Definition util_eq (a b : ThesisResult.t) : Prop :=
  PyFloat.xeqb (ThesisResult.utilization a) (ThesisResult.utilization b)
  = true.

(** A rule matches a symbol: its pattern is the symbol, or the pattern
    anchored at both ends matches it as a case-insensitive regular
    expression. *)
Definition rule_matches (re_match : string -> string -> ReOutcome)
    (m : Mapping.t) (symbol : string) : bool :=
  String.eqb (Mapping.pattern m) symbol
  || match re_match ("^" ++ Mapping.pattern m ++ "$") symbol with
     | Found b => b
     | _ => false
     end.

(** A rule is passed over: its pattern is not the symbol, and [re.match]
    finds no match or raises [re.error]. *)
Definition rule_misses (re_match : string -> string -> ReOutcome)
    (m : Mapping.t) (symbol : string) : bool :=
  negb (String.eqb (Mapping.pattern m) symbol)
  && match re_match ("^" ++ Mapping.pattern m ++ "$") symbol with
     | Found b => negb b
     | ReError => true
     | ReRaises _ => false
     end.

(** A rule on which [re.match] raises an exception that is not
    [re.error]. *)
Definition rule_raises (re_match : string -> string -> ReOutcome)
    (m : Mapping.t) (symbol : string) (e : PyError) : Prop :=
  Mapping.pattern m <> symbol
  /\ re_match ("^" ++ Mapping.pattern m ++ "$") symbol = ReRaises e.

(** What a rule says apart from its weight. *)
Definition rule_key (m : Mapping.t) : string * string :=
  (Mapping.pattern m, Mapping.thesis m).


(** The configured threshold and scales as [_compute_mode] reads them. *)
Definition threshold_x (self : RiskEngine.t) : Q :=
  RiskEngine.or_default
    (AccountConfig.drawdown_x (RiskEngine.account_config self)) 0.12.

Definition scale_by_mode (self : RiskEngine.t) : Dict.t Q :=
  RiskEngine.or_default
    (AccountConfig.risk_scale (RiskEngine.account_config self)) [].

(** The configuration a thesis is evaluated with. *)
Definition config_of (self : RiskEngine.t) (thesis_name : string)
  : ThesisConfig.t :=
  match Dict.get (RiskEngine.thesis_configs self) thesis_name with
  | Some config => config
  | None => RiskEngine.default_thesis thesis_name
  end.

(** A sequence of [compute] calls on one store, failed calls included. *)
Fixpoint runs (re_match : string -> string -> ReOutcome)
    (self : RiskEngine.t) (calls : list (datetime * list AccountData.t))
    (st : Storage.t) : Storage.t :=
  match calls with
  | [] => st
  | (timestamp, accounts_data) :: calls' =>
    runs re_match self calls'
      (snd (RiskEngine.compute re_match self timestamp accounts_data st))
  end.


(** The status of an entry is one of the three. *)
Definition valid_status (raw : RawThesis.t) : Prop :=
  exists st,
    ThesisStatus_of_value (RiskEngine.or_default (RawThesis.status raw) "ACTIVE")
    = Ok st.

(** The quantities of one run, as functions of its inputs. *)
Definition run_peak (st : Storage.t) (accounts : list AccountData.t) : Q :=
  PyFloat.max (Storage.get_peak st) (sum_ok_equity accounts).

Definition run_drawdown (st : Storage.t) (accounts : list AccountData.t)
  : Q :=
  if PyFloat.gtb (run_peak st accounts) 0
  then (sum_ok_equity accounts - run_peak st accounts) / run_peak st accounts
  else 0.

(** The thesis the resolver gives a symbol; [_UNMAPPED] stands in where it
    raises and gives none. *)
Definition resolved_thesis (re_match : string -> string -> ReOutcome)
    (self : RiskEngine.t) (symbol : string) : string :=
  match RiskEngine._map_position_to_thesis re_match self symbol with
  | Ok (thesis, _) => thesis
  | Raise _ => "_UNMAPPED"
  end.

(** Positions with the thesis of their symbol set: what the mapping loop
    leaves when it does not raise. *)
Definition with_theses (re_match : string -> string -> ReOutcome)
    (self : RiskEngine.t) (positions : list Position.t) : list Position.t :=
  map (fun pos =>
         Position.set_thesis pos
           (resolved_thesis re_match self (Position.symbol pos)))
    positions.

Definition run_positions (re_match : string -> string -> ReOutcome)
    (self : RiskEngine.t) (accounts : list AccountData.t)
  : list Position.t :=
  with_theses re_match self (ok_positions accounts).

(** The message of the error raised when there is no equity. *)
Definition equity_unavailable : PyError :=
  ValueError "Equity cannot be computed reliably".

(** The metrics of a thesis result, for a run of total equity
    [total_equity] and scale [risk_scale]. *)
Definition metrics_ok (total_equity risk_scale : Q) (t : ThesisResult.t)
  : Prop :=
  ThesisResult.worst_loss t
  == Qabs (ThesisResult.mv t) * ThesisResult.stress_pct t
  /\ ThesisResult.budget_dollars t
     == total_equity * ThesisResult.budget_pct t * risk_scale
  /\ (0 < ThesisResult.budget_dollars t ->
      exists u, ThesisResult.utilization t = Fin u
                /\ u == ThesisResult.worst_loss t
                        / ThesisResult.budget_dollars t)
  /\ (ThesisResult.budget_dollars t <= 0 ->
      ThesisResult.utilization t = Inf).

(** The text of a REDUCE action. *)
Definition reduce_text (reduce_amount : Q) : string :=
  "REDUCE $" ++ Fmt.fixed true 0 reduce_amount.

(** The action of a thesis result, in priority order: BROKEN, then
    utilization above 1, then nothing to do. *)
Definition action_ok (t : ThesisResult.t) : Prop :=
  match ThesisResult.status t with
  | BROKEN =>
    ThesisResult.action t = Some "EXIT"
    /\ ThesisResult.reduce_amount t == ThesisResult.mv t
    /\ ThesisResult.target_mv t == 0
  | _ =>
    if PyFloat.xgtb (ThesisResult.utilization t) (Fin 1.0)
    then
      ~ ThesisResult.stress_pct t == 0
      /\ ThesisResult.target_mv t
         == ThesisResult.budget_dollars t / ThesisResult.stress_pct t
      /\ ThesisResult.reduce_amount t
         == ThesisResult.mv t - ThesisResult.target_mv t
      /\ ThesisResult.action t
         = Some (reduce_text (ThesisResult.reduce_amount t))
    else
      ThesisResult.action t = None
      /\ ThesisResult.reduce_amount t == 0
      /\ ThesisResult.target_mv t == ThesisResult.mv t
  end.

(** What a thesis result of a run says, given the run's equity, scale and
    mapped positions. *)
Definition thesis_ok (self : RiskEngine.t) (r : RiskResult.t)
    (t : ThesisResult.t) : Prop :=
  ThesisResult.positions t
  = members (ThesisResult.name t) (RiskResult.positions r)
  /\ ThesisResult.mv t = sum_mv (ThesisResult.positions t)
  /\ ThesisResult.stress_pct t
     = ThesisConfig.stress_pct (config_of self (ThesisResult.name t))
  /\ ThesisResult.budget_pct t
     = ThesisConfig.budget_pct (config_of self (ThesisResult.name t))
  /\ ThesisResult.status t
     = ThesisConfig.status (config_of self (ThesisResult.name t))
  /\ metrics_ok (RiskResult.equity r) (RiskResult.risk_scale r) t
  /\ action_ok t.

(** ** Sample configuration and inputs (those of the test suite) *)

Module Sample.

Definition theses : list (string * RawThesis.t) :=
  [("Test_Thesis",
    RawThesis.mk (Some 0.30) (Some 0.10) (Some "ACTIVE")
      (Some "Test invalidation") None);
   ("Broken_Thesis",
    RawThesis.mk (Some 0.25) (Some 0.05) (Some "BROKEN")
      (Some "Already broken") None);
   ("_UNMAPPED",
    RawThesis.mk (Some 0.25) (Some 0.02) (Some "ACTIVE") (Some "N/A") None)].

Definition rules : list Mapping.t :=
  [Mapping.mk "AAPL" "Test_Thesis" 1.0;
   Mapping.mk "MSFT" "Test_Thesis" 1.0;
   Mapping.mk "BROKEN" "Broken_Thesis" 1.0].

Definition engine : RiskEngine.t :=
  RiskEngine.mk (RiskEngine._load_account_config None)
    (RiskEngine._load_thesis_config (Some (Some theses))) rules.

Definition stock (symbol : string) (qty price mv : Q) : Position.t :=
  Position.mk "Test" "123" symbol STOCK qty 1.0 price mv "USD" "_UNMAPPED"
    None.

Definition account (equity cash : Q) (positions : list Position.t)
  : AccountData.t :=
  AccountData.mk "Test" "123" equity cash positions "OK" None.

(** An account of 100000 with positions in three theses. *)
Definition accounts : list AccountData.t :=
  [account 100000 38000
     [stock "AAPL" 100 150 15000;
      stock "XYZ" 10 100 1000;
      stock "BROKEN" 100 100 10000;
      stock "MSFT" 50 300 15000;
      stock "QQQ" 10 100 1000]].

(** Rules for two theses without configuration, and an account whose
    positions give them the same utilization. *)
Definition tie_engine : RiskEngine.t :=
  RiskEngine.mk (RiskEngine._load_account_config None) []
    [Mapping.mk "B.*" "Beta" 1.0; Mapping.mk "A.*" "Alpha" 0.5].

Definition tie_accounts : list AccountData.t :=
  [account 100000 0
     [stock "BBB" 10 100 1000;
      stock "CCC" 10 50 500;
      stock "AAA" 10 100 1000;
      stock "BB" 10 200 2000;
      stock "AA" 10 200 2000]].

(** A thesis configured with a stress percentage and a budget of zero, and
    an account holding one position of it. *)
Definition zero_theses : list (string * RawThesis.t) :=
  [("Zero", RawThesis.mk (Some 0) (Some 0) (Some "ACTIVE") None None)].

Definition zero_engine : RiskEngine.t :=
  RiskEngine.mk (RiskEngine._load_account_config None)
    (RiskEngine._load_thesis_config (Some (Some zero_theses)))
    [Mapping.mk "ZZZ" "Zero" 1.0].

Definition zero_accounts : list AccountData.t :=
  [account 100000 99000 [stock "ZZZ" 10 100 1000]].

(** A store whose only snapshot has peak 100000 and mode NORMAL. *)
Definition store : Storage.t :=
  Storage.save_equity_snapshot
    (EquitySnapshot.mk 1%N 100000 100000 0 "NORMAL" 1.0 "OK") Storage.empty.

End Sample.

(** ** Further vocabulary: what one run does to the store *)

(** The key of an account in [broker_statuses]. *)
Definition account_key (acc : AccountData.t) : string :=
  AccountData.broker acc ++ ":" ++ AccountData.account_id acc.

Definition is_ok (acc : AccountData.t) : bool :=
  String.eqb (AccountData.status acc) "OK".

(** The last account of a list that has a given key. *)
Definition last_with_key (key : string) (accounts : list AccountData.t)
  : option AccountData.t :=
  find (fun acc => String.eqb (account_key acc) key) (rev accounts).

(** The row [_save_results] writes for a thesis result, and for a
    position. *)
Definition metric_row (timestamp : datetime) (t : ThesisResult.t)
  : ThesisMetric.t :=
  ThesisMetric.mk timestamp (ThesisResult.name t) (ThesisResult.mv t)
    (ThesisResult.stress_pct t) (ThesisResult.budget_pct t)
    (ThesisResult.worst_loss t) (ThesisResult.budget_dollars t)
    (ThesisResult.utilization t) (ThesisResult.action t)
    (ThesisStatus_value (ThesisResult.status t)).

Definition position_row (timestamp : datetime) (p : Position.t)
  : PositionRecord.t :=
  PositionRecord.mk timestamp (Position.broker p) (Position.account_id p)
    (Position.symbol p) (InstrumentType_value (Position.instrument_type p))
    (Position.qty p) (Position.multiplier p) (Position.price p)
    (Position.mv p) (Position.currency p) (Position.thesis p)
    (Position.notes p).

(** The snapshot row of a result. *)
Definition snapshot_row (r : RiskResult.t) : EquitySnapshot.t :=
  EquitySnapshot.mk (RiskResult.timestamp r) (RiskResult.equity r)
    (RiskResult.peak r) (RiskResult.drawdown r)
    (RiskMode_value (RiskResult.mode r)) (RiskResult.risk_scale r)
    (RiskResult.status r).

(** The mode-change row of a result, given the mode text read from the
    store. *)
Definition mode_change_row (old_mode_str : option string) (r : RiskResult.t)
  : ModeChange.t :=
  ModeChange.mk (RiskResult.timestamp r) old_mode_str
    (RiskMode_value (RiskResult.mode r)) (RiskResult.equity r)
    (RiskResult.drawdown r).

(** [l] with rows added at its end. *)
Definition extends {A} (l l' : list A) : Prop := exists rows, l' = (l ++ rows)%list.

(** The entries of the action log. *)
Definition mode_change_entry (old new : RiskMode) : string :=
  "MODE CHANGE: " ++ RiskMode_value old ++ " -> " ++ RiskMode_value new.

Definition mode_entry (mode : RiskMode) (risk_scale : Q) : string :=
  "Account in " ++ RiskMode_value mode ++ " mode - risk scaled to "
    ++ Fmt.percent 0 risk_scale.

Definition warning_entry (thesis_name : string) : string :=
  "WARNING: " ++ thesis_name ++ " has short options - "
    ++ "risk may be understated (UNSUPPORTED_RISK)".

Definition exit_entry (thesis_name : string) : string :=
  thesis_name ++ ": EXIT (thesis BROKEN)".

Definition reduce_entry (thesis_name action : string) (utilization : xfloat)
  : string :=
  thesis_name ++ ": " ++ action ++ " (Util=" ++ Fmt.xpercent 1 utilization
    ++ ")".

(** The result of a run with the two fields that tell of failed accounts
    left out. *)
Definition risk_view (r : RiskResult.t)
  : datetime * Q * Q * Q * RiskMode * Q * list ThesisResult.t
    * list Position.t * list string * bool * option RiskMode :=
  (RiskResult.timestamp r, RiskResult.equity r, RiskResult.peak r,
   RiskResult.drawdown r, RiskResult.mode r, RiskResult.risk_scale r,
   RiskResult.thesis_results r, RiskResult.positions r,
   RiskResult.actions r, RiskResult.mode_changed r, RiskResult.old_mode r).

(** The status of a run and its [broker_statuses], from the accounts. *)
Definition run_status (accounts : list AccountData.t) : string :=
  if forallb is_ok accounts then "OK" else "DEGRADED".

Definition run_broker_statuses (accounts : list AccountData.t)
  : Dict.t string :=
  fold_left (fun bs acc => Dict.set bs (account_key acc) (AccountData.status acc))
    accounts [].

(** The mode read back differs from the mode of the run. *)
Definition mode_differs (old_mode : option RiskMode) (mode : RiskMode)
  : bool :=
  match old_mode with
  | Some om => negb (RiskMode_eqb om mode)
  | None => false
  end.

(** The action log before the theses are looked at. *)
Definition initial_actions (old_mode : option RiskMode) (mode : RiskMode)
    (risk_scale : Q) : list string :=
  ((match old_mode with
    | Some om =>
      if negb (RiskMode_eqb om mode) then [mode_change_entry om mode] else []
    | None => []
    end)
   ++ match mode with
      | NORMAL => []
      | _ => [mode_entry mode risk_scale]
      end)%list.

(** The store after the mode change, if any, is logged. *)
Definition store_after_mode (timestamp : datetime) (old_mode : option RiskMode)
    (mode : RiskMode) (equity drawdown : Q) (st : Storage.t) : Storage.t :=
  if mode_differs old_mode mode
  then Storage.save_mode_change timestamp (Storage.get_last_mode st)
         (RiskMode_value mode) equity drawdown st
  else st.

(** ** Further sample inputs *)

Module Demo.

(** One failed account beside the sample account. *)
Definition failed : AccountData.t :=
  AccountData.mk "Bad" "456" 0 0 [] "ERROR" (Some "Connection failed").

Definition mixed_accounts : list AccountData.t :=
  (Sample.accounts ++ [failed])%list.

(** Equity 80000 with one position of the thesis [Zero]. *)
Definition drop_accounts : list AccountData.t :=
  [Sample.account 80000 79000 [Sample.stock "ZZZ" 10 100 1000]].

(** The result of a run that returned one. *)
Definition result_of (run : Result RiskResult.t * Storage.t) : RiskResult.t :=
  match fst run with
  | Ok r => r
  | Raise _ => RiskResult.mk 0%N 0 0 0 NORMAL 0 [] [] "" [] [] false None
  end.

Definition mixed_run : Result RiskResult.t * Storage.t :=
  RiskEngine.compute SimpleRe.re_match Sample.engine 2%N mixed_accounts
    Sample.store.

(** Equity 88000 under the stored peak of 100000. *)
Definition half_accounts : list AccountData.t :=
  [Sample.account 88000 68000 [Sample.stock "AAPL" 100 200 20000]].

Definition half_run : Result RiskResult.t * Storage.t :=
  RiskEngine.compute SimpleRe.re_match Sample.engine 2%N half_accounts
    Sample.store.

Definition drop_run : Result RiskResult.t * Storage.t :=
  RiskEngine.compute SimpleRe.re_match Sample.zero_engine 2%N drop_accounts
    Sample.store.

Definition first_run : Result RiskResult.t * Storage.t :=
  RiskEngine.compute SimpleRe.re_match Sample.engine 2%N Sample.accounts
    Storage.empty.

Definition half_result : RiskResult.t :=
  Eval vm_compute in result_of half_run.

Definition half_store : Storage.t := Eval vm_compute in snd half_run.

(** A store whose last snapshot carries a mode that is not one. *)
Definition panic_store : Storage.t :=
  Storage.save_equity_snapshot
    (EquitySnapshot.mk 1%N 100000 100000 0 "PANIC" 1.0 "OK") Storage.empty.

(** The run after [half_run], with the equity back at 100000. *)
Definition back_run : Result RiskResult.t * Storage.t :=
  RiskEngine.compute SimpleRe.re_match Sample.engine 3%N Sample.accounts
    half_store.

Definition back_result : RiskResult.t :=
  Eval vm_compute in result_of back_run.

Definition mixed_result : RiskResult.t :=
  Eval vm_compute in result_of mixed_run.

Definition first_result : RiskResult.t :=
  Eval vm_compute in result_of first_run.

Definition drop_store : Storage.t := Eval vm_compute in snd drop_run.

End Demo.

(** What the evaluation of one thesis adds to the action log. *)
Definition thesis_entries_ok (t : ThesisResult.t) (entries : list string)
  : Prop :=
  (existsb RiskEngine.is_short_option (ThesisResult.positions t) = true ->
   In (warning_entry (ThesisResult.name t)) entries)
  /\ (ThesisResult.status t = BROKEN ->
      In (exit_entry (ThesisResult.name t)) entries)
  /\ (ThesisResult.status t <> BROKEN ->
      forall a, ThesisResult.action t = Some a ->
        In (reduce_entry (ThesisResult.name t) a (ThesisResult.utilization t))
           entries)
  /\ (ThesisResult.action t = None ->
      existsb RiskEngine.is_short_option (ThesisResult.positions t) = false ->
      entries = []).

(** A thesis result that asks for nothing and warns of nothing. *)
Definition quiet (t : ThesisResult.t) : Prop :=
  ThesisResult.action t = None
  /\ existsb RiskEngine.is_short_option (ThesisResult.positions t) = false.

(** ** Vocabulary for the loading of the configuration *)

(** What [_load_thesis_config] puts under [_UNMAPPED] when loading fails. *)
Definition fallback_unmapped : ThesisConfig.t :=
  RiskEngine.default_thesis "_UNMAPPED".

Module DemoConfig.

(** [theses:] with a status that is no [ThesisStatus] in its third entry. *)
Definition typo_theses : list (string * RawThesis.t) :=
  [("_UNMAPPED",
    RawThesis.mk (Some 0.50) (Some 0.10) (Some "ACTIVE") (Some "N/A") None);
   ("Test_Thesis",
    RawThesis.mk (Some 0.30) (Some 0.10) (Some "ACTIVE")
      (Some "Test invalidation") None);
   ("Typo_Thesis",
    RawThesis.mk (Some 0.25) (Some 0.05) (Some "active") None None);
   ("Late_Thesis",
    RawThesis.mk (Some 0.40) (Some 0.20) (Some "WATCH") None None)].

End DemoConfig.

(** ** Text functions for the worked examples

    [str.strip], [str.upper], [str.lower], [str.split] and [float] are
    parameters of the code that reads files; this module gives instances of
    them on ASCII text. *)

Module PyStr.

Definition is_space (c : ascii) : bool :=
  let n := nat_of_ascii c in
  ((n =? 32) || ((9 <=? n) && (n <=? 13)))%nat.

Fixpoint lstrip_chars (l : list ascii) : list ascii :=
  match l with
  | c :: l' => if is_space c then lstrip_chars l' else l
  | [] => []
  end.

Definition strip (s : string) : string :=
  string_of_list_ascii
    (rev (lstrip_chars (rev (lstrip_chars (list_ascii_of_string s))))).

Definition upper_char (c : ascii) : ascii :=
  let n := nat_of_ascii c in
  if ((97 <=? n) && (n <=? 122))%nat then ascii_of_nat (n - 32) else c.

Definition map_chars (f : ascii -> ascii) (s : string) : string :=
  string_of_list_ascii (map f (list_ascii_of_string s)).

Definition upper (s : string) : string := map_chars upper_char s.
Definition lower (s : string) : string := map_chars SimpleRe.lower s.

(** [s.split()[0]] for a text that begins with a word. *)
Fixpoint word (l : list ascii) : list ascii :=
  match l with
  | c :: l' => if is_space c then [] else c :: word l'
  | [] => []
  end.

Definition first_word (s : string) : string :=
  string_of_list_ascii (word (lstrip_chars (list_ascii_of_string s))).

Definition digit_of (c : ascii) : option Z :=
  let n := nat_of_ascii c in
  if ((48 <=? n) && (n <=? 57))%nat then Some (Z.of_nat (n - 48)) else None.

(** Digits read into a numerator and a count: [acc] so far, [k] digits
    read. *)
Fixpoint digits_value (l : list ascii) (acc : Z) (k : nat)
  : option (Z * nat * list ascii) :=
  match l with
  | c :: l' =>
    match digit_of c with
    | Some d => digits_value l' (acc * 10 + d)%Z (S k)
    | None => Some (acc, k, l)
    end
  | [] => Some (acc, k, [])
  end.

(** [float(s)] on plain decimals: an optional sign, digits, and an optional
    point with digits; [None] for any other text. *)
Definition unsigned_decimal (l : list ascii) : option Q :=
  match digits_value l 0%Z O with
  | Some (ip, k, rest) =>
    match rest with
    | [] => if (0 <? k)%nat then Some (inject_Z ip) else None
    | "."%char :: fl =>
      match digits_value fl 0%Z O with
      | Some (fp, j, []) =>
        if (0 <? k + j)%nat
        then Some (inject_Z ip
                   + inject_Z fp / inject_Z (10 ^ Z.of_nat j))
        else None
      | _ => None
      end
    | _ => None
    end
  | None => None
  end.

Definition py_float (s : string) : option Q :=
  match lstrip_chars (rev (lstrip_chars (rev (list_ascii_of_string s)))) with
  | "-"%char :: l => option_map Qopp (unsigned_decimal l)
  | "+"%char :: l => unsigned_decimal l
  | l => unsigned_decimal l
  end.

End PyStr.

(** ** Loading the mapping table ([RiskEngine._load_mappings]) *)

Module CsvField.
(** What [row.get(column, default)] finds in a row of [csv.DictReader]: the
    header has no such column, so the default is used; the row is too short
    for the column, which gives [None]; or a text. *)
Inductive t : Type :=
| NoColumn
| NoValue
| Text (s : string).
End CsvField.

Module MappingRow.
(** The three columns [_load_mappings] reads from one row of
    [mapping.csv]. *)
Record t : Type := mk {
  symbol_pattern : CsvField.t;
  thesis : CsvField.t;
  weight : CsvField.t
}.
End MappingRow.

Module Loader.

Section Loader.

(** [str.strip], and [float] on a text ([None] is its [ValueError]). *)
Variable strip : string -> string.
Variable py_float : string -> option Q.

(** [row.get(column, dflt).strip()]; on [None] it raises. *)
Definition stripped (f : CsvField.t) (dflt : string) : option string :=
  match f with
  | CsvField.NoColumn => Some (strip dflt)
  | CsvField.NoValue => None
  | CsvField.Text s => Some (strip s)
  end.

(** [float(row.get("weight", 1.0))]; on [None] it raises. *)
Definition to_float (f : CsvField.t) : option Q :=
  match f with
  | CsvField.NoColumn => Some 1.0
  | CsvField.NoValue => None
  | CsvField.Text s => py_float s
  end.

(** The dict appended for one row; [None] when building it raises. *)
Definition mapping_of_row (row : MappingRow.t) : option Mapping.t :=
  match stripped (MappingRow.symbol_pattern row) "" with
  | None => None
  | Some pattern =>
    match stripped (MappingRow.thesis row) "_UNMAPPED" with
    | None => None
    | Some thesis =>
      match to_float (MappingRow.weight row) with
      | None => None
      | Some weight => Some (Mapping.mk pattern thesis weight)
      end
    end
  end.

(** The loop over the reader: the first row that raises ends it, and what
    was appended stays. *)
Fixpoint load_rows (rows : list MappingRow.t) (mappings : list Mapping.t)
  : list Mapping.t :=
  match rows with
  | [] => mappings
  | row :: rows' =>
    match mapping_of_row row with
    | Some m => load_rows rows' (RiskEngine.append mappings m)
    | None => mappings
    end
  end.

(** [_load_mappings]; [None] is a file that could not be opened. *)
Definition _load_mappings (raw : option (list MappingRow.t))
  : list Mapping.t :=
  match raw with
  | None => []
  | Some rows => load_rows rows []
  end.

End Loader.

End Loader.

Module DemoMapping.

Definition row (pattern thesis weight : string) : MappingRow.t :=
  MappingRow.mk (CsvField.Text pattern) (CsvField.Text thesis)
    (CsvField.Text weight).

(** A table whose second row has a weight that is no number. *)
Definition rows : list MappingRow.t :=
  [row "AAPL" " Test_Thesis" "1.0";
   row "MSFT" "Test_Thesis" "half";
   row "BROKEN" "Broken_Thesis" "1.0"].

Definition load : option (list MappingRow.t) -> list Mapping.t :=
  Loader._load_mappings PyStr.strip PyStr.py_float.

End DemoMapping.

(** ** Notifications ([notifications.py])

    The methods of [Notifier] build a title and a message and hand them to
    [notify]; the transport behind [notify] is not modelled. *)

Module Notifier.

(** What a method does: it calls [notify], returns without doing so, or
    raises on [result.old_mode.value] when [old_mode] is [None]. *)
Inductive Outcome : Type :=
| Notify (title message : string)
| Silent
| AttributeError.

Definition nl : string := String "010"%char EmptyString.

Definition notify_mode_change (result : RiskResult.t) : Outcome :=
  if negb (RiskResult.mode_changed result) then Silent
  else
    match RiskResult.old_mode result with
    | None => AttributeError
    | Some old_mode =>
      Notify
        ("Mode Change: " ++ RiskMode_value old_mode ++ " -> "
           ++ RiskMode_value (RiskResult.mode result))
        ("Risk Mode Change Alert" ++ nl
           ++ nl
           ++ "Previous Mode: " ++ RiskMode_value old_mode ++ nl
           ++ "New Mode: " ++ RiskMode_value (RiskResult.mode result) ++ nl
           ++ "Risk Scale: " ++ Fmt.percent 0 (RiskResult.risk_scale result)
           ++ nl
           ++ nl
           ++ "Account Status:" ++ nl
           ++ "  Equity: $" ++ Fmt.fixed true 2 (RiskResult.equity result) ++ nl
           ++ "  Peak: $" ++ Fmt.fixed true 2 (RiskResult.peak result) ++ nl
           ++ "  Drawdown: " ++ Fmt.percent 2 (RiskResult.drawdown result) ++ nl
           ++ nl
           ++ "This change affects position sizing and thesis budgets." ++ nl)
    end.

(** [t.utilization > 1.0] *)
Definition over_budget (t : ThesisResult.t) : bool :=
  PyFloat.xgtb (ThesisResult.utilization t) (Fin 1.0).

Definition breaches (result : RiskResult.t) : list ThesisResult.t :=
  filter over_budget (RiskResult.thesis_results result).

(** [f"{o}"] for an optional text. *)
Definition str_of_option (o : option string) : string :=
  match o with Some s => s | None => "None" end.

(** [f"{n}"] for a length. *)
Definition str_of_nat (n : nat) : string :=
  NilEmpty.string_of_uint (Nat.to_uint n).

(** The four lines appended for one breach. *)
Definition breach_lines (t : ThesisResult.t) : list string :=
  ["  " ++ ThesisResult.name t ++ ": "
     ++ Fmt.xpercent 0 (ThesisResult.utilization t) ++ " utilization";
   "    Action: " ++ str_of_option (ThesisResult.action t);
   "    Reduce by: $" ++ Fmt.fixed true 0 (ThesisResult.reduce_amount t);
   ""].

Definition notify_utilization_breach (result : RiskResult.t) : Outcome :=
  match breaches result with
  | [] => Silent
  | _ :: _ =>
    Notify
      ("Utilization Breach: " ++ str_of_nat (List.length (breaches result))
         ++ " thesis(es)")
      (String.concat nl
         (("Thesis utilization exceeds budget:" ++ nl)
            :: flat_map breach_lines (breaches result)))
  end.

End Notifier.

(** ** The sheet rows ([sheets_writer.py])

    [write_account] and [write_snapshot] build one row each from a result;
    the calls to the Sheets API around them are not modelled. *)

Module SheetsWriter.

(** A cell: a text, a float, a float that may be infinite, an integer. *)
Inductive Cell : Type :=
| Str (s : string)
| Num (q : Q)
| XNum (u : xfloat)
| Int (n : nat).

Section Writer.

(** [datetime.isoformat] *)
Variable isoformat : datetime -> string.

(** The second row written by [write_account]. *)
Definition account_row (result : RiskResult.t) : list Cell :=
  [Str (isoformat (RiskResult.timestamp result));
   Num (RiskResult.equity result);
   Num (RiskResult.peak result);
   Num (RiskResult.drawdown result);
   Str (RiskMode_value (RiskResult.mode result));
   Num (RiskResult.risk_scale result);
   Str (RiskResult.status result)].

(** The row appended by [write_snapshot]. *)
Definition snapshot_row (result : RiskResult.t) : list Cell :=
  let top_thesis :=
    match RiskResult.thesis_results result with
    | t :: _ => Some t
    | [] => None
    end in
  let action_summary :=
    match RiskResult.actions result with
    | [] => ""
    | _ :: _ => String.concat "; " (firstn 3 (RiskResult.actions result))
    end in
  [Str (isoformat (RiskResult.timestamp result));
   Num (RiskResult.equity result);
   Num (RiskResult.peak result);
   Num (RiskResult.drawdown result);
   Str (RiskMode_value (RiskResult.mode result));
   Num (RiskResult.risk_scale result);
   Str (RiskResult.status result);
   Str (match top_thesis with Some t => ThesisResult.name t | None => "" end);
   match top_thesis with
   | Some t => XNum (ThesisResult.utilization t)
   | None => Int 0
   end;
   Int (List.length (RiskResult.actions result));
   Str (String.substring 0 200 action_summary)].

End Writer.

End SheetsWriter.

(** ** Connectors ([connectors/base.py], [connectors/schwab.py])

    The requests to the broker are not modelled: a connector is given with
    the answers it gets. *)

(** [str(e)] *)
Definition PyError_str (e : PyError) : string :=
  match e with
  | ValueError msg => msg
  | ZeroDivisionError => "float division by zero"
  | OverflowError msg => msg
  end.

Module BaseConnector.

(** A connector as [get_all_accounts_data] uses it: [get_account_data]
    returns the data of an account, or raises an exception ([inl], with its
    text). *)
Record t : Type := mk {
  broker_name : string;
  get_accounts : list string;
  get_account_data : string -> string + AccountData.t
}.

Definition get_all_accounts_data (self : t) : list AccountData.t :=
  fold_left
    (fun accounts account_id =>
       match get_account_data self account_id with
       | inr data => RiskEngine.append accounts data
       | inl e =>
         RiskEngine.append accounts
           (AccountData.mk (broker_name self) account_id 0 0 [] "ERROR"
              (Some e))
       end)
    (get_accounts self) [].

End BaseConnector.

Module Schwab.

(** The JSON of an account as [get_account_data] reads it; [None] is a
    missing key, and numbers are taken to be numbers. *)
Module Instrument.
Record t : Type := mk {
  symbol : option string;
  assetType : option string
}.
End Instrument.

Module RawPosition.
Record t : Type := mk {
  instrument : option Instrument.t;
  longQuantity : option Q;
  shortQuantity : option Q;
  marketValue : option Q
}.
End RawPosition.

Module Balances.
Record t : Type := mk {
  liquidationValue : option Q;
  cashBalance : option Q
}.
End Balances.

Module Account.
Record t : Type := mk {
  currentBalances : option Balances.t;
  positions : option (list RawPosition.t)
}.
End Account.

(** The response: its [securitiesAccount], and the response itself read as
    an account, which is used when that key is missing. *)
Module Response.
Record t : Type := mk {
  securitiesAccount : option Account.t;
  itself : Account.t
}.
End Response.

(** The body of the loop over [positions]. *)
Definition parse_position (account_id : string) (pos : RawPosition.t)
  : Result Position.t :=
  let instrument :=
    RiskEngine.or_default (RawPosition.instrument pos)
      (Instrument.mk None None) in
  let symbol := RiskEngine.or_default (Instrument.symbol instrument) "UNKNOWN" in
  let asset_type :=
    RiskEngine.or_default (Instrument.assetType instrument) "EQUITY" in
  let '(inst_type, multiplier) :=
    if String.eqb asset_type "OPTION" then (OPTION, 100.0)
    else if String.eqb asset_type "CASH_EQUIVALENT" then (CASH, 1.0)
    else if String.eqb asset_type "ETF" then (ETF, 1.0)
    else (STOCK, 1.0) in
  let qty :=
    RiskEngine.or_default (RawPosition.longQuantity pos) 0
    - RiskEngine.or_default (RawPosition.shortQuantity pos) 0 in
  match
    (if negb (Qeq_bool qty 0)
     then PyFloat.div (RiskEngine.or_default (RawPosition.marketValue pos) 0)
            (qty * multiplier)
     else Ok 0)
  with
  | Raise e => Raise e
  | Ok price =>
    let mv := RiskEngine.or_default (RawPosition.marketValue pos) 0 in
    Ok (Position.mk "Schwab" account_id symbol inst_type qty multiplier price
          mv "USD" "_UNMAPPED" (Some ("assetType=" ++ asset_type)))
  end.

Fixpoint parse_positions (account_id : string) (raw : list RawPosition.t)
    (positions : list Position.t) : Result (list Position.t) :=
  match raw with
  | [] => Ok positions
  | pos :: raw' =>
    match parse_position account_id pos with
    | Raise e => Raise e
    | Ok p => parse_positions account_id raw' (RiskEngine.append positions p)
    end
  end.

Definition failed (account_id msg : string) : AccountData.t :=
  AccountData.mk "Schwab" account_id 0 0 [] "ERROR" (Some msg).

(** [get_account_data]; [response] is what [_request] returns, [inl] being
    an exception it raises. *)
Definition get_account_data (account_id : string)
    (response : string + Response.t) : AccountData.t :=
  match response with
  | inl e => failed account_id e
  | inr data =>
    let account :=
      RiskEngine.or_default (Response.securitiesAccount data)
        (Response.itself data) in
    let balances :=
      RiskEngine.or_default (Account.currentBalances account)
        (Balances.mk None None) in
    let equity := RiskEngine.or_default (Balances.liquidationValue balances) 0 in
    let cash := RiskEngine.or_default (Balances.cashBalance balances) 0 in
    match
      parse_positions account_id
        (RiskEngine.or_default (Account.positions account) []) []
    with
    | Raise e => failed account_id (PyError_str e)
    | Ok positions =>
      AccountData.mk "Schwab" account_id equity cash positions "OK" None
    end
  end.

(** The raw positions [get_account_data] goes through. *)
Definition raw_positions (data : Response.t) : list RawPosition.t :=
  RiskEngine.or_default
    (Account.positions
       (RiskEngine.or_default (Response.securitiesAccount data)
          (Response.itself data))) [].

(** [SchwabConnector] as a [BaseConnector]: the account ids and the
    response to each account request. *)
Definition connector (ids : list string)
    (responses : string -> string + Response.t) : BaseConnector.t :=
  BaseConnector.mk "Schwab" ids
    (fun account_id => inr (get_account_data account_id (responses account_id))).

End Schwab.

(** The schema of a position: [mv = qty * price * multiplier]. *)
Definition schema_ok (p : Position.t) : Prop :=
  Position.mv p == Position.qty p * Position.price p * Position.multiplier p.

Module DemoSchwab.

(** Two long shares and three short option contracts. *)
Definition response : Schwab.Response.t :=
  Schwab.Response.mk
    (Some
       (Schwab.Account.mk
          (Some (Schwab.Balances.mk (Some 50000) (Some 1000)))
          (Some
             [Schwab.RawPosition.mk
                (Some (Schwab.Instrument.mk (Some "AAPL") (Some "EQUITY")))
                (Some 2) None (Some 300);
              Schwab.RawPosition.mk
                (Some (Schwab.Instrument.mk (Some "AAPL 240119C00150000")
                         (Some "OPTION")))
                None (Some 3) (Some (-600))])))
    (Schwab.Account.mk None None).

Definition responses (account_id : string) : string + Schwab.Response.t :=
  if String.eqb account_id "111" then inr response
  else inl "503 Server Error".

Definition ids : list string := ["111"; "222"].

End DemoSchwab.

(** Vocabulary for the connectors: the asset type [get_account_data] reads
    from a raw position, and the accounts a connector fetched without an
    exception. *)
Definition asset_type_of (pos : Schwab.RawPosition.t) : string :=
  RiskEngine.or_default
    (Schwab.Instrument.assetType
       (RiskEngine.or_default (Schwab.RawPosition.instrument pos)
          (Schwab.Instrument.mk None None))) "EQUITY".

Definition net_quantity (pos : Schwab.RawPosition.t) : Q :=
  RiskEngine.or_default (Schwab.RawPosition.longQuantity pos) 0
  - RiskEngine.or_default (Schwab.RawPosition.shortQuantity pos) 0.

Definition fetched (self : BaseConnector.t) : list AccountData.t :=
  flat_map
    (fun account_id =>
       match BaseConnector.get_account_data self account_id with
       | inr data => [data]
       | inl _ => []
       end)
    (BaseConnector.get_accounts self).

(** What [get_all_accounts_data] puts in the list for one account id. *)
Definition collected (self : BaseConnector.t) (account_id : string)
  : AccountData.t :=
  match BaseConnector.get_account_data self account_id with
  | inr data => data
  | inl e =>
    AccountData.mk (BaseConnector.broker_name self) account_id 0 0 [] "ERROR"
      (Some e)
  end.

(** ** The Fidelity connector ([connectors/fidelity_csv.py])

    [_parse_csv] is modelled from the point where the header row and the
    data rows have been read by [csv.reader]; finding the file and the header
    line is not.  The text functions of Python are parameters. *)

Module Fidelity.

Definition COLUMN_MAPPINGS : Dict.t (list string) :=
  [("symbol", ["Symbol"; "symbol"; "SYMBOL"]);
   ("description", ["Description"; "description"; "Security Description"]);
   ("quantity", ["Quantity"; "quantity"; "Shares"; "shares"; "Qty"]);
   ("price", ["Last Price"; "Current Value"; "Price"; "price"; "Last"]);
   ("value", ["Current Value"; "Market Value"; "Value"; "value"]);
   ("account",
    ["Account Number"; "Account"; "account"; "Account Name/Number"]);
   ("type", ["Type"; "Security Type"; "Asset Class"]);
   ("cost_basis", ["Cost Basis Total"; "Cost Basis"; "Total Cost Basis"])].

(** [x in s] on texts. *)
Fixpoint contains (x s : string) : bool :=
  String.prefix x s
  || match s with
     | EmptyString => false
     | String _ s' => contains x s'
     end.

(** [s.endswith(x)] *)
Definition endswith (x s : string) : bool :=
  String.prefix (string_of_list_ascii (rev (list_ascii_of_string x)))
    (string_of_list_ascii (rev (list_ascii_of_string s))).

(** [s[1:-1]] *)
Definition inner (s : string) : string :=
  string_of_list_ascii (removelast (tl (list_ascii_of_string s))).

(** A float read as a condition. *)
Definition truthy (q : Q) : bool := negb (Qeq_bool q 0).

(** One account with its equity, cash or positions replaced. *)
Definition with_positions (acc : AccountData.t) (ps : list Position.t)
  : AccountData.t :=
  AccountData.mk (AccountData.broker acc) (AccountData.account_id acc)
    (AccountData.equity acc) (AccountData.cash acc) ps
    (AccountData.status acc) (AccountData.error_message acc).

Definition with_cash (acc : AccountData.t) (cash : Q) : AccountData.t :=
  AccountData.mk (AccountData.broker acc) (AccountData.account_id acc)
    (AccountData.equity acc) cash (AccountData.positions acc)
    (AccountData.status acc) (AccountData.error_message acc).

Definition with_equity (acc : AccountData.t) (equity : Q) : AccountData.t :=
  AccountData.mk (AccountData.broker acc) (AccountData.account_id acc)
    equity (AccountData.cash acc) (AccountData.positions acc)
    (AccountData.status acc) (AccountData.error_message acc).

Definition InstrumentType_eqb (a b : InstrumentType) : bool :=
  match a, b with
  | STOCK, STOCK | ETF, ETF | OPTION, OPTION | CASH, CASH | OTHER, OTHER =>
    true
  | _, _ => false
  end.

Section Parser.

(** [str.strip], [str.upper], [str.lower]; [s.split()[0]];
    [float], [None] being its [ValueError];
    [re.sub(r"[$,\s]", "", s)]; and whether
    [re.match(r"[A-Z]+\d{6}[CP]\d+", s)] finds a match. *)
Variable strip : string -> string.
Variable upper : string -> string.
Variable lower : string -> string.
Variable first_word : string -> string.
Variable py_float : string -> option Q.
Variable remove_money : string -> string.
Variable is_option_symbol : string -> bool.

Definition _normalize_column (header mapping_key : string) : bool :=
  existsb (String.eqb (strip header))
    (Dict.get_default COLUMN_MAPPINGS mapping_key []).

(** [_find_column], counting from [i]. *)
Fixpoint find_from (i : nat) (headers : list string) (mapping_key : string)
  : option nat :=
  match headers with
  | [] => None
  | h :: headers' =>
    if _normalize_column h mapping_key then Some i
    else find_from (S i) headers' mapping_key
  end.

Definition _find_column (headers : list string) (mapping_key : string)
  : option nat :=
  find_from 0 headers mapping_key.

Definition _parse_number (value : string) : Q :=
  if String.eqb value ""
     || existsb (String.eqb (strip value)) [""; "--"; "n/a"; "N/A"]
  then 0
  else
    let cleaned := remove_money (strip value) in
    let cleaned :=
      if String.prefix "(" cleaned && endswith ")" cleaned
      then "-" ++ inner cleaned
      else cleaned in
    match py_float cleaned with
    | Some q => q
    | None => 0
    end.

Definition _determine_instrument_type (symbol description type_str : string)
  : InstrumentType :=
  let symbol_upper := upper symbol in
  let desc_upper := if String.eqb description "" then "" else upper description in
  let type_upper := if String.eqb type_str "" then "" else upper type_str in
  if existsb (fun x => contains x desc_upper)
       ["MONEY MARKET"; "CASH"; "SPAXX"; "FDRXX"]
  then CASH
  else if existsb (String.eqb symbol_upper) ["SPAXX"; "FDRXX"; "CORE"; "CASH"]
  then CASH
  else if existsb (fun x => contains x desc_upper) ["CALL"; "PUT"; "OPTION"]
  then OPTION
  else if is_option_symbol symbol_upper then OPTION
  else if contains "ETF" type_upper || contains "ETF" desc_upper then ETF
  else STOCK.

(** [f(row[col]) if col and len(row) > col else dflt]: a column is used
    when it was found, is not the first one, and the row reaches it. *)
Definition cell {A} (col : option nat) (row : list string)
    (f : string -> A) (dflt : A) : A :=
  match col with
  | Some (S k) =>
    if (S k <? List.length row)%nat then f (nth (S k) row "") else dflt
  | _ => dflt
  end.

(** The columns found in the header. *)
Record Columns : Type := mkColumns {
  symbol_col : nat;
  qty_col : option nat;
  price_col : option nat;
  value_col : option nat;
  account_col : option nat;
  type_col : option nat;
  desc_col : option nat
}.

(** The first half of the loop body: [None] when the row is skipped, and
    otherwise the account id and the position built from the row.  The two
    divisions and products are guarded by the quantity being non-zero. *)
Definition position_of_row (cols : Columns) (row : list string)
  : option (string * Position.t) :=
  if (List.length row <=? symbol_col cols)%nat then None
  else
    let symbol := strip (nth (symbol_col cols) row "") in
    if String.eqb symbol ""
       || existsb (String.eqb (lower symbol)) ["total"; "account total"; ""]
    then None
    else
      let account_id := cell (account_col cols) row strip "default" in
      let account_id :=
        if String.eqb account_id "" then "default"
        else first_word account_id in
      let qty := cell (qty_col cols) row _parse_number 0 in
      let price := cell (price_col cols) row _parse_number 0 in
      let mv := cell (value_col cols) row _parse_number 0 in
      let price :=
        if truthy mv && negb (truthy price) && truthy qty
        then mv / qty else price in
      let mv :=
        if truthy price && truthy qty && negb (truthy mv)
        then price * qty else mv in
      let type_str := cell (type_col cols) row strip "" in
      let description := cell (desc_col cols) row strip "" in
      let inst_type :=
        _determine_instrument_type symbol description type_str in
      let multiplier :=
        if InstrumentType_eqb inst_type OPTION then 100.0 else 1.0 in
      Some (account_id,
            Position.mk "Fidelity" account_id symbol inst_type qty multiplier
              price mv "USD" "_UNMAPPED"
              (if String.eqb description "" then None
               else Some (String.substring 0 100 description))).

(** The second half: the position is added to its account, which is
    created when the id is new. *)
Definition add_position (accounts_data : Dict.t AccountData.t)
    (account_id : string) (position : Position.t) : Dict.t AccountData.t :=
  let accounts_data :=
    if Dict.mem accounts_data account_id then accounts_data
    else
      Dict.set accounts_data account_id
        (AccountData.mk "Fidelity" account_id 0 0 [] "OK" None) in
  let acc :=
    Dict.get_default accounts_data account_id
      (AccountData.mk "Fidelity" account_id 0 0 [] "OK" None) in
  let acc :=
    with_positions acc
      (RiskEngine.append (AccountData.positions acc) position) in
  let acc :=
    if InstrumentType_eqb (Position.instrument_type position) CASH
    then with_cash acc (AccountData.cash acc + Position.mv position)
    else acc in
  Dict.set accounts_data account_id acc.

Definition parse_row (cols : Columns) (accounts_data : Dict.t AccountData.t)
    (row : list string) : Dict.t AccountData.t :=
  match position_of_row cols row with
  | None => accounts_data
  | Some (account_id, position) =>
    add_position accounts_data account_id position
  end.

Definition failed (msg : string) : AccountData.t :=
  AccountData.mk "Fidelity" "unknown" 0 0 [] "ERROR" (Some msg).

(** [_parse_csv]; [inl] is an exception while the file is read, [inr] the
    header row and the rows after it. *)
Definition _parse_csv (content : string + list string * list (list string))
  : list AccountData.t :=
  match content with
  | inl e => [failed e]
  | inr (headers, rows) =>
    match _find_column headers "symbol" with
    | None => [failed "Could not find Symbol column in CSV"]
    | Some symbol_col =>
      let cols :=
        mkColumns symbol_col
          (_find_column headers "quantity") (_find_column headers "price")
          (_find_column headers "value") (_find_column headers "account")
          (_find_column headers "type") (_find_column headers "description")
      in
      let accounts_data := fold_left (parse_row cols) rows [] in
      map (fun account =>
             with_equity account (sum_mv (AccountData.positions account)))
        (Dict.values accounts_data)
    end
  end.

End Parser.

(** With [_parsed_data] filled: [get_accounts], [get_account_data] and
    [get_all_accounts_data]. *)
Definition get_accounts (parsed_data : list AccountData.t) : list string :=
  map AccountData.account_id parsed_data.

Definition get_account_data (parsed_data : list AccountData.t)
    (account_id : string) : AccountData.t :=
  match
    find (fun acc => String.eqb (AccountData.account_id acc) account_id)
      parsed_data
  with
  | Some acc => acc
  | None =>
    AccountData.mk "Fidelity" account_id 0 0 [] "ERROR"
      (Some "Account not found in CSV")
  end.

Definition get_all_accounts_data (parsed_data : list AccountData.t)
  : list AccountData.t :=
  parsed_data.

End Fidelity.

(** Vocabulary for the Fidelity connector. *)

Definition is_cash (p : Position.t) : bool :=
  Fidelity.InstrumentType_eqb (Position.instrument_type p) CASH.

(** The positions of a list that carry a given account id. *)
Definition held_by (account_id : string) (ps : list Position.t)
  : list Position.t :=
  filter (fun p => String.eqb (Position.account_id p) account_id) ps.

(** The account that holds the positions [ps] under the id [account_id]. *)
Definition account_of (account_id : string) (ps : list Position.t)
  : AccountData.t :=
  AccountData.mk "Fidelity" account_id (sum_mv ps) (sum_mv (filter is_cash ps))
    ps "OK" None.

(** The accounts of a list of positions: one per account id, in the order
    in which the ids first occur. *)
Definition accounts_of (ps : list Position.t) : list AccountData.t :=
  map (fun account_id => account_of account_id (held_by account_id ps))
    (first_seen [] (map Position.account_id ps)).

Section FidelityRows.

Variable strip : string -> string.
Variable upper : string -> string.
Variable lower : string -> string.
Variable first_word : string -> string.
Variable py_float : string -> option Q.
Variable remove_money : string -> string.
Variable is_option_symbol : string -> bool.

(** The columns [_parse_csv] finds in a header whose symbol column is
    [symbol_col]. *)
Definition columns_of (headers : list string) (symbol_col : nat)
  : Fidelity.Columns :=
  Fidelity.mkColumns symbol_col
    (Fidelity._find_column strip headers "quantity")
    (Fidelity._find_column strip headers "price")
    (Fidelity._find_column strip headers "value")
    (Fidelity._find_column strip headers "account")
    (Fidelity._find_column strip headers "type")
    (Fidelity._find_column strip headers "description").

(** The positions built from the rows that are not skipped, in file
    order. *)
Definition row_positions (cols : Fidelity.Columns) (rows : list (list string))
  : list Position.t :=
  flat_map
    (fun row =>
       match
         Fidelity.position_of_row strip upper lower first_word py_float
           remove_money is_option_symbol cols row
       with
       | Some (_, position) => [position]
       | None => []
       end)
    rows.

(** The number a cell of a row is read as. *)
Definition number_at (col : option nat) (row : list string) : Q :=
  Fidelity.cell col row (Fidelity._parse_number strip py_float remove_money) 0.

End FidelityRows.

Module DemoFidelity.

(** [re.match(r"[A-Z]+\d{6}[CP]\d+", s)] on ASCII text. *)
Definition is_upper_char (c : ascii) : bool :=
  let n := nat_of_ascii c in ((65 <=? n) && (n <=? 90))%nat.

Definition is_digit (c : ascii) : bool :=
  match PyStr.digit_of c with Some _ => true | None => false end.

Fixpoint skip_upper (l : list ascii) : list ascii :=
  match l with
  | c :: l' => if is_upper_char c then skip_upper l' else l
  | [] => []
  end.

Definition is_option_symbol (s : string) : bool :=
  match list_ascii_of_string s with
  | c :: l =>
    is_upper_char c
    && match skip_upper l with
       | d1 :: d2 :: d3 :: d4 :: d5 :: d6 :: cp :: d :: _ =>
         forallb is_digit [d1; d2; d3; d4; d5; d6; d]
         && (Ascii.eqb cp "C"%char || Ascii.eqb cp "P"%char)
       | _ => false
       end
  | [] => false
  end.

Definition remove_money (s : string) : string :=
  string_of_list_ascii
    (filter (fun c => negb (Ascii.eqb c "$"%char || Ascii.eqb c ","%char
                            || PyStr.is_space c))
       (list_ascii_of_string s)).

Definition parse : string + list string * list (list string)
                   -> list AccountData.t :=
  Fidelity._parse_csv PyStr.strip PyStr.upper PyStr.lower PyStr.first_word
    PyStr.py_float remove_money is_option_symbol.

(** An export with the account number in the first column. *)
Definition headers : list string :=
  ["Account Number"; "Symbol"; "Description"; "Quantity"; "Last Price";
   "Current Value"].

Definition rows : list (list string) :=
  [["X111"; "AAPL"; "APPLE INC"; "10"; "$150.00"; "$1,500.00"];
   ["Y222"; "SPAXX"; "FIDELITY GOVERNMENT MONEY MARKET"; "200"; "$1.00";
    "$200.00"];
   ["Y222"; "AAPL240119C00150000"; "AAPL JAN 19 2024 150 CALL"; "(2)";
    "$3.00"; "--"];
   ["Total"]].

(** The same export with the account number in the last column. *)
Definition headers_moved : list string :=
  ["Symbol"; "Description"; "Quantity"; "Last Price"; "Current Value";
   "Account Number"].

Definition rows_moved : list (list string) :=
  [["AAPL"; "APPLE INC"; "10"; "$150.00"; "$1,500.00"; "X111"];
   ["SPAXX"; "FIDELITY GOVERNMENT MONEY MARKET"; "200"; "$1.00"; "$200.00";
    "Y222"];
   ["AAPL240119C00150000"; "AAPL JAN 19 2024 150 CALL"; "(2)"; "$3.00";
    "--"; "Y222"];
   ["Total"]].

Definition parsed : list AccountData.t :=
  Eval vm_compute in parse (inr (headers, rows)).

Definition parsed_moved : list AccountData.t :=
  Eval vm_compute in parse (inr (headers_moved, rows_moved)).

End DemoFidelity.

(** The account [add_position] leaves under the id of a position, and the
    positions added one after the other. *)
Definition grown (acc : AccountData.t) (position : Position.t)
  : AccountData.t :=
  let acc :=
    Fidelity.with_positions acc
      (RiskEngine.append (AccountData.positions acc) position) in
  if Fidelity.InstrumentType_eqb (Position.instrument_type position) CASH
  then Fidelity.with_cash acc (AccountData.cash acc + Position.mv position)
  else acc.

Definition fresh_account (account_id : string) : AccountData.t :=
  AccountData.mk "Fidelity" account_id 0 0 [] "OK" None.

Definition add_positions (accounts_data : Dict.t AccountData.t)
    (items : list (string * Position.t)) : Dict.t AccountData.t :=
  fold_left (fun d item => Fidelity.add_position d (fst item) (snd item))
    items accounts_data.

(** [FidelityCSVConnector], with its parsed data, as a [BaseConnector]:
    its [get_account_data] raises nothing. *)
Definition fidelity_connector (parsed_data : list AccountData.t)
  : BaseConnector.t :=
  BaseConnector.mk "Fidelity" (Fidelity.get_accounts parsed_data)
    (fun account_id => inr (Fidelity.get_account_data parsed_data account_id)).

(** An account with the [thesis] field of its positions reset: what the
    accounts are apart from the field that [compute] overwrites. *)
Definition without_thesis (acc : AccountData.t) : AccountData.t :=
  AccountData.mk (AccountData.broker acc) (AccountData.account_id acc)
    (AccountData.equity acc) (AccountData.cash acc)
    (map (fun p => Position.set_thesis p "_UNMAPPED")
       (AccountData.positions acc))
    (AccountData.status acc) (AccountData.error_message acc).

(** The accounts as a call of [compute] that got past the mapping loop
    leaves them for its caller: the positions of the OK accounts are the
    objects whose [thesis] it has set. *)
Definition after_compute (re_match : string -> string -> ReOutcome)
    (self : RiskEngine.t) (acc : AccountData.t) : AccountData.t :=
  if is_ok acc
  then
    AccountData.mk (AccountData.broker acc) (AccountData.account_id acc)
      (AccountData.equity acc) (AccountData.cash acc)
      (with_theses re_match self (AccountData.positions acc))
      (AccountData.status acc) (AccountData.error_message acc)
  else acc.

(** ** Vocabulary for the patterns of the resolver *)







(** ** The grouping loop over binary64 floats

    The engine is embedded over exact rationals.  Where a property of the
    specification compares two sums of market values that the code adds in
    different orders, the rounding of the additions decides; this module
    is the grouping loop of [compute] (lines 242-251) and the two sums of
    the specification over the binary64 floats of the code, for a position
    reduced to the two fields the loop reads. *)

Module Binary64.

Record position : Type := mk_position {
  thesis : string;
  mv : float
}.

(** [if thesis not in thesis_mvs: thesis_mvs[thesis] = 0.0] and then
    [thesis_mvs[thesis] += pos.mv]. *)
Definition group_step (thesis_mvs : Dict.t float) (pos : position)
  : Dict.t float :=
  let thesis_mvs :=
    if negb (Dict.mem thesis_mvs (thesis pos))
    then Dict.set thesis_mvs (thesis pos) 0%float
    else thesis_mvs in
  Dict.set thesis_mvs (thesis pos)
    (Dict.get_default thesis_mvs (thesis pos) 0 + mv pos)%float.

Definition thesis_mvs (all_positions : list position) : Dict.t float :=
  fold_left group_step all_positions [].

(** [sum(xs)]: from zero, left to right. *)
Definition sum (xs : list float) : float :=
  fold_left PrimFloat.add xs 0%float.

(** Three positions in two theses: 1000.07, 1012.41 and 1037.09. *)
Definition three : list position :=
  [mk_position "A" 0x1.f408f5c28f5c3p+9;
   mk_position "B" 0x1.fa347ae147ae1p+9;
   mk_position "B" 0x1.0345c28f5c28fp+10].

End Binary64.

(** * Properties *)

(** ** Comparisons *)

Lemma gtb_true (a b : Q) : PyFloat.gtb a b = true <-> b < a.
Proof.
  unfold PyFloat.gtb. rewrite negb_true_iff.
  split; intro H.
  - apply Qnot_le_lt. intro Hle. apply Qle_bool_iff in Hle. congruence.
  - destruct (Qle_bool a b) eqn:E; [|reflexivity].
    apply Qle_bool_iff in E. lra.
Qed.

Lemma gtb_false (a b : Q) : PyFloat.gtb a b = false <-> a <= b.
Proof.
  unfold PyFloat.gtb. rewrite negb_false_iff. apply Qle_bool_iff.
Qed.

Lemma ltb_true (a b : Q) : PyFloat.ltb a b = true <-> a < b.
Proof. apply (gtb_true b a). Qed.

Lemma ltb_false (a b : Q) : PyFloat.ltb a b = false <-> b <= a.
Proof. apply (gtb_false b a). Qed.

Lemma Qle_bool_false (a b : Q) : Qle_bool a b = false <-> b < a.
Proof.
  rewrite <- gtb_true. unfold PyFloat.gtb.
  destruct (Qle_bool a b); simpl; intuition congruence.
Qed.

Lemma Qeq_bool_false (a b : Q) : Qeq_bool a b = false <-> ~ a == b.
Proof.
  split; intro H.
  - intro E. apply Qeq_bool_iff in E. congruence.
  - destruct (Qeq_bool a b) eqn:E; [|reflexivity].
    apply Qeq_bool_iff in E. contradiction.
Qed.

#[global] Instance gtb_proper : Proper (Qeq ==> Qeq ==> eq) PyFloat.gtb.
Proof.
  intros a a' Ha b b' Hb. unfold PyFloat.gtb. now rewrite Ha, Hb.
Qed.

(** ** Mode classification *)

Lemma compute_mode_fst (self : RiskEngine.t) (drawdown : Q) :
  fst (RiskEngine._compute_mode self drawdown)
  = if PyFloat.gtb drawdown (- threshold_x self) then NORMAL
    else if PyFloat.gtb drawdown (-2 * threshold_x self) then HALF
    else MIN.
Proof. reflexivity. Qed.

(** C1.  The mode is a function of the drawdown and of the configured
    fraction [X] alone: NORMAL above [-X], HALF in [(-2X, -X]], MIN at or
    below [-2X]; the boundaries go to the more severe mode; the scale is the
    [scaleByMode] entry of that mode, 1.0 when there is none.  The MIN case
    and the two boundary cases are those of a fraction [X] that is not
    negative, respectively positive. *)
Theorem C1_mode_classification (self : RiskEngine.t) (drawdown : Q) :
  let X := threshold_x self in
  let mode := fst (RiskEngine._compute_mode self drawdown) in
  (- X < drawdown -> mode = NORMAL)
  /\ (-2 * X < drawdown /\ drawdown <= - X -> mode = HALF)
  /\ (0 <= X -> drawdown <= -2 * X -> mode = MIN)
  /\ (0 < X -> fst (RiskEngine._compute_mode self (- X)) = HALF)
  /\ (0 <= X -> fst (RiskEngine._compute_mode self (-2 * X)) = MIN)
  /\ snd (RiskEngine._compute_mode self drawdown)
     = match Dict.get (scale_by_mode self) (RiskMode_value mode) with
       | Some scale => scale
       | None => 1.0
       end
  /\ (forall (self' : RiskEngine.t) (drawdown' : Q),
        threshold_x self' == X -> drawdown' == drawdown ->
        fst (RiskEngine._compute_mode self' drawdown') = mode).
Proof.
  intros X mode. subst mode. rewrite compute_mode_fst. fold X.
  repeat split.
  - intro H. apply gtb_true in H. now rewrite H.
  - intros [H1 H2]. apply gtb_false in H2. apply gtb_true in H1.
    now rewrite H2, H1.
  - intros HX H.
    assert (H1 : PyFloat.gtb drawdown (- X) = false) by (apply gtb_false; lra).
    assert (H2 : PyFloat.gtb drawdown (-2 * X) = false)
      by (apply gtb_false; lra).
    now rewrite H1, H2.
  - intro HX. rewrite compute_mode_fst. fold X.
    assert (H1 : PyFloat.gtb (- X) (- X) = false) by (apply gtb_false; lra).
    assert (H2 : PyFloat.gtb (- X) (-2 * X) = true) by (apply gtb_true; lra).
    now rewrite H1, H2.
  - intro HX. rewrite compute_mode_fst. fold X.
    assert (H1 : PyFloat.gtb (-2 * X) (- X) = false)
      by (apply gtb_false; lra).
    assert (H2 : PyFloat.gtb (-2 * X) (-2 * X) = false)
      by (apply gtb_false; lra).
    now rewrite H1, H2.
  - intros self' drawdown' HX Hd. rewrite compute_mode_fst.
    assert (E1 : PyFloat.gtb drawdown' (- threshold_x self')
                 = PyFloat.gtb drawdown (- X))
      by (apply gtb_proper; [exact Hd | now rewrite HX]).
    assert (E2 : PyFloat.gtb drawdown' (-2 * threshold_x self')
                 = PyFloat.gtb drawdown (-2 * X))
      by (apply gtb_proper; [exact Hd | now rewrite HX]).
    now rewrite E1, E2.
Qed.

(** The test-suite values: X = 0.12 and the default scales. *)
Lemma C1_mode_classification_witness :
  fst (RiskEngine._compute_mode Sample.engine (-0.10)) = NORMAL
  /\ fst (RiskEngine._compute_mode Sample.engine (-0.18)) = HALF
  /\ fst (RiskEngine._compute_mode Sample.engine (-0.40)) = MIN
  /\ fst (RiskEngine._compute_mode Sample.engine (- 0.12)) = HALF
  /\ fst (RiskEngine._compute_mode Sample.engine (-2 * 0.12)) = MIN.
Proof.
  destruct (C1_mode_classification Sample.engine (-0.10)) as (N & _).
  destruct (C1_mode_classification Sample.engine (-0.18)) as (_ & H & _).
  destruct (C1_mode_classification Sample.engine (-0.40))
    as (_ & _ & M & BH & BM & _).
  split; [|split; [|split; [|split]]].
  - apply N. reflexivity.
  - apply H. split; [reflexivity | discriminate].
  - apply M; discriminate.
  - apply BH. reflexivity.
  - apply BM. discriminate.
Defined.

(** ** The regular expressions of the resolver *)




Lemma plain_ascii (c : ascii) :
  SimpleRe.plain c = true -> SimpleRe.is_ascii c = true.
Proof.
  unfold SimpleRe.plain, SimpleRe.kind_of.
  now destruct (SimpleRe.is_ascii c).
Qed.






Section Literals.

Variable s : list ascii.




End Literals.










(** ** Symbol resolution *)

Section Resolve.

Variable re_match : string -> string -> ReOutcome.

Lemma resolve_hit (m : Mapping.t) (rest : list Mapping.t) (symbol : string) :
  rule_matches re_match m symbol = true ->
  RiskEngine.resolve re_match (m :: rest) symbol
  = Ok (Mapping.thesis m, Mapping.weight m).
Proof.
  unfold rule_matches. simpl.
  destruct (String.eqb (Mapping.pattern m) symbol); [reflexivity|].
  simpl. destruct (re_match _ symbol) as [[|]| |e]; try discriminate.
  reflexivity.
Qed.

Lemma resolve_miss (m : Mapping.t) (rest : list Mapping.t) (symbol : string) :
  rule_misses re_match m symbol = true ->
  RiskEngine.resolve re_match (m :: rest) symbol
  = RiskEngine.resolve re_match rest symbol.
Proof.
  unfold rule_misses. simpl.
  destruct (String.eqb (Mapping.pattern m) symbol); [discriminate|].
  simpl. destruct (re_match _ symbol) as [[|]| |e]; try discriminate;
    reflexivity.
Qed.

Lemma resolve_abort (m : Mapping.t) (rest : list Mapping.t) (symbol : string)
    (e : PyError) :
  rule_raises re_match m symbol e ->
  RiskEngine.resolve re_match (m :: rest) symbol = Raise e.
Proof.
  unfold rule_raises. simpl. intros [Hne He].
  apply String.eqb_neq in Hne. now rewrite Hne, He.
Qed.

Lemma resolve_skip (pre : list Mapping.t) (rest : list Mapping.t)
    (symbol : string) :
  Forall (fun m => rule_misses re_match m symbol = true) pre ->
  RiskEngine.resolve re_match (pre ++ rest) symbol
  = RiskEngine.resolve re_match rest symbol.
Proof.
  induction 1 as [|m pre Hm _ IH]; [reflexivity|].
  rewrite <- app_comm_cons, resolve_miss by exact Hm. exact IH.
Qed.


(** The three ways of a rule exclude each other, and one of them holds. *)
Lemma rule_cases (m : Mapping.t) (symbol : string) :
  (rule_matches re_match m symbol = true
   /\ rule_misses re_match m symbol = false)
  \/ (rule_matches re_match m symbol = false
      /\ rule_misses re_match m symbol = true)
  \/ (rule_matches re_match m symbol = false
      /\ rule_misses re_match m symbol = false
      /\ exists e, rule_raises re_match m symbol e).
Proof.
  unfold rule_matches, rule_misses, rule_raises.
  destruct (String.eqb (Mapping.pattern m) symbol) eqn:E; simpl.
  - now left.
  - apply String.eqb_neq in E.
    destruct (re_match _ symbol) as [[|]| |e]; simpl; auto.
    right. right. repeat split; try reflexivity. now exists e.
Qed.


End Resolve.




(** The two anchors do not hold the pattern as a whole: the rule
    [AAPL|MSFT] maps AAPLX, which the same alternation kept in a group
    between the anchors does not match, and the rule [AAPL] maps AAPL
    followed by a newline.  And a pattern on which [re.match] raises
    something else than [re.error] is not passed over: with a repetition
    count of 4294967296 in the first rule, the symbol of the second rule is
    not resolved. *)
Lemma C5_counterexample :
  RiskEngine.resolve SimpleRe.re_match [Mapping.mk "AAPL|MSFT" "Tech" 1.0]
    "AAPLX" = Ok ("Tech", 1.0)
  /\ SimpleRe.py_match true "^(?:AAPL|MSFT)$" "AAPLX" = Some (Found false)
  /\ RiskEngine.resolve SimpleRe.re_match [Mapping.mk "AAPL" "Tech" 1.0]
       (String "A" (String "A" (String "P" (String "L"
          (String SimpleRe.newline ""))))) = Ok ("Tech", 1.0)
  /\ RiskEngine.resolve SimpleRe.re_match
       [Mapping.mk "A{4294967296}" "Big" 1.0; Mapping.mk "AAPL" "Tech" 1.0]
       "AAPL" = Raise (OverflowError "the repetition number is too large").
Proof. repeat split; vm_compute; reflexivity. Qed.


(** ** Dict *)

Lemma mem_keys {V} (d : Dict.t V) (k : string) :
  Dict.mem d k = existsb (String.eqb k) (Dict.keys d).
Proof.
  unfold Dict.mem, Dict.keys.
  induction d as [|[k' v] d IH]; simpl; [reflexivity|].
  rewrite (String.eqb_sym k k').
  destruct (String.eqb k' k); simpl; [reflexivity | exact IH].
Qed.

Lemma get_set_same {V} (d : Dict.t V) (k : string) (v : V) :
  Dict.get (Dict.set d k v) k = Some v.
Proof.
  induction d as [|[k' v'] d IH]; simpl.
  - now rewrite String.eqb_refl.
  - destruct (String.eqb k' k) eqn:E; simpl; rewrite E; [reflexivity|].
    exact IH.
Qed.

Lemma get_set_other {V} (d : Dict.t V) (k k' : string) (v : V) :
  k <> k' -> Dict.get (Dict.set d k v) k' = Dict.get d k'.
Proof.
  intro Hne. induction d as [|[k0 v0] d IH]; simpl.
  - apply String.eqb_neq in Hne. now rewrite Hne.
  - destruct (String.eqb k0 k) eqn:E; simpl.
    + apply String.eqb_eq in E. subst k0.
      apply String.eqb_neq in Hne. now rewrite Hne.
    + now rewrite IH.
Qed.

Lemma keys_set {V} (d : Dict.t V) (k : string) (v : V) :
  Dict.keys (Dict.set d k v)
  = if Dict.mem d k then Dict.keys d else (Dict.keys d ++ [k])%list.
Proof.
  unfold Dict.mem, Dict.keys.
  induction d as [|[k' v'] d IH]; simpl; [reflexivity|].
  destruct (String.eqb k' k) eqn:E; simpl; [reflexivity|].
  rewrite IH. now destruct (Dict.get d k).
Qed.

Lemma mem_get {V} (d : Dict.t V) (k : string) :
  Dict.mem d k = false -> Dict.get d k = None.
Proof. unfold Dict.mem. now destruct (Dict.get d k). Qed.

(** ** Sums *)

Lemma fold_left_total {A} (f : A -> Q) (l : list A) (a : Q) :
  fold_left (fun s x => s + f x) l a == a + total f l.
Proof.
  revert a. induction l as [|x l IH]; intro a; simpl.
  - lra.
  - rewrite IH. lra.
Qed.

Lemma total_app {A} (f : A -> Q) (l1 l2 : list A) :
  total f (l1 ++ l2) == total f l1 + total f l2.
Proof.
  induction l1 as [|x l1 IH]; simpl; [lra | rewrite IH; lra].
Qed.

Lemma total_perm {A} (f : A -> Q) (l1 l2 : list A) :
  Permutation l1 l2 -> total f l1 == total f l2.
Proof.
  induction 1; simpl; try lra.
Qed.

Lemma total_map {A B} (g : A -> B) (f : B -> Q) (l : list A) :
  total f (map g l) = total (fun x => f (g x)) l.
Proof.
  induction l as [|x l IH]; simpl; [reflexivity | now rewrite IH].
Qed.

Lemma sum_mv_total (ps : list Position.t) : sum_mv ps == total Position.mv ps.
Proof. unfold sum_mv. rewrite fold_left_total. lra. Qed.

Lemma sum_thesis_mv_total (rs : list ThesisResult.t) :
  sum_thesis_mv rs == total ThesisResult.mv rs.
Proof. unfold sum_thesis_mv. rewrite fold_left_total. lra. Qed.

(** Replacing or adding one entry of a dict of numbers. *)
Lemma total_set (d : Dict.t Q) (k : string) (v : Q) :
  total snd (Dict.set d k v)
  == total snd d - Dict.get_default d k 0 + v.
Proof.
  unfold Dict.get_default.
  induction d as [|[k' v'] d IH]; simpl.
  - lra.
  - destruct (String.eqb k' k) eqn:E; simpl.
    + lra.
    + rewrite IH. lra.
Qed.

(** ** Grouping positions by thesis *)

Lemma first_seen_ext (s1 s2 ids : list string) :
  (forall x, existsb (String.eqb x) s1 = existsb (String.eqb x) s2) ->
  first_seen s1 ids = first_seen s2 ids.
Proof.
  revert s1 s2. induction ids as [|x ids IH]; intros s1 s2 H; simpl.
  - reflexivity.
  - rewrite <- H. destruct (existsb (String.eqb x) s1).
    + now apply IH.
    + f_equal. apply IH. intro y. simpl. now rewrite H.
Qed.

Lemma first_seen_snoc_seen (seen ids : list string) (k : string) :
  first_seen (seen ++ [k]) ids = first_seen (k :: seen) ids.
Proof.
  apply first_seen_ext. intro x. rewrite existsb_app. simpl.
  destruct (existsb (String.eqb x) seen), (String.eqb x k); reflexivity.
Qed.

Lemma first_seen_not_seen (seen ids : list string) (x : string) :
  In x (first_seen seen ids) -> existsb (String.eqb x) seen = false.
Proof.
  revert seen. induction ids as [|y ids IH]; intros seen H; simpl in H.
  - contradiction.
  - destruct (existsb (String.eqb y) seen) eqn:E.
    + now apply IH.
    + destruct H as [-> | H]; [exact E|].
      apply IH in H. simpl in H. apply orb_false_iff in H. apply H.
Qed.

Lemma first_seen_NoDup (seen ids : list string) : NoDup (first_seen seen ids).
Proof.
  revert seen. induction ids as [|y ids IH]; intro seen; simpl.
  - constructor.
  - destruct (existsb (String.eqb y) seen); [apply IH|].
    constructor; [|apply IH].
    intro H. apply first_seen_not_seen in H. simpl in H.
    now rewrite String.eqb_refl in H.
Qed.

Lemma first_seen_In (seen ids : list string) (x : string) :
  In x (first_seen seen ids)
  <-> In x ids /\ existsb (String.eqb x) seen = false.
Proof.
  split.
  - intro H. split; [|now apply first_seen_not_seen with ids].
    revert seen H. induction ids as [|y ids IH]; intros seen H; simpl in *.
    + contradiction.
    + destruct (existsb (String.eqb y) seen).
      * right. now apply IH with seen.
      * destruct H as [-> | H]; [now left | right; now apply IH with (y :: seen)].
  - intros [Hin Hs]. revert seen Hs.
    induction ids as [|y ids IH]; intros seen Hs; simpl in *.
    + contradiction.
    + destruct (String.eqb x y) eqn:Exy.
      * apply String.eqb_eq in Exy. subst y. rewrite Hs. now left.
      * destruct Hin as [-> | Hin]; [now rewrite String.eqb_refl in Exy|].
        destruct (existsb (String.eqb y) seen).
        -- now apply IH.
        -- right. apply IH; [exact Hin|]. simpl. now rewrite Exy.
Qed.

Section Grouping.

Let add := fun (s : Q) (p : Position.t) => s + Position.mv p.

Lemma get_default_set_same {V} (d : Dict.t V) (k : string) (v dflt : V) :
  Dict.get_default (Dict.set d k v) k dflt = v.
Proof. unfold Dict.get_default. now rewrite get_set_same. Qed.

Lemma get_default_absent {V} (d : Dict.t V) (k : string) (dflt : V) :
  Dict.mem d k = false -> Dict.get_default d k dflt = dflt.
Proof. intro H. unfold Dict.get_default. now rewrite (mem_get d k H). Qed.

(** Both dicts always have the same keys. *)
Lemma group_step_keys (mvs mvs' : Dict.t Q)
    (poss poss' : Dict.t (list Position.t)) (p : Position.t) :
  Dict.keys mvs = Dict.keys poss ->
  RiskEngine.group_step (mvs, poss) p = (mvs', poss') ->
  Dict.keys mvs' = Dict.keys poss'
  /\ Dict.keys mvs'
     = (Dict.keys mvs ++ first_seen (Dict.keys mvs) [Position.thesis p])%list.
Proof.
  intros HK Est. unfold RiskEngine.group_step in Est. simpl.
  assert (HM : Dict.mem poss (Position.thesis p)
               = Dict.mem mvs (Position.thesis p))
    by (now rewrite !mem_keys, HK).
  rewrite <- (mem_keys mvs).
  destruct (Dict.mem mvs (Position.thesis p)) eqn:E; simpl in Est;
    injection Est as <- <-.
  - rewrite !keys_set, HM, E. rewrite app_nil_r. now split.
  - rewrite !keys_set.
    assert (E1 : Dict.mem (Dict.set mvs (Position.thesis p) 0)
                   (Position.thesis p) = true)
      by (unfold Dict.mem; now rewrite get_set_same).
    assert (E2 : Dict.mem (Dict.set poss (Position.thesis p) [])
                   (Position.thesis p) = true)
      by (unfold Dict.mem; now rewrite get_set_same).
    rewrite E1, E2, HM, E. now rewrite HK.
Qed.

Lemma group_step_get (mvs mvs' : Dict.t Q)
    (poss poss' : Dict.t (list Position.t)) (p : Position.t) (k : string) :
  Dict.keys mvs = Dict.keys poss ->
  RiskEngine.group_step (mvs, poss) p = (mvs', poss') ->
  Dict.get mvs' k
  = (if String.eqb (Position.thesis p) k
     then Some (Dict.get_default mvs k 0 + Position.mv p)
     else Dict.get mvs k)
  /\ Dict.get poss' k
     = (if String.eqb (Position.thesis p) k
        then Some (Dict.get_default poss k [] ++ [p])%list
        else Dict.get poss k).
Proof.
  intros HK Est. unfold RiskEngine.group_step, append in Est.
  assert (HM : Dict.mem poss (Position.thesis p)
               = Dict.mem mvs (Position.thesis p))
    by (now rewrite !mem_keys, HK).
  destruct (String.eqb (Position.thesis p) k) eqn:Ek.
  - apply String.eqb_eq in Ek. subst k.
    destruct (Dict.mem mvs (Position.thesis p)) eqn:E; simpl in Est;
      injection Est as <- <-.
    + now rewrite !get_set_same.
    + rewrite !get_set_same, !get_default_set_same.
      now rewrite !get_default_absent by congruence.
  - apply String.eqb_neq in Ek.
    destruct (Dict.mem mvs (Position.thesis p)) eqn:E; simpl in Est;
      injection Est as <- <-;
      now rewrite !get_set_other by exact Ek.
Qed.

(** One step adds the market value of its position to the total. *)
Lemma group_step_total (mvs mvs' : Dict.t Q)
    (poss poss' : Dict.t (list Position.t)) (p : Position.t) :
  RiskEngine.group_step (mvs, poss) p = (mvs', poss') ->
  total snd mvs' == total snd mvs + Position.mv p.
Proof.
  intro Est. unfold RiskEngine.group_step in Est.
  destruct (Dict.mem mvs (Position.thesis p)) eqn:E; simpl in Est;
    injection Est as <- <-.
  - rewrite total_set. lra.
  - rewrite total_set, get_default_set_same, total_set.
    rewrite get_default_absent by exact E. lra.
Qed.

Lemma group_fold (ps : list Position.t) :
  forall (mvs mvs' : Dict.t Q) (poss poss' : Dict.t (list Position.t)),
  Dict.keys mvs = Dict.keys poss ->
  fold_left RiskEngine.group_step ps (mvs, poss) = (mvs', poss') ->
  Dict.keys mvs' = Dict.keys poss'
  /\ Dict.keys mvs'
     = (Dict.keys mvs
          ++ first_seen (Dict.keys mvs) (map Position.thesis ps))%list
  /\ total snd mvs' == total snd mvs + total Position.mv ps
  /\ forall k,
       Dict.get mvs' k
       = match members k ps with
         | [] => Dict.get mvs k
         | ms => Some (fold_left add ms (Dict.get_default mvs k 0))
         end
       /\ Dict.get poss' k
          = match members k ps with
            | [] => Dict.get poss k
            | ms => Some (Dict.get_default poss k [] ++ ms)%list
            end.
Proof.
  induction ps as [|p ps IH]; intros mvs mvs' poss poss' HK Efold;
    cbn [fold_left map] in *.
  - injection Efold as <- <-. simpl. rewrite app_nil_r.
    repeat split; try assumption; try reflexivity. lra.
  - destruct (RiskEngine.group_step (mvs, poss) p) as [mvs1 poss1] eqn:Est.
    destruct (group_step_keys mvs mvs1 poss poss1 p HK Est) as [HK1 HF1].
    pose proof (group_step_total mvs mvs1 poss poss1 p Est) as T1.
    destruct (IH mvs1 mvs' poss1 poss' HK1 Efold) as (K & F & T & G).
    split; [exact K | split; [|split]].
    + rewrite F, HF1. simpl.
      destruct (existsb (String.eqb (Position.thesis p)) (Dict.keys mvs)).
      * now rewrite app_nil_r.
      * rewrite <- app_assoc. simpl. now rewrite first_seen_snoc_seen.
    + rewrite T, T1. simpl. lra.
    + intro k. destruct (G k) as [I1 I2]. rewrite I1, I2.
      destruct (group_step_get mvs mvs1 poss poss1 p k HK Est) as [G1 G2].
      unfold members, Dict.get_default in *. simpl filter.
      rewrite G1, G2.
      destruct (String.eqb (Position.thesis p) k); simpl.
      * split.
        -- now destruct (filter _ ps).
        -- destruct (filter _ ps); [reflexivity|].
           now rewrite <- app_assoc.
      * now split.
Qed.

End Grouping.

Lemma In_get {V} (d : Dict.t V) (k : string) (v : V) :
  NoDup (Dict.keys d) -> In (k, v) d -> Dict.get d k = Some v.
Proof.
  unfold Dict.keys. induction d as [|[k' v'] d IH]; simpl; intros ND H.
  - contradiction.
  - inversion ND as [|? ? Hnin ND']; subst.
    destruct H as [H | H].
    + inversion H; subst. now rewrite String.eqb_refl.
    + destruct (String.eqb k' k) eqn:E.
      * apply String.eqb_eq in E. subst k'.
        exfalso. apply Hnin. change k with (fst (k, v)). now apply in_map.
      * now apply IH.
Qed.

(** What [group_by_thesis] returns: one entry per distinct thesis id, in the
    order of first occurrence, holding the members of that thesis in list
    order and their sum. *)
Lemma group_by_thesis_spec (ps : list Position.t)
    (thesis_mvs : Dict.t Q) (thesis_positions : Dict.t (list Position.t)) :
  RiskEngine.group_by_thesis ps = (thesis_mvs, thesis_positions) ->
  Dict.keys thesis_mvs = first_seen [] (map Position.thesis ps)
  /\ Dict.keys thesis_positions = Dict.keys thesis_mvs
  /\ (forall k v, In (k, v) thesis_mvs ->
        v = sum_mv (members k ps)
        /\ Dict.get_default thesis_positions k [] = members k ps)
  /\ total snd thesis_mvs == total Position.mv ps.
Proof.
  unfold RiskEngine.group_by_thesis. intro E.
  destruct (group_fold ps [] thesis_mvs [] thesis_positions eq_refl E)
    as (K & F & T & G).
  simpl in F, T, G.
  split; [exact F | split; [now symmetry | split]].
  - intros k v Hin.
    assert (ND : NoDup (Dict.keys thesis_mvs))
      by (rewrite F; apply first_seen_NoDup).
    apply In_get in Hin; [|exact ND].
    destruct (G k) as [G1 G2]. unfold Dict.get_default. rewrite G2.
    rewrite G1 in Hin. unfold sum_mv.
    destruct (members k ps); [discriminate|].
    injection Hin as <-. now split.
  - rewrite T. lra.
Qed.

(** ** The order of utilizations *)

Lemma xgtb_asym (a b : xfloat) :
  PyFloat.xgtb a b = true -> PyFloat.xgtb b a = false.
Proof.
  destruct a as [x|], b as [y|]; simpl; try congruence.
  intro H. apply gtb_true in H. apply gtb_false. lra.
Qed.

Lemma xge_trans (a b c : xfloat) :
  PyFloat.xgtb b a = false -> PyFloat.xgtb c b = false ->
  PyFloat.xgtb c a = false.
Proof.
  destruct a as [x|], b as [y|], c as [z|]; simpl; try congruence.
  intros H1 H2. apply gtb_false in H1, H2. apply gtb_false. lra.
Qed.

Lemma xeqb_refl (a : xfloat) : PyFloat.xeqb a a = true.
Proof. destruct a; simpl; [apply Qeq_bool_iff; lra | reflexivity]. Qed.

Lemma xeqb_sym (a b : xfloat) : PyFloat.xeqb a b = PyFloat.xeqb b a.
Proof.
  destruct a as [x|], b as [y|]; simpl; try reflexivity.
  destruct (Qeq_bool x y) eqn:E, (Qeq_bool y x) eqn:E'; try reflexivity.
  - apply Qeq_bool_iff in E. apply Qeq_bool_false in E'. lra.
  - apply Qeq_bool_iff in E'. apply Qeq_bool_false in E. lra.
Qed.

Lemma xeqb_above (x y u : xfloat) :
  PyFloat.xeqb x u = true -> PyFloat.xgtb y x = true ->
  PyFloat.xeqb y u = false.
Proof.
  destruct x as [x|], y as [y|], u as [u|]; simpl; try congruence.
  intros H1 H2. apply Qeq_bool_iff in H1. apply gtb_true in H2.
  apply Qeq_bool_false. lra.
Qed.

(** ** The sort *)

Section Sorting.

Let key := ThesisResult.utilization.
Let same (u : xfloat) (t : ThesisResult.t) : bool := PyFloat.xeqb (key t) u.

Lemma insert_desc_perm (x : ThesisResult.t) (l : list ThesisResult.t) :
  Permutation (RiskEngine.insert_desc x l) (x :: l).
Proof.
  induction l as [|y l IH]; simpl.
  - apply Permutation_refl.
  - destruct (PyFloat.xgtb _ _).
    + apply perm_trans with (y :: x :: l);
        [now apply perm_skip | apply perm_swap].
    + apply Permutation_refl.
Qed.

Lemma sort_perm (l : list ThesisResult.t) :
  Permutation (RiskEngine.sort_by_utilization l) l.
Proof.
  induction l as [|x l IH]; simpl.
  - apply perm_nil.
  - apply perm_trans with (x :: RiskEngine.sort_by_utilization l).
    + apply insert_desc_perm.
    + now apply perm_skip.
Qed.

Lemma insert_desc_sorted (x : ThesisResult.t) (l : list ThesisResult.t) :
  StronglySorted util_ge l ->
  StronglySorted util_ge (RiskEngine.insert_desc x l).
Proof.
  induction 1 as [|y l Hs IH Hy]; simpl.
  - constructor; constructor.
  - destruct (PyFloat.xgtb (ThesisResult.utilization y)
                (ThesisResult.utilization x)) eqn:E.
    + constructor; [exact IH|].
      apply Forall_forall. intros z Hz.
      apply (Permutation_in _ (insert_desc_perm x l)) in Hz.
      destruct Hz as [<- | Hz].
      * unfold util_ge. now apply xgtb_asym.
      * rewrite Forall_forall in Hy. now apply Hy.
    + constructor; [now constructor|].
      constructor; [exact E|].
      apply Forall_forall. intros z Hz.
      rewrite Forall_forall in Hy. specialize (Hy z Hz).
      unfold util_ge in *. now apply xge_trans with (ThesisResult.utilization y).
Qed.

Lemma sort_sorted (l : list ThesisResult.t) :
  StronglySorted util_ge (RiskEngine.sort_by_utilization l).
Proof.
  induction l as [|x l IH]; simpl.
  - constructor.
  - now apply insert_desc_sorted.
Qed.

(** Stability: the theses of one utilization come out in the order they
    went in. *)
Lemma insert_desc_same (u : xfloat) (x : ThesisResult.t)
    (l : list ThesisResult.t) :
  filter (same u) (RiskEngine.insert_desc x l)
  = if same u x then x :: filter (same u) l else filter (same u) l.
Proof.
  induction l as [|y l IH]; simpl.
  - reflexivity.
  - destruct (PyFloat.xgtb (ThesisResult.utilization y)
                (ThesisResult.utilization x)) eqn:E; simpl.
    + rewrite IH. destruct (same u x) eqn:Ex.
      * unfold same, key in *. now rewrite (xeqb_above _ _ _ Ex E).
      * reflexivity.
    + reflexivity.
Qed.

Lemma sort_same (u : xfloat) (l : list ThesisResult.t) :
  filter (same u) (RiskEngine.sort_by_utilization l) = filter (same u) l.
Proof.
  induction l as [|x l IH]; simpl.
  - reflexivity.
  - rewrite insert_desc_same, IH. reflexivity.
Qed.

End Sorting.

Lemma filter_split {A} (f : A -> bool) (l m1 m2 : list A) (a : A) :
  filter f l = (m1 ++ a :: m2)%list ->
  exists l1 l2, l = (l1 ++ a :: l2)%list /\ filter f l1 = m1
                /\ filter f l2 = m2.
Proof.
  revert m1. induction l as [|x l IH]; intros m1 H; simpl in H.
  - now destruct m1.
  - destruct (f x) eqn:E.
    + destruct m1 as [|y m1]; simpl in H; injection H as -> H.
      * exists [], l. now repeat split.
      * destruct (IH m1 H) as (l1 & l2 & -> & F1 & F2).
        exists (y :: l1), l2. simpl. rewrite E, F1. now repeat split.
    + destruct (IH m1 H) as (l1 & l2 & -> & F1 & F2).
      exists (x :: l1), l2. simpl. rewrite E. now repeat split.
Qed.

Lemma before_filter {A} (f : A -> bool) (x y : A) (l : list A) :
  f x = true -> f y = true -> before x y l -> before x y (filter f l).
Proof.
  intros Hx Hy (l1 & l2 & l3 & ->).
  exists (filter f l1), (filter f l2), (filter f l3).
  rewrite filter_app. simpl. rewrite Hx, filter_app. simpl. now rewrite Hy.
Qed.

Lemma before_unfilter {A} (f : A -> bool) (x y : A) (l : list A) :
  before x y (filter f l) -> before x y l.
Proof.
  intros (m1 & m2 & m3 & H).
  apply filter_split in H. destruct H as (l1 & l' & -> & _ & H).
  apply filter_split in H. destruct H as (l2 & l3 & -> & _ & _).
  now exists l1, l2, l3.
Qed.

Lemma before_map {A B} (g : A -> B) (x y : A) (l : list A) :
  before x y l -> before (g x) (g y) (map g l).
Proof.
  intros (l1 & l2 & l3 & ->).
  exists (map g l1), (map g l2), (map g l3).
  now rewrite map_app, map_cons, map_app, map_cons.
Qed.

Lemma sort_stable (l : list ThesisResult.t) (t1 t2 : ThesisResult.t) :
  before t1 t2 (RiskEngine.sort_by_utilization l) -> util_eq t1 t2 ->
  before t1 t2 l.
Proof.
  intros Hb He.
  set (f := fun t => PyFloat.xeqb (ThesisResult.utilization t)
                       (ThesisResult.utilization t1)).
  apply (before_unfilter f).
  replace (filter f l) with (filter f (RiskEngine.sort_by_utilization l))
    by apply (sort_same (ThesisResult.utilization t1) l).
  apply before_filter; [apply xeqb_refl | | exact Hb].
  unfold util_eq in He. unfold f. now rewrite xeqb_sym.
Qed.

(** There is one stable descending arrangement of a list, so the embedding
    of [list.sort] returns what any stable sort returns. *)
Lemma xge_neq_gt (a b : xfloat) :
  PyFloat.xgtb b a = false -> PyFloat.xeqb a b = false ->
  PyFloat.xgtb a b = true.
Proof.
  destruct a as [x|], b as [y|]; simpl; try congruence.
  intros H1 H2. apply gtb_false in H1. apply Qeq_bool_false in H2.
  apply gtb_true. lra.
Qed.

Lemma same_class_filters_eq (l1 : list ThesisResult.t) :
  forall l2,
  StronglySorted util_ge l1 -> StronglySorted util_ge l2 ->
  (forall u,
      filter (fun t => PyFloat.xeqb (ThesisResult.utilization t) u) l1
      = filter (fun t => PyFloat.xeqb (ThesisResult.utilization t) u) l2) ->
  l1 = l2.
Proof.
  induction l1 as [|x l1 IH]; intros l2 S1 S2 HF.
  - destruct l2 as [|y l2]; [reflexivity|].
    specialize (HF (ThesisResult.utilization y)). simpl in HF.
    rewrite xeqb_refl in HF. discriminate.
  - destruct l2 as [|y l2].
    + specialize (HF (ThesisResult.utilization x)). simpl in HF.
      rewrite xeqb_refl in HF. discriminate.
    + inversion S1 as [|? ? S1' F1]; subst.
      inversion S2 as [|? ? S2' F2]; subst.
      rewrite Forall_forall in F1, F2.
      assert (Exy : x = y).
      { pose proof (HF (ThesisResult.utilization x)) as Hx.
        pose proof (HF (ThesisResult.utilization y)) as Hy.
        simpl in Hx, Hy. rewrite xeqb_refl in Hx, Hy.
        destruct (PyFloat.xeqb (ThesisResult.utilization y)
                    (ThesisResult.utilization x)) eqn:E.
        - now injection Hx.
        - exfalso.
          assert (Hin : In x (y :: l2)).
          { apply (proj1 (filter_In
                     (fun t => PyFloat.xeqb (ThesisResult.utilization t)
                                 (ThesisResult.utilization x)) x _)).
            simpl. rewrite E, <- Hx. now left. }
          destruct Hin as [-> | Hin]; [now rewrite xeqb_refl in E|].
          pose proof (F2 x Hin) as Gyx. unfold util_ge in Gyx.
          pose proof (xge_neq_gt _ _ Gyx E) as Gt.
          rewrite xeqb_sym in E. rewrite E in Hy.
          assert (Hin' : In y l1).
          { apply (proj1 (filter_In
                     (fun t => PyFloat.xeqb (ThesisResult.utilization t)
                                 (ThesisResult.utilization y)) y _)).
            rewrite Hy. now left. }
          pose proof (F1 y Hin') as Gxy. unfold util_ge in Gxy.
          congruence. }
      subst y. f_equal. apply IH; try assumption.
      intro u. specialize (HF u). simpl in HF.
      destruct (PyFloat.xeqb (ThesisResult.utilization x) u);
        [now injection HF | exact HF].
Qed.

Lemma stable_sort_unique (l l' : list ThesisResult.t) :
  StronglySorted util_ge l' ->
  (forall u,
      filter (fun t => PyFloat.xeqb (ThesisResult.utilization t) u) l'
      = filter (fun t => PyFloat.xeqb (ThesisResult.utilization t) u) l) ->
  l' = RiskEngine.sort_by_utilization l.
Proof.
  intros S HF. apply same_class_filters_eq; [exact S | apply sort_sorted|].
  intro u. rewrite HF. symmetry. apply sort_same.
Qed.

(** ** One thesis *)

Lemma div_ok (a b : Q) :
  ~ b == 0 -> PyFloat.div a b = Ok (a / b).
Proof.
  intro H. unfold PyFloat.div.
  apply Qeq_bool_false in H. now rewrite H.
Qed.

Lemma div_zero (a b : Q) :
  b == 0 -> PyFloat.div a b = Raise ZeroDivisionError.
Proof.
  intro H. unfold PyFloat.div.
  apply Qeq_bool_iff in H. now rewrite H.
Qed.

Lemma div_inv (a b q : Q) :
  PyFloat.div a b = Ok q -> ~ b == 0 /\ q = a / b.
Proof.
  unfold PyFloat.div. destruct (Qeq_bool b 0) eqn:E; [discriminate|].
  intro H. injection H as <-. split; [now apply Qeq_bool_false | reflexivity].
Qed.

Lemma utilization_of_spec (worst_loss budget_dollars : Q) :
  (0 < budget_dollars ->
   RiskEngine.utilization_of worst_loss budget_dollars
   = Fin (worst_loss / budget_dollars))
  /\ (budget_dollars <= 0 ->
      RiskEngine.utilization_of worst_loss budget_dollars = Inf).
Proof.
  unfold RiskEngine.utilization_of. split; intro H.
  - apply gtb_true in H. now rewrite H.
  - apply gtb_false in H. now rewrite H.
Qed.

Lemma status_eqb_BROKEN (s : ThesisStatus) :
  ThesisStatus_eqb s BROKEN = true <-> s = BROKEN.
Proof. destruct s; simpl; split; congruence. Qed.

(** Whatever [compute_thesis] returns carries the configuration of the
    thesis, its members, and metrics and action as specified. *)
Lemma compute_thesis_ok (self : RiskEngine.t) (total_equity risk_scale : Q)
    (thesis_positions : Dict.t (list Position.t)) (thesis_name : string)
    (mv : Q) (actions actions' : list string) (t : ThesisResult.t) :
  RiskEngine.compute_thesis self total_equity risk_scale thesis_positions
    thesis_name mv actions = Ok (actions', t) ->
  ThesisResult.name t = thesis_name
  /\ ThesisResult.mv t = mv
  /\ ThesisResult.positions t
     = Dict.get_default thesis_positions thesis_name []
  /\ ThesisResult.stress_pct t
     = ThesisConfig.stress_pct (config_of self thesis_name)
  /\ ThesisResult.budget_pct t
     = ThesisConfig.budget_pct (config_of self thesis_name)
  /\ ThesisResult.status t = ThesisConfig.status (config_of self thesis_name)
  /\ metrics_ok total_equity risk_scale t
  /\ action_ok t.
Proof.
  unfold RiskEngine.compute_thesis. fold (config_of self thesis_name).
  set (cfg := config_of self thesis_name).
  set (wl := Qabs mv * ThesisConfig.stress_pct cfg).
  set (bd := total_equity * ThesisConfig.budget_pct cfg * risk_scale).
  assert (HM : forall a r tm,
             metrics_ok total_equity risk_scale
               (ThesisResult.mk thesis_name mv (ThesisConfig.stress_pct cfg)
                  (ThesisConfig.budget_pct cfg) wl bd
                  (RiskEngine.utilization_of wl bd) a r tm
                  (ThesisConfig.status cfg) (ThesisConfig.falsifier cfg)
                  (Dict.get_default thesis_positions thesis_name []))).
  { intros a r tm. unfold metrics_ok. simpl.
    destruct (utilization_of_spec wl bd) as [U1 U2].
    repeat split; try reflexivity.
    - intro H. exists (wl / bd). split; [now apply U1 | reflexivity].
    - exact U2. }
  destruct (ThesisStatus_eqb (ThesisConfig.status cfg) BROKEN) eqn:EB.
  - intro H. injection H as _ <-. apply status_eqb_BROKEN in EB.
    repeat split; try reflexivity; try apply HM.
    unfold action_ok. simpl. rewrite EB. repeat split; reflexivity.
  - assert (NB : ThesisConfig.status cfg <> BROKEN)
      by (intro E; apply status_eqb_BROKEN in E; congruence).
    destruct (PyFloat.xgtb (RiskEngine.utilization_of wl bd) (Fin 1.0))
      eqn:EU.
    + destruct (PyFloat.div bd (ThesisConfig.stress_pct cfg)) as [tm|e]
        eqn:ED; [|discriminate].
      intro H. injection H as _ <-. apply div_inv in ED.
      destruct ED as [Hnz ->].
      repeat split; try reflexivity; try apply HM.
      unfold action_ok. simpl. rewrite EU.
      destruct (ThesisConfig.status cfg); try congruence;
        repeat split; try reflexivity; exact Hnz.
    + intro H. injection H as _ <-.
      repeat split; try reflexivity; try apply HM.
      unfold action_ok. simpl. rewrite EU.
      destruct (ThesisConfig.status cfg); try congruence;
        repeat split; reflexivity.
Qed.

(** [compute_thesis] fails in one case only: a thesis that is not BROKEN,
    whose utilization is above 1 and whose stress percentage is zero. *)
Lemma compute_thesis_total (self : RiskEngine.t) (total_equity risk_scale : Q)
    (thesis_positions : Dict.t (list Position.t)) (thesis_name : string)
    (mv : Q) (actions : list string) :
  let cfg := config_of self thesis_name in
  let budget := total_equity * ThesisConfig.budget_pct cfg * risk_scale in
  let run :=
    RiskEngine.compute_thesis self total_equity risk_scale thesis_positions
      thesis_name mv actions in
  (ThesisConfig.status cfg = BROKEN \/ 0 < budget
   \/ ~ ThesisConfig.stress_pct cfg == 0 ->
   exists actions' t, run = Ok (actions', t))
  /\ (ThesisConfig.status cfg <> BROKEN -> budget <= 0 ->
      ThesisConfig.stress_pct cfg == 0 ->
      run = Raise ZeroDivisionError).
Proof.
  intros cfg budget run. subst run.
  unfold RiskEngine.compute_thesis. fold (config_of self thesis_name).
  fold cfg. fold budget.
  set (wl := Qabs mv * ThesisConfig.stress_pct cfg).
  destruct (utilization_of_spec wl budget) as [U1 U2].
  split.
  - intro H.
    destruct (ThesisStatus_eqb (ThesisConfig.status cfg) BROKEN) eqn:EB;
      [eauto|].
    destruct (PyFloat.xgtb (RiskEngine.utilization_of wl budget) (Fin 1.0))
      eqn:EU; [|eauto].
    destruct (Qeq_bool (ThesisConfig.stress_pct cfg) 0) eqn:EZ.
    + exfalso. apply Qeq_bool_iff in EZ.
      destruct H as [H | [H | H]].
      * apply status_eqb_BROKEN in H. congruence.
      * rewrite (U1 H) in EU. simpl in EU. apply gtb_true in EU.
        unfold wl in EU. rewrite EZ in EU.
        assert (E0 : Qabs mv * 0 / budget == 0) by (field; lra).
        rewrite E0 in EU. lra.
      * contradiction.
    + apply Qeq_bool_false in EZ. rewrite (div_ok _ _ EZ). eauto.
  - intros NB Hb Hz.
    destruct (ThesisStatus_eqb (ThesisConfig.status cfg) BROKEN) eqn:EB.
    + apply status_eqb_BROKEN in EB. contradiction.
    + rewrite (U2 Hb). simpl. now rewrite (div_zero _ _ Hz).
Qed.

(** ** All theses *)

Section Theses.

Variables (self : RiskEngine.t) (total_equity risk_scale : Q).
Variable thesis_positions : Dict.t (list Position.t).

Let one := RiskEngine.compute_thesis self total_equity risk_scale
             thesis_positions.
Let all := RiskEngine.compute_theses self total_equity risk_scale
             thesis_positions.

Lemma compute_theses_ok (items : list (string * Q)) :
  forall (actions actions' : list string) (results results' : list ThesisResult.t),
  all items actions results = Ok (actions', results') ->
  exists rs,
    results' = (results ++ rs)%list
    /\ Forall2 (fun item t =>
                  exists a a', one (fst item) (snd item) a = Ok (a', t))
               items rs.
Proof.
  unfold all, one.
  induction items as [|[name mv] items IH];
    intros actions actions' results results' H; simpl in H.
  - injection H as _ <-. exists []. now rewrite app_nil_r.
  - destruct (RiskEngine.compute_thesis _ _ _ _ name mv actions)
      as [[a1 t]|e] eqn:E; [|discriminate].
    apply IH in H. destruct H as (rs & -> & HF).
    exists (t :: rs). unfold RiskEngine.append. rewrite <- app_assoc.
    split; [reflexivity|]. constructor; [|exact HF].
    simpl. eauto.
Qed.

Lemma compute_theses_total (items : list (string * Q)) :
  forall (actions : list string) (results : list ThesisResult.t),
  Forall (fun item => forall a, exists a' t,
              one (fst item) (snd item) a = Ok (a', t)) items ->
  exists actions' results', all items actions results = Ok (actions', results').
Proof.
  unfold all, one.
  induction items as [|[name mv] items IH]; intros actions results H; simpl.
  - eauto.
  - inversion H as [|? ? H1 H2]; subst.
    destruct (H1 actions) as (a' & t & E). simpl in E. rewrite E.
    now apply IH.
Qed.

Lemma compute_theses_raise (items : list (string * Q)) :
  forall (actions : list string) (results : list ThesisResult.t) (e : PyError),
  all items actions results = Raise e ->
  exists item a, In item items /\ one (fst item) (snd item) a = Raise e.
Proof.
  unfold all, one.
  induction items as [|[name mv] items IH]; intros actions results e H;
    simpl in H.
  - discriminate.
  - destruct (RiskEngine.compute_thesis _ _ _ _ name mv actions)
      as [[a1 t]|e'] eqn:E.
    + apply IH in H. destruct H as (item & a & Hin & Hr).
      exists item, a. split; [now right | exact Hr].
    + injection H as <-. exists (name, mv), actions. split; [now left|exact E].
Qed.

End Theses.

(** ** The accounts *)

Lemma aggregate_fold (accounts : list AccountData.t) :
  forall (bs : Dict.t string) (total : Q) (ps : list Position.t)
         (status : string),
  exists bs' status',
    fold_left RiskEngine.aggregate_step accounts (bs, total, ps, status)
    = (bs',
       fold_left (fun s acc => s + AccountData.equity acc)
         (filter (fun acc => String.eqb (AccountData.status acc) "OK")
            accounts) total,
       (ps ++ ok_positions accounts)%list,
       status').
Proof.
  unfold ok_positions.
  induction accounts as [|acc accounts IH]; intros bs total ps status.
  - simpl. rewrite app_nil_r. eauto.
  - cbn [fold_left filter]. unfold RiskEngine.aggregate_step at 2.
    destruct (String.eqb (AccountData.status acc) "OK").
    + destruct (IH (Dict.set bs
                      (AccountData.broker acc ++ ":"
                         ++ AccountData.account_id acc)
                      (AccountData.status acc))
                   (total + AccountData.equity acc)
                   (ps ++ AccountData.positions acc)%list status)
        as (bs' & status' & E).
      rewrite E. exists bs', status'. simpl. now rewrite <- app_assoc.
    + apply IH.
Qed.

Lemma aggregate_spec (accounts : list AccountData.t) :
  exists bs status,
    RiskEngine.aggregate accounts
    = (bs, sum_ok_equity accounts, ok_positions accounts, status).
Proof.
  unfold RiskEngine.aggregate, sum_ok_equity.
  destruct (aggregate_fold accounts [] 0 [] "OK") as (bs & status & E).
  exists bs, status. exact E.
Qed.

(** ** The mapping loop *)

(** The mapping loop either gives every position the thesis of its symbol,
    or stops at the first position whose symbol the resolver raises on. *)
Lemma map_positions_spec (re_match : string -> string -> ReOutcome)
    (self : RiskEngine.t) (positions : list Position.t) :
  match RiskEngine.map_positions re_match self positions with
  | Ok mapped => mapped = with_theses re_match self positions
  | Raise e =>
    exists pre pos post,
      positions = (pre ++ pos :: post)%list
      /\ RiskEngine.map_positions re_match self pre
         = Ok (with_theses re_match self pre)
      /\ RiskEngine._map_position_to_thesis re_match self
           (Position.symbol pos) = Raise e
  end.
Proof.
  induction positions as [|pos rest IH]; [reflexivity|].
  cbn [RiskEngine.map_positions].
  destruct (RiskEngine._map_position_to_thesis re_match self
              (Position.symbol pos)) as [[thesis weight]|e] eqn:E.
  - destruct (RiskEngine.map_positions re_match self rest) as [rest'|e].
    + subst rest'. cbn [with_theses map]. unfold resolved_thesis.
      now rewrite E.
    + destruct IH as (pre & pos' & post & -> & Hpre & He).
      exists (pos :: pre), pos', post. split; [reflexivity|].
      split; [|exact He].
      cbn [RiskEngine.map_positions]. rewrite E, Hpre.
      cbn [with_theses map]. unfold resolved_thesis. now rewrite E.
  - exists [], pos, rest. now repeat split.
Qed.

Lemma map_positions_ok (re_match : string -> string -> ReOutcome)
    (self : RiskEngine.t) (positions mapped : list Position.t) :
  RiskEngine.map_positions re_match self positions = Ok mapped ->
  mapped = with_theses re_match self positions.
Proof.
  intro H. pose proof (map_positions_spec re_match self positions) as S.
  now rewrite H in S.
Qed.

(** ** One run *)

Section Run.

Variable re_match : string -> string -> ReOutcome.
Variables (self : RiskEngine.t) (timestamp : datetime).
Variables (accounts : list AccountData.t) (st : Storage.t).

Let total := sum_ok_equity accounts.
Let peak := run_peak st accounts.
Let drawdown := run_drawdown st accounts.
Let mode := fst (RiskEngine._compute_mode self drawdown).
Let risk_scale := snd (RiskEngine._compute_mode self drawdown).
Let ps := run_positions re_match self accounts.
Let run := RiskEngine.compute re_match self timestamp accounts st.

(** The five ways a run can end. *)
Lemma compute_cases :
  (total <= 0 /\ run = (Raise equity_unavailable, st))
  \/ (0 < total
      /\ exists e,
           RiskEngine.parse_old_mode (Storage.get_last_mode st) = Raise e
           /\ run = (Raise e, st))
  \/ (0 < total
      /\ exists e old_mode,
           RiskEngine.parse_old_mode (Storage.get_last_mode st) = Ok old_mode
           /\ RiskEngine.map_positions re_match self (ok_positions accounts)
              = Raise e
           /\ run = (Raise e,
                     store_after_mode timestamp old_mode mode total
                       drawdown st))
  \/ (0 < total
      /\ RiskEngine.map_positions re_match self (ok_positions accounts)
         = Ok ps
      /\ exists e actions0 st1,
           RiskEngine.compute_theses self total risk_scale
             (snd (RiskEngine.group_by_thesis ps))
             (fst (RiskEngine.group_by_thesis ps)) actions0 [] = Raise e
           /\ Storage.equity_history st1 = Storage.equity_history st
           /\ run = (Raise e, st1))
  \/ (0 < total
      /\ RiskEngine.map_positions re_match self (ok_positions accounts)
         = Ok ps
      /\ exists actions0 actions rs st' bs status changed old_mode,
           RiskEngine.compute_theses self total risk_scale
             (snd (RiskEngine.group_by_thesis ps))
             (fst (RiskEngine.group_by_thesis ps)) actions0 []
           = Ok (actions, rs)
           /\ Storage.equity_history st'
              = (Storage.equity_history st
                   ++ [EquitySnapshot.mk timestamp total peak drawdown
                         (RiskMode_value mode) risk_scale status])%list
           /\ run
              = (Ok (RiskResult.mk timestamp total peak drawdown mode
                       risk_scale (RiskEngine.sort_by_utilization rs) ps
                       status bs actions changed old_mode),
                 st')).
Proof.
  subst run ps risk_scale mode drawdown peak total.
  unfold run_positions, run_drawdown, run_peak, RiskEngine.compute.
  destruct (aggregate_spec accounts) as (bs & status & ->).
  set (total := sum_ok_equity accounts).
  set (peak := PyFloat.max (Storage.get_peak st) total).
  set (drawdown := if PyFloat.gtb peak 0 then (total - peak) / peak else 0).
  set (ps := with_theses re_match self (ok_positions accounts)).
  destruct (Qle_bool total 0) eqn:Eq.
  - left. apply Qle_bool_iff in Eq. now split.
  - right. apply Qle_bool_false in Eq.
    unfold bind, reads, lift, ret, writes, RiskEngine._save_results.
    fold peak. fold drawdown.
    destruct (RiskEngine._compute_mode self drawdown) as [mode risk_scale].
    cbn [fst snd].
    destruct (RiskEngine.parse_old_mode (Storage.get_last_mode st))
      as [old_mode|e] eqn:Ep.
    + right.
      destruct (RiskEngine.map_positions re_match self
                  (ok_positions accounts)) as [mapped|e] eqn:Em.
      * right. apply map_positions_ok in Em. fold ps in Em. subst mapped.
        destruct (match old_mode with
                  | Some om => negb (RiskMode_eqb om mode)
                  | None => false
                  end) eqn:Ec;
          unfold bind, writes, ret;
          destruct (RiskEngine.group_by_thesis ps) as [mvs poss] eqn:Eg;
          cbn [fst snd];
          match goal with
          | |- context [RiskEngine.compute_theses ?s ?t ?r ?p ?i ?a []] =>
            destruct (RiskEngine.compute_theses s t r p i a [])
              as [[actions rs]|e] eqn:Et
          end.
        -- right. split; [exact Eq|]. split; [reflexivity|]. do 8 eexists.
           split; [exact Et|]. split; [|reflexivity]. reflexivity.
        -- left. split; [exact Eq|]. split; [reflexivity|]. do 3 eexists.
           split; [exact Et|]. split; [|reflexivity]. reflexivity.
        -- right. split; [exact Eq|]. split; [reflexivity|]. do 8 eexists.
           split; [exact Et|]. split; [|reflexivity]. reflexivity.
        -- left. split; [exact Eq|]. split; [reflexivity|]. do 3 eexists.
           split; [exact Et|]. split; [|reflexivity]. reflexivity.
      * left. split; [exact Eq|]. exists e, old_mode.
        split; [reflexivity|]. split; [reflexivity|].
        unfold store_after_mode, mode_differs.
        destruct old_mode as [om|]; [|reflexivity].
        destruct (RiskMode_eqb om mode); reflexivity.
    + left. split; [exact Eq|]. exists e. now split.
Qed.

End Run.

(** A run that returns a result. *)
Lemma compute_ok_inv (re_match : string -> string -> ReOutcome)
    (self : RiskEngine.t) (timestamp : datetime)
    (accounts : list AccountData.t) (st st' : Storage.t) (r : RiskResult.t) :
  RiskEngine.compute re_match self timestamp accounts st = (Ok r, st') ->
  let ps := run_positions re_match self accounts in
  let drawdown := run_drawdown st accounts in
  0 < sum_ok_equity accounts
  /\ RiskResult.equity r = sum_ok_equity accounts
  /\ RiskResult.peak r = run_peak st accounts
  /\ RiskResult.drawdown r = drawdown
  /\ RiskResult.mode r = fst (RiskEngine._compute_mode self drawdown)
  /\ RiskResult.risk_scale r = snd (RiskEngine._compute_mode self drawdown)
  /\ RiskResult.positions r = ps
  /\ (exists actions0 rs,
         RiskEngine.compute_theses self (RiskResult.equity r)
           (RiskResult.risk_scale r)
           (snd (RiskEngine.group_by_thesis ps))
           (fst (RiskEngine.group_by_thesis ps)) actions0 []
         = Ok (RiskResult.actions r, rs)
         /\ RiskResult.thesis_results r = RiskEngine.sort_by_utilization rs)
  /\ Storage.equity_history st'
     = (Storage.equity_history st
          ++ [EquitySnapshot.mk timestamp (RiskResult.equity r)
                (RiskResult.peak r) (RiskResult.drawdown r)
                (RiskMode_value (RiskResult.mode r))
                (RiskResult.risk_scale r) (RiskResult.status r)])%list.
Proof.
  intro H.
  destruct (compute_cases re_match self timestamp accounts st)
    as [[_ E] | [[_ (e & _ & E)] | [[_ (e & om & _ & _ & E)]
       | [[_ [_ (e & a0 & st1 & _ & _ & E)]] | C]]]];
    try (rewrite E in H; discriminate).
  destruct C as (Hpos & _ & a0 & acts & rs & st2 & bs & status & ch & om
                 & Et & Eh & E).
  rewrite E in H. injection H as <- <-. simpl.
  repeat split; try assumption; try reflexivity.
  exists a0, rs. now split.
Qed.

(** A run that returns a result got through the mapping loop. *)
Lemma compute_ok_mapped (re_match : string -> string -> ReOutcome)
    (self : RiskEngine.t) (timestamp : datetime)
    (accounts : list AccountData.t) (st st' : Storage.t) (r : RiskResult.t) :
  RiskEngine.compute re_match self timestamp accounts st = (Ok r, st') ->
  RiskEngine.map_positions re_match self (ok_positions accounts)
  = Ok (RiskResult.positions r).
Proof.
  intro H.
  destruct (compute_cases re_match self timestamp accounts st)
    as [[_ E] | [[_ (e & _ & E)] | [[_ (e & om & _ & _ & E)]
       | [[_ [_ (e & a0 & st1 & _ & _ & E)]] | C]]]];
    try (rewrite E in H; discriminate).
  destruct C as (Hpos & Em & a0 & acts & rs & st2 & bs & status & ch & om
                 & Et & Eh & E).
  rewrite E in H. injection H as <- <-. exact Em.
Qed.

Lemma Forall2_results {A} (R : A -> ThesisResult.t -> Prop)
    (P : ThesisResult.t -> Prop) (fk : A -> string) (fv : A -> Q)
    (items : list A) (rs : list ThesisResult.t) :
  Forall2 R items rs ->
  (forall item t, In item items -> R item t ->
     P t /\ ThesisResult.name t = fk item /\ ThesisResult.mv t = fv item) ->
  Forall P rs
  /\ map ThesisResult.name rs = map fk items
  /\ map ThesisResult.mv rs = map fv items.
Proof.
  induction 1 as [|item t items rs HR _ IH]; intro H; simpl.
  - repeat split; constructor.
  - destruct (H item t (or_introl eq_refl) HR) as (HP & Hn & Hv).
    destruct IH as (IP & In' & Iv).
    { intros i' t' Hin. apply H. now right. }
    repeat split; [now constructor | now rewrite Hn, In' | now rewrite Hv, Iv].
Qed.

(** The thesis results of a successful run, before the sort. *)
Lemma run_theses (re_match : string -> string -> ReOutcome)
    (self : RiskEngine.t) (timestamp : datetime)
    (accounts : list AccountData.t) (st st' : Storage.t) (r : RiskResult.t) :
  RiskEngine.compute re_match self timestamp accounts st = (Ok r, st') ->
  exists rs,
    RiskResult.thesis_results r = RiskEngine.sort_by_utilization rs
    /\ map ThesisResult.name rs
       = first_seen [] (map Position.thesis (RiskResult.positions r))
    /\ Forall (thesis_ok self r) rs
    /\ total ThesisResult.mv rs == total Position.mv (RiskResult.positions r).
Proof.
  intro H. apply compute_ok_inv in H.
  destruct H as (_ & _ & _ & _ & _ & _ & Hps & (a0 & rs & Et & Hs) & _).
  rewrite <- Hps in Et.
  destruct (RiskEngine.group_by_thesis (RiskResult.positions r))
    as [mvs poss] eqn:Eg.
  simpl in Et.
  destruct (group_by_thesis_spec _ _ _ Eg) as (K & _ & G & T).
  apply compute_theses_ok in Et. destruct Et as (rs' & E & F2).
  simpl in E. subst rs'.
  destruct (Forall2_results _ (thesis_ok self r) fst snd mvs rs F2)
    as (FP & Fn & Fv).
  { intros [k v] t Hin (a & a' & Hc). simpl in Hc.
    apply compute_thesis_ok in Hc.
    destruct Hc as (Hn & Hv & Hp & Hst & Hbu & Hsta & Hm & Ha).
    destruct (G k v Hin) as [Gv Gp].
    split; [|now split]. unfold thesis_ok. rewrite Hn.
    split; [now rewrite Hp, Gp|].
    split; [now rewrite Hp, Hv, Gp|].
    now repeat (split; [assumption|]). }
  exists rs. repeat split.
  - exact Hs.
  - rewrite Fn. exact K.
  - exact FP.
  - rewrite <- T.
    pose proof (total_map ThesisResult.mv (fun x => x) rs) as E1.
    pose proof (total_map snd (fun x : Q => x) mvs) as E2.
    rewrite Fv, E2 in E1.
    assert (X1 : total ThesisResult.mv rs
                 = total (fun x => ThesisResult.mv x) rs) by reflexivity.
    assert (X2 : total snd mvs = total (fun x : string * Q => snd x) mvs)
      by reflexivity.
    rewrite X1, X2, E1. reflexivity.
Qed.


Lemma sum_thesis_mv_sort (rs : list ThesisResult.t) :
  sum_thesis_mv (RiskEngine.sort_by_utilization rs) == total ThesisResult.mv rs.
Proof.
  rewrite sum_thesis_mv_total. apply total_perm, sort_perm.
Qed.

(** ** Conservation of market value *)





(** In the floats of the code the two totals of the specification differ:
    for positions of 1000.07 in thesis A and of 1012.41 and 1037.09 in
    thesis B, the market values of the two theses add up to 3049.57 in
    either order, and those of the three positions to
    3049.5699999999997. *)
Lemma C7_counterexample :
  Dict.values (Binary64.thesis_mvs Binary64.three)
  = [0x1.f408f5c28f5c3p+9%float; 0x1.003p+11%float]
  /\ Binary64.sum (Dict.values (Binary64.thesis_mvs Binary64.three))
     = 0x1.7d323d70a3d71p+11%float
  /\ Binary64.sum (rev (Dict.values (Binary64.thesis_mvs Binary64.three)))
     = 0x1.7d323d70a3d71p+11%float
  /\ Binary64.sum (map Binary64.mv Binary64.three)
     = 0x1.7d323d70a3d7p+11%float
  /\ PrimFloat.eqb
       (Binary64.sum (Dict.values (Binary64.thesis_mvs Binary64.three)))
       (Binary64.sum (map Binary64.mv Binary64.three))
     = false.
Proof. repeat split; vm_compute; reflexivity. Qed.

(** ** Order of the thesis results *)

(** C8.  The thesis results of a run are in descending order of
    utilization, and of two results of equal utilization the one listed
    first is the one whose thesis id is met first in the position list. *)
Theorem C8_sorted_by_utilization_stable
    (re_match : string -> string -> ReOutcome) (self : RiskEngine.t)
    (timestamp : datetime) (accounts : list AccountData.t)
    (st st' : Storage.t) (r : RiskResult.t) :
  RiskEngine.compute re_match self timestamp accounts st = (Ok r, st') ->
  StronglySorted util_ge (RiskResult.thesis_results r)
  /\ (forall t1 t2,
        before t1 t2 (RiskResult.thesis_results r) -> util_eq t1 t2 ->
        before (ThesisResult.name t1) (ThesisResult.name t2)
          (first_seen [] (map Position.thesis (RiskResult.positions r)))).
Proof.
  intro H.
  destruct (run_theses _ _ _ _ _ _ _ H) as (rs & Hs & Hn & _ & _).
  rewrite Hs. split.
  - apply sort_sorted.
  - intros t1 t2 Hb He. rewrite <- Hn.
    apply before_map. now apply sort_stable.
Qed.

(** Beta and Alpha both have utilization 0.375 and Beta is met first; the
    unmapped CCC has 0.0625. *)
Lemma C8_sorted_by_utilization_stable_witness :
  exists r st',
    RiskEngine.compute SimpleRe.re_match Sample.tie_engine 2%N
      Sample.tie_accounts Sample.store = (Ok r, st')
    /\ map ThesisResult.name (RiskResult.thesis_results r)
       = ["Beta"; "Alpha"; "_UNMAPPED"]
    /\ StronglySorted util_ge (RiskResult.thesis_results r).
Proof.
  eexists. eexists. split; [lazy; reflexivity|].
  split; [reflexivity|].
  eapply (C8_sorted_by_utilization_stable SimpleRe.re_match Sample.tie_engine
            2%N Sample.tie_accounts Sample.store).
  lazy. reflexivity.
Defined.

(** ** Metrics and action of a thesis *)

Lemma run_thesis_ok (re_match : string -> string -> ReOutcome)
    (self : RiskEngine.t) (timestamp : datetime)
    (accounts : list AccountData.t) (st st' : Storage.t) (r : RiskResult.t) :
  RiskEngine.compute re_match self timestamp accounts st = (Ok r, st') ->
  Forall (thesis_ok self r) (RiskResult.thesis_results r).
Proof.
  intro H.
  destruct (run_theses _ _ _ _ _ _ _ H) as (rs & Hs & _ & HF & _).
  rewrite Hs. now apply (Permutation_Forall (Permutation_sym (sort_perm rs))).
Qed.

Lemma action_ok_inf (t : ThesisResult.t) :
  action_ok t -> ThesisResult.utilization t = Inf ->
  ThesisResult.status t <> BROKEN ->
  ThesisResult.action t = Some (reduce_text (ThesisResult.reduce_amount t))
  /\ ~ ThesisResult.stress_pct t == 0.
Proof.
  unfold action_ok. intros H HI NB. rewrite HI in H. simpl in H.
  destruct (ThesisResult.status t); try congruence; tauto.
Qed.

(** C2.  For every thesis result of a run: its market value is the signed
    sum of its member positions' market values, the worst loss is
    [|mv| * stress_pct], the budget is [equity * budget_pct * risk_scale],
    and the utilization is their quotient if the budget is positive and
    infinite otherwise.  A thesis without budget that is not BROKEN is
    dealt with in the REDUCE branch: the result, when there is one, is a
    REDUCE, and the evaluation of a thesis returns that result whenever the
    stress percentage is not zero.  With equity 100000, market value 30000,
    stress 0.30, budget 0.10 and scale 1.0 the worst loss is 9000, the budget
    10000, the utilization 0.9, and there is no action. *)
Theorem C2_thesis_metrics
    (re_match : string -> string -> ReOutcome) (self : RiskEngine.t) :
  (forall timestamp accounts st st' r,
      RiskEngine.compute re_match self timestamp accounts st = (Ok r, st') ->
      Forall (fun t =>
                ThesisResult.positions t
                = members (ThesisResult.name t) (RiskResult.positions r)
                /\ ThesisResult.mv t = sum_mv (ThesisResult.positions t)
                /\ metrics_ok (RiskResult.equity r) (RiskResult.risk_scale r) t
                /\ (ThesisResult.budget_dollars t == 0 ->
                    ThesisResult.utilization t = Inf
                    /\ (ThesisResult.status t <> BROKEN ->
                        ThesisResult.action t
                        = Some (reduce_text (ThesisResult.reduce_amount t)))))
             (RiskResult.thesis_results r))
  /\ (forall total_equity risk_scale thesis_positions thesis_name mv actions,
         let cfg := config_of self thesis_name in
         total_equity * ThesisConfig.budget_pct cfg * risk_scale == 0 ->
         ThesisConfig.status cfg <> BROKEN ->
         ~ ThesisConfig.stress_pct cfg == 0 ->
         exists actions' t,
           RiskEngine.compute_thesis self total_equity risk_scale
             thesis_positions thesis_name mv actions = Ok (actions', t)
           /\ ThesisResult.utilization t = Inf
           /\ ThesisResult.action t
              = Some (reduce_text (ThesisResult.reduce_amount t)))
  /\ (exists r st' t u,
         RiskEngine.compute SimpleRe.re_match Sample.engine 2%N
           [Sample.account 100000 70000
              [Sample.stock "AAPL" 100 150 15000;
               Sample.stock "MSFT" 50 300 15000]]
           Sample.store = (Ok r, st')
         /\ RiskResult.equity r == 100000
         /\ RiskResult.risk_scale r == 1.0
         /\ RiskResult.thesis_results r = [t]
         /\ ThesisResult.mv t == 30000
         /\ ThesisResult.stress_pct t == 0.30
         /\ ThesisResult.budget_pct t == 0.10
         /\ ThesisResult.worst_loss t == 9000
         /\ ThesisResult.budget_dollars t == 10000
         /\ ThesisResult.utilization t = Fin u /\ u == 0.9
         /\ ThesisResult.action t = None).
Proof.
  split; [|split].
  - intros timestamp accounts st st' r H.
    apply run_thesis_ok in H.
    apply (Forall_impl _ (P := thesis_ok self r)); [|exact H].
    intros t (Hm & Hv & _ & _ & _ & HM & HA).
    repeat (split; [assumption|]).
    intro Hz.
    assert (HI : ThesisResult.utilization t = Inf).
    { destruct HM as (_ & _ & _ & HI). apply HI. lra. }
    split; [exact HI|]. intro NB.
    now apply action_ok_inf.
  - intros te rs tp name mv acts cfg Hz NB Hs.
    destruct (compute_thesis_total self te rs tp name mv acts) as [HT _].
    destruct HT as (acts' & t & E); [right; right; exact Hs|].
    exists acts', t. split; [exact E|].
    apply compute_thesis_ok in E.
    destruct E as (_ & _ & _ & _ & Hbp & Hst & HM & HA).
    assert (HI : ThesisResult.utilization t = Inf).
    { destruct HM as (_ & Hb & _ & HI). apply HI.
      rewrite Hb, Hbp. fold cfg. lra. }
    split; [exact HI|].
    apply action_ok_inf; [exact HA | exact HI | now rewrite Hst].
  - do 4 eexists. split; [lazy; reflexivity|].
    simpl. repeat split; reflexivity.
Qed.

(** A thesis of the sample run whose budget is zero in a store-free
    engine, and the metrics of the sample run. *)
Lemma C2_thesis_metrics_witness :
  (exists r st',
      RiskEngine.compute SimpleRe.re_match Sample.engine 2%N Sample.accounts
        Sample.store = (Ok r, st')
      /\ Forall (fun t => ThesisResult.mv t = sum_mv (ThesisResult.positions t))
           (RiskResult.thesis_results r))
  /\ (exists actions' t,
         RiskEngine.compute_thesis Sample.engine 0 1.0 [] "Test_Thesis"
           30000 [] = Ok (actions', t)
         /\ ThesisResult.utilization t = Inf
         /\ ThesisResult.action t = Some "REDUCE $30,000").
Proof.
  split.
  - eexists. eexists. split; [lazy; reflexivity|].
    eapply Forall_impl;
      [|eapply (proj1 (C2_thesis_metrics SimpleRe.re_match Sample.engine)
                  2%N Sample.accounts Sample.store);
        lazy; reflexivity].
    intros t H. apply H.
  - destruct (proj1 (proj2 (C2_thesis_metrics SimpleRe.re_match Sample.engine))
                0 1.0 [] "Test_Thesis" 30000 [])
      as (a & t & E & HI & HA).
    + reflexivity.
    + discriminate.
    + discriminate.
    + exists a, t. split; [exact E|]. split; [exact HI|].
      rewrite HA.
      assert (Et : RiskEngine.compute_thesis Sample.engine 0 1.0 []
                     "Test_Thesis" 30000 []
                   = Ok (a, t)) by exact E.
      lazy in Et. injection Et as _ <-. reflexivity.
Defined.

(** C3.  The action of a thesis is resolved in priority order.  A BROKEN
    thesis always gets EXIT with [reduce_amount = mv] and [target_mv = 0],
    whatever its utilization.  Otherwise, with a utilization above 1.0,
    [target_mv = budget_dollars / stress_pct], [reduce_amount = mv -
    target_mv] and the action is the REDUCE text (the quotient needs a
    stress percentage that is not zero).  Otherwise there is no action,
    [reduce_amount = 0] and [target_mv = mv].  Every thesis result of a run
    is of one of these three kinds. *)
Theorem C3_action_priority (self : RiskEngine.t) :
  (forall total_equity risk_scale thesis_positions thesis_name mv actions,
      let cfg := config_of self thesis_name in
      let run :=
        RiskEngine.compute_thesis self total_equity risk_scale
          thesis_positions thesis_name mv actions in
      let utilization :=
        RiskEngine.utilization_of (Qabs mv * ThesisConfig.stress_pct cfg)
          (total_equity * ThesisConfig.budget_pct cfg * risk_scale) in
      (ThesisConfig.status cfg = BROKEN ->
       exists actions' t,
         run = Ok (actions', t)
         /\ ThesisResult.action t = Some "EXIT"
         /\ ThesisResult.reduce_amount t == mv
         /\ ThesisResult.target_mv t == 0)
      /\ (ThesisConfig.status cfg <> BROKEN ->
          PyFloat.xgtb utilization (Fin 1.0) = true ->
          ~ ThesisConfig.stress_pct cfg == 0 ->
          exists actions' t,
            run = Ok (actions', t)
            /\ ThesisResult.target_mv t
               == ThesisResult.budget_dollars t / ThesisConfig.stress_pct cfg
            /\ ThesisResult.reduce_amount t == mv - ThesisResult.target_mv t
            /\ ThesisResult.action t
               = Some (reduce_text (ThesisResult.reduce_amount t)))
      /\ (ThesisConfig.status cfg <> BROKEN ->
          PyFloat.xgtb utilization (Fin 1.0) = false ->
          exists actions' t,
            run = Ok (actions', t)
            /\ ThesisResult.action t = None
            /\ ThesisResult.reduce_amount t == 0
            /\ ThesisResult.target_mv t == mv))
  /\ (forall re_match timestamp accounts st st' r,
         RiskEngine.compute re_match self timestamp accounts st = (Ok r, st') ->
         Forall action_ok (RiskResult.thesis_results r))
  /\ (forall t,
         action_ok t -> ThesisResult.status t = ACTIVE ->
         PyFloat.xgtb (ThesisResult.utilization t) (Fin 1.0) = false ->
         ThesisResult.action t = None
         /\ ThesisResult.target_mv t == ThesisResult.mv t).
Proof.
  split; [|split].
  - intros te rs tp name mv acts cfg run utilization.
    subst run utilization.
    unfold RiskEngine.compute_thesis. fold (config_of self name). fold cfg.
    split; [|split].
    + intro HB. apply status_eqb_BROKEN in HB. rewrite HB.
      do 2 eexists. split; [reflexivity|]. simpl.
      repeat split; reflexivity.
    + intros NB HU Hs.
      destruct (ThesisStatus_eqb (ThesisConfig.status cfg) BROKEN) eqn:EB;
        [apply status_eqb_BROKEN in EB; contradiction|].
      rewrite HU, (div_ok _ _ Hs).
      do 2 eexists. split; [reflexivity|]. simpl.
      repeat split; reflexivity.
    + intros NB HU.
      destruct (ThesisStatus_eqb (ThesisConfig.status cfg) BROKEN) eqn:EB;
        [apply status_eqb_BROKEN in EB; contradiction|].
      rewrite HU.
      do 2 eexists. split; [reflexivity|]. simpl.
      repeat split; reflexivity.
  - intros re_match timestamp accounts st st' r H.
    apply run_thesis_ok in H.
    apply (Forall_impl _ (P := thesis_ok self r)); [|exact H].
    intros t Ht. apply Ht.
  - intros t HA Hst HU. unfold action_ok in HA.
    rewrite Hst, HU in HA. tauto.
Qed.

(** The three kinds on the sample configuration: Broken_Thesis at a low
    utilization, Test_Thesis at 1.5 and at 0.9. *)
Lemma C3_action_priority_witness :
  (exists actions' t,
      RiskEngine.compute_thesis Sample.engine 100000 1.0 [] "Broken_Thesis"
        10000 [] = Ok (actions', t)
      /\ ThesisResult.action t = Some "EXIT"
      /\ ThesisResult.reduce_amount t == 10000
      /\ ThesisResult.target_mv t == 0)
  /\ (exists actions' t,
         RiskEngine.compute_thesis Sample.engine 100000 1.0 [] "Test_Thesis"
           50000 [] = Ok (actions', t)
         /\ ThesisResult.target_mv t == ThesisResult.budget_dollars t / 0.30
         /\ ThesisResult.reduce_amount t == 50000 - ThesisResult.target_mv t
         /\ ThesisResult.action t
            = Some (reduce_text (ThesisResult.reduce_amount t)))
  /\ (exists actions' t,
         RiskEngine.compute_thesis Sample.engine 100000 1.0 [] "Test_Thesis"
           30000 [] = Ok (actions', t)
         /\ ThesisResult.action t = None
         /\ ThesisResult.reduce_amount t == 0
         /\ ThesisResult.target_mv t == 30000).
Proof.
  split; [|split].
  - apply (proj1 (proj1 (C3_action_priority Sample.engine) 100000 1.0 []
                    "Broken_Thesis" 10000 [])).
    reflexivity.
  - apply (proj1 (proj2 (proj1 (C3_action_priority Sample.engine) 100000 1.0
                           [] "Test_Thesis" 50000 []))).
    + discriminate.
    + reflexivity.
    + discriminate.
  - apply (proj2 (proj2 (proj1 (C3_action_priority Sample.engine) 100000 1.0
                           [] "Test_Thesis" 30000 []))).
    + discriminate.
    + reflexivity.
Defined.

(** ** Failure of a run *)

Lemma compute_thesis_raise (self : RiskEngine.t) (total_equity risk_scale : Q)
    (thesis_positions : Dict.t (list Position.t)) (thesis_name : string)
    (mv : Q) (actions : list string) (e : PyError) :
  RiskEngine.compute_thesis self total_equity risk_scale thesis_positions
    thesis_name mv actions = Raise e ->
  e = ZeroDivisionError.
Proof.
  unfold RiskEngine.compute_thesis, PyFloat.div.
  destruct (ThesisStatus_eqb _ BROKEN); [discriminate|].
  destruct (PyFloat.xgtb _ _); [|discriminate].
  destruct (Qeq_bool _ 0); [|discriminate].
  now intro H; injection H as <-.
Qed.

Lemma parse_old_mode_raise (o : option string) (e : PyError) :
  RiskEngine.parse_old_mode o = Raise e ->
  exists s, o = Some s /\ e = ValueError ("'" ++ s ++ "' is not a valid RiskMode").
Proof.
  unfold RiskEngine.parse_old_mode, RiskMode_of_value.
  destruct o as [s|]; [|discriminate].
  destruct (String.eqb s ""); [discriminate|].
  destruct (String.eqb s "NORMAL"); [discriminate|].
  destruct (String.eqb s "HALF"); [discriminate|].
  destruct (String.eqb s "MIN"); [discriminate|].
  intro H. injection H as <-. now exists s.
Qed.

(** An exception of the resolver is one of [re.match]. *)
Lemma resolve_raise (re_match : string -> string -> ReOutcome)
    (table : list Mapping.t) (symbol : string) (e : PyError) :
  RiskEngine.resolve re_match table symbol = Raise e ->
  exists m, In m table /\ rule_raises re_match m symbol e.
Proof.
  induction table as [|m rest IH]; [discriminate|].
  destruct (rule_cases re_match m symbol)
    as [[H1 _] | [[_ H2] | (_ & _ & e' & H3)]].
  - now rewrite resolve_hit.
  - rewrite resolve_miss by exact H2. intro H.
    destruct (IH H) as (m' & Hin & Hr). exists m'. split; [now right | exact Hr].
  - rewrite (resolve_abort _ _ _ _ e' H3). intro H. injection H as <-.
    exists m. split; [now left | exact H3].
Qed.

Lemma map_positions_raise (re_match : string -> string -> ReOutcome)
    (self : RiskEngine.t) (positions : list Position.t) (e : PyError) :
  RiskEngine.map_positions re_match self positions = Raise e ->
  exists pattern symbol, re_match pattern symbol = ReRaises e.
Proof.
  intro H. pose proof (map_positions_spec re_match self positions) as S.
  rewrite H in S. destruct S as (pre & pos & post & _ & _ & He).
  apply resolve_raise in He. destruct He as (m & _ & _ & He).
  now exists ("^" ++ Mapping.pattern m ++ "$"), (Position.symbol pos).
Qed.




(** With equity, [compute] raises all the same when the mode recorded last
    is not the name of a mode, and when a thesis to reduce has a stress
    percentage of zero; in the second run the change of mode is already
    recorded when the exception leaves [compute]. *)
Lemma C4_counterexample :
  (0 < sum_ok_equity Sample.accounts
   /\ RiskEngine.compute SimpleRe.re_match Sample.engine 2%N Sample.accounts
        Demo.panic_store
      = (Raise (ValueError "'PANIC' is not a valid RiskMode"),
         Demo.panic_store))
  /\ (0 < sum_ok_equity Sample.zero_accounts
      /\ exists st',
           RiskEngine.compute SimpleRe.re_match Sample.zero_engine 2%N
             Sample.zero_accounts Demo.half_store
           = (Raise ZeroDivisionError, st')
           /\ map ModeChange.new_mode (Storage.mode_history st')
              = (map ModeChange.new_mode
                   (Storage.mode_history Demo.half_store)
                   ++ ["NORMAL"])%list).
Proof.
  split; [split; [reflexivity | vm_compute; reflexivity]|].
  split; [reflexivity|].
  eexists. split; vm_compute; reflexivity.
Qed.

(** A run returns a result as soon as there is equity, the mode recorded
    last is a mode, [re.match] raises nothing but its own error, and no
    configured stress percentage is zero. *)
Lemma compute_returns (re_match : string -> string -> ReOutcome)
    (self : RiskEngine.t) (timestamp : datetime)
    (accounts : list AccountData.t) (st : Storage.t) :
  0 < sum_ok_equity accounts ->
  (forall s,
      Storage.get_last_mode st = Some s ->
      In s ["NORMAL"; "HALF"; "MIN"]) ->
  (forall pattern symbol e, re_match pattern symbol <> ReRaises e) ->
  (forall name cfg,
      Dict.get (RiskEngine.thesis_configs self) name = Some cfg ->
      ~ ThesisConfig.stress_pct cfg == 0) ->
  exists r st',
    RiskEngine.compute re_match self timestamp accounts st = (Ok r, st').
Proof.
  intros Hpos Hmode Hre Hcfg.
  destruct (compute_cases re_match self timestamp accounts st)
    as [[Hle _] | [[_ (e & Ep & _)] | [[_ (e & om & _ & Em & _)]
       | [[_ [_ (e & a0 & st1 & Et & _ & _)]] | C]]]].
  - lra.
  - exfalso. destruct (parse_old_mode_raise _ _ Ep) as (s & Es & _).
    rewrite Es in Ep.
    destruct (Hmode s Es) as [<- | [<- | [<- | []]]]; discriminate.
  - exfalso. apply map_positions_raise in Em.
    destruct Em as (pattern & symbol & Em). exact (Hre _ _ _ Em).
  - exfalso. apply compute_theses_raise in Et.
    destruct Et as ([name mv] & a & _ & Et). cbn [fst snd] in Et.
    destruct (compute_thesis_total self (sum_ok_equity accounts)
                (snd (RiskEngine._compute_mode self
                        (run_drawdown st accounts)))
                (snd (RiskEngine.group_by_thesis
                        (run_positions re_match self accounts)))
                name mv a) as [HT _].
    destruct HT as (a' & t & E); [|rewrite E in Et; discriminate].
    right. right. unfold config_of.
    destruct (Dict.get (RiskEngine.thesis_configs self) name) as [cfg|] eqn:Eg.
    + now apply (Hcfg name).
    + simpl. discriminate.
  - destruct C as (_ & _ & a0 & acts & rs & st2 & bs & status & ch & om
                   & _ & _ & E).
    eauto.
Qed.

(** ** Peak and drawdown *)

Lemma max_ge_l (a b : Q) : a <= PyFloat.max a b.
Proof.
  unfold PyFloat.max. destruct (PyFloat.gtb b a) eqn:E; [|lra].
  apply gtb_true in E. lra.
Qed.

Lemma max_ge_r (a b : Q) : b <= PyFloat.max a b.
Proof.
  unfold PyFloat.max. destruct (PyFloat.gtb b a) eqn:E; [lra|].
  now apply gtb_false in E.
Qed.

Lemma max_Qmax (a b : Q) : PyFloat.max a b == Qmax a b.
Proof.
  unfold PyFloat.max. destruct (PyFloat.gtb b a) eqn:E.
  - apply gtb_true in E. rewrite Q.max_r; lra.
  - apply gtb_false in E. rewrite Q.max_l; lra.
Qed.

Lemma sql_max_upper (l : list Q) (m : Q) :
  Storage.sql_max l = Some m -> Forall (fun x => x <= m) l.
Proof.
  revert m. induction l as [|x l IH]; intros m H; simpl in H.
  - constructor.
  - destruct (Storage.sql_max l) as [m'|] eqn:E.
    + injection H as <-. specialize (IH m' eq_refl).
      destruct (PyFloat.gtb x m') eqn:G.
      * apply gtb_true in G. constructor; [lra|].
        eapply Forall_impl; [|exact IH]. simpl. intros; lra.
      * apply gtb_false in G. now constructor.
    + injection H as <-. destruct l; [|simpl in E].
      * constructor; [lra | constructor].
      * destruct (Storage.sql_max l); discriminate.
Qed.

Lemma sql_max_snoc (l : list Q) (p : Q) :
  Forall (fun x => x <= p) l ->
  exists m, Storage.sql_max (l ++ [p]) = Some m /\ m == p.
Proof.
  induction 1 as [|x l Hx _ (m & E & Hm)]; simpl.
  - exists p. split; [reflexivity | lra].
  - rewrite E. exists m.
    assert (G : PyFloat.gtb x m = false) by (apply gtb_false; lra).
    rewrite G. now split.
Qed.

Lemma get_peak_upper (st : Storage.t) :
  Forall (fun x => x <= Storage.get_peak st)
    (map EquitySnapshot.peak (Storage.equity_history st)).
Proof.
  unfold Storage.get_peak.
  destruct (Storage.sql_max _) as [m|] eqn:E.
  - apply sql_max_upper in E.
    destruct (Qeq_bool m 0) eqn:Z; [|exact E].
    apply Qeq_bool_iff in Z.
    eapply Forall_impl; [|exact E]. simpl. intros; lra.
  - destruct (map _ _) as [|x l]; [constructor|].
    simpl in E. destruct (Storage.sql_max l); discriminate.
Qed.

Lemma get_peak_append (st st' : Storage.t) (row : EquitySnapshot.t) :
  Storage.equity_history st' = (Storage.equity_history st ++ [row])%list ->
  Storage.get_peak st <= EquitySnapshot.peak row ->
  Storage.get_peak st' == EquitySnapshot.peak row.
Proof.
  intros E H. unfold Storage.get_peak at 1. rewrite E, map_app. simpl.
  destruct (sql_max_snoc (map EquitySnapshot.peak (Storage.equity_history st))
              (EquitySnapshot.peak row)) as (m & -> & Hm).
  - eapply Forall_impl; [|apply get_peak_upper]. simpl. intros; lra.
  - destruct (Qeq_bool m 0) eqn:Z; [|exact Hm].
    apply Qeq_bool_iff in Z. lra.
Qed.

Lemma get_peak_same (st st' : Storage.t) :
  Storage.equity_history st' = Storage.equity_history st ->
  Storage.get_peak st' = Storage.get_peak st.
Proof. intro E. unfold Storage.get_peak. now rewrite E. Qed.

Lemma store_after_mode_equity_history (timestamp : datetime)
    (old_mode : option RiskMode) (mode : RiskMode) (equity drawdown : Q)
    (st : Storage.t) :
  Storage.equity_history
    (store_after_mode timestamp old_mode mode equity drawdown st)
  = Storage.equity_history st.
Proof.
  unfold store_after_mode. now destruct (mode_differs old_mode mode).
Qed.

Lemma compute_peak_mono (re_match : string -> string -> ReOutcome)
    (self : RiskEngine.t) (timestamp : datetime)
    (accounts : list AccountData.t) (st : Storage.t) :
  Storage.get_peak st
  <= Storage.get_peak
       (snd (RiskEngine.compute re_match self timestamp accounts st)).
Proof.
  destruct (compute_cases re_match self timestamp accounts st)
    as [[_ E] | [[_ (e & _ & E)] | [[_ (e & om & _ & _ & E)]
       | [[_ [_ (e & a0 & st1 & _ & Eh & E)]] | C]]]];
    try (rewrite E; simpl; lra).
  - rewrite E. simpl.
    rewrite (get_peak_same _ _ (store_after_mode_equity_history _ _ _ _ _ _)).
    lra.
  - rewrite E. simpl. rewrite (get_peak_same _ _ Eh). lra.
  - destruct C as (_ & _ & a0 & acts & rs & st2 & bs & status & ch & om
                   & _ & Eh & E).
    rewrite E. simpl.
    rewrite (get_peak_append _ _ _ Eh); simpl; apply max_ge_l.
Qed.

Lemma runs_app (re_match : string -> string -> ReOutcome)
    (self : RiskEngine.t) (calls1 calls2 : list (datetime * list AccountData.t))
    (st : Storage.t) :
  runs re_match self (calls1 ++ calls2) st
  = runs re_match self calls2 (runs re_match self calls1 st).
Proof.
  revert st. induction calls1 as [|[ts accts] calls1 IH]; intro st; simpl.
  - reflexivity.
  - apply IH.
Qed.

Lemma runs_peak_mono (re_match : string -> string -> ReOutcome)
    (self : RiskEngine.t) (calls : list (datetime * list AccountData.t))
    (st : Storage.t) :
  Storage.get_peak st <= Storage.get_peak (runs re_match self calls st).
Proof.
  revert st. induction calls as [|[ts accts] calls IH]; intro st; simpl.
  - lra.
  - eapply Qle_trans; [apply (compute_peak_mono re_match self ts accts)|].
    apply IH.
Qed.

(** C6.  In a run that returns a result the peak is the greater of the
    persisted peak and the total equity, and the drawdown is
    [(equity - peak) / peak], which is never positive; the run persists that
    peak.  Hence the persisted peak never decreases, over one call (whether
    it returns or raises) and over any sequence of calls. *)
Theorem C6_peak_monotone_drawdown_nonpositive
    (re_match : string -> string -> ReOutcome) (self : RiskEngine.t) :
  (forall timestamp accounts st st' r,
      RiskEngine.compute re_match self timestamp accounts st = (Ok r, st') ->
      RiskResult.peak r == Qmax (Storage.get_peak st) (RiskResult.equity r)
      /\ RiskResult.drawdown r
         == (RiskResult.equity r - RiskResult.peak r) / RiskResult.peak r
      /\ RiskResult.drawdown r <= 0
      /\ Storage.get_peak st' == RiskResult.peak r
      /\ Storage.get_peak st <= Storage.get_peak st')
  /\ (forall timestamp accounts st,
         Storage.get_peak st
         <= Storage.get_peak
              (snd (RiskEngine.compute re_match self timestamp accounts st)))
  /\ (forall calls1 calls2 st,
         Storage.get_peak (runs re_match self calls1 st)
         <= Storage.get_peak (runs re_match self (calls1 ++ calls2) st)).
Proof.
  split; [|split].
  - intros timestamp accounts st st' r H.
    pose proof (compute_peak_mono re_match self timestamp accounts st) as HM.
    rewrite H in HM. simpl in HM.
    apply compute_ok_inv in H.
    destruct H as (Hpos & He & Hp & Hd & _ & _ & _ & _ & Eh).
    assert (Hge : RiskResult.equity r <= RiskResult.peak r)
      by (rewrite He, Hp; apply max_ge_r).
    assert (Hpp : 0 < RiskResult.peak r) by (rewrite He in Hge; lra).
    assert (Hdd : RiskResult.drawdown r
                  == (RiskResult.equity r - RiskResult.peak r)
                     / RiskResult.peak r).
    { rewrite Hd. unfold run_drawdown. rewrite <- Hp, <- He.
      assert (G : PyFloat.gtb (RiskResult.peak r) 0 = true)
        by now apply gtb_true.
      rewrite G. reflexivity. }
    split; [rewrite Hp, He; apply max_Qmax|].
    split; [exact Hdd|].
    split; [rewrite Hdd; apply Qle_shift_div_r; [exact Hpp | lra]|].
    split; [|exact HM].
    rewrite (get_peak_append _ _ _ Eh); simpl; [reflexivity|].
    rewrite Hp. apply max_ge_l.
  - intros. apply compute_peak_mono.
  - intros calls1 calls2 st. rewrite runs_app. apply runs_peak_mono.
Qed.

(** Equity 88000 under a persisted peak of 100000: the peak stays, the
    drawdown is -0.12. *)
Lemma C6_peak_monotone_drawdown_nonpositive_witness :
  exists r st',
    RiskEngine.compute SimpleRe.re_match Sample.engine 2%N
      [Sample.account 88000 88000 []] Sample.store = (Ok r, st')
    /\ RiskResult.peak r == 100000
    /\ RiskResult.drawdown r == -0.12
    /\ RiskResult.drawdown r <= 0
    /\ Storage.get_peak Sample.store <= Storage.get_peak st'.
Proof.
  eexists. eexists. split; [lazy; reflexivity|].
  split; [reflexivity|]. split; [reflexivity|].
  refine ((fun H => conj (proj1 (proj2 (proj2 H)))
                         (proj2 (proj2 (proj2 (proj2 H)))))
            (proj1 (C6_peak_monotone_drawdown_nonpositive SimpleRe.re_match
                      Sample.engine) 2%N [Sample.account 88000 88000 []]
               Sample.store _ _ _)).
  lazy. reflexivity.
Defined.

(** ** The weight of a rule *)

Lemma resolve_weight_irrelevant (re_match : string -> string -> ReOutcome)
    (rules1 rules2 : list Mapping.t) (symbol : string) :
  map rule_key rules1 = map rule_key rules2 ->
  match RiskEngine.resolve re_match rules1 symbol,
        RiskEngine.resolve re_match rules2 symbol with
  | Ok (thesis1, _), Ok (thesis2, _) => thesis1 = thesis2
  | Raise e1, Raise e2 => e1 = e2
  | _, _ => False
  end.
Proof.
  revert rules2. induction rules1 as [|m1 rules1 IH]; intros [|m2 rules2] H;
    try discriminate; [reflexivity|].
  simpl in H. injection H as Hp Ht Hr.
  simpl. rewrite Hp.
  destruct (String.eqb (Mapping.pattern m2) symbol); [exact Ht|].
  destruct (re_match _ symbol) as [[|]| |e];
    [exact Ht | now apply IH | now apply IH | reflexivity].
Qed.

Lemma map_positions_weight_irrelevant
    (re_match : string -> string -> ReOutcome)
    (account_config : AccountConfig.t) (thesis_configs : Dict.t ThesisConfig.t)
    (rules1 rules2 : list Mapping.t) (l : list Position.t) :
  map rule_key rules1 = map rule_key rules2 ->
  RiskEngine.map_positions re_match
    (RiskEngine.mk account_config thesis_configs rules1) l
  = RiskEngine.map_positions re_match
      (RiskEngine.mk account_config thesis_configs rules2) l.
Proof.
  intro H. induction l as [|p l IH]; [reflexivity|].
  cbn [RiskEngine.map_positions]. rewrite IH.
  unfold RiskEngine._map_position_to_thesis. simpl.
  pose proof (resolve_weight_irrelevant re_match rules1 rules2
                (Position.symbol p) H) as E.
  destruct (RiskEngine.resolve re_match rules1 (Position.symbol p))
    as [[t1 w1]|e1],
      (RiskEngine.resolve re_match rules2 (Position.symbol p))
    as [[t2 w2]|e2]; try contradiction; now subst.
Qed.

(** C10.  Two engines whose rule tables have the same patterns and theses in
    the same order, and differ at most in the weights, compute the same
    thing from the same accounts and store: the same result or error, and
    the same store afterwards. *)
Theorem C10_weight_is_discarded
    (re_match : string -> string -> ReOutcome)
    (account_config : AccountConfig.t) (thesis_configs : Dict.t ThesisConfig.t)
    (rules1 rules2 : list Mapping.t) (timestamp : datetime)
    (accounts : list AccountData.t) (st : Storage.t) :
  map rule_key rules1 = map rule_key rules2 ->
  RiskEngine.compute re_match
    (RiskEngine.mk account_config thesis_configs rules1) timestamp accounts st
  = RiskEngine.compute re_match
      (RiskEngine.mk account_config thesis_configs rules2) timestamp accounts
      st.
Proof.
  intro H. unfold RiskEngine.compute.
  destruct (aggregate_spec accounts) as (bs & status & ->).
  rewrite (map_positions_weight_irrelevant re_match account_config
             thesis_configs rules1 rules2 (ok_positions accounts) H).
  reflexivity.
Qed.

(** The sample rules with every weight replaced. *)
Lemma C10_weight_is_discarded_witness :
  RiskEngine.compute SimpleRe.re_match
    (RiskEngine.mk (RiskEngine._load_account_config None)
       (RiskEngine._load_thesis_config (Some (Some Sample.theses)))
       Sample.rules) 2%N Sample.accounts Sample.store
  = RiskEngine.compute SimpleRe.re_match
      (RiskEngine.mk (RiskEngine._load_account_config None)
         (RiskEngine._load_thesis_config (Some (Some Sample.theses)))
         [Mapping.mk "AAPL" "Test_Thesis" 0.25;
          Mapping.mk "MSFT" "Test_Thesis" 7;
          Mapping.mk "BROKEN" "Broken_Thesis" 0])
      2%N Sample.accounts Sample.store.
Proof.
  apply C10_weight_is_discarded. reflexivity.
Defined.

(** ** A stress percentage of zero *)

Lemma load_theses_other (items : list (string * RawThesis.t)) (name : string) :
  forall configs,
  ~ In name (map fst items) ->
  Dict.get (fst (RiskEngine.load_theses items configs)) name
  = Dict.get configs name.
Proof.
  induction items as [|[n raw] items IH]; intros configs Hn; simpl.
  - reflexivity.
  - destruct (ThesisStatus_of_value _) as [st|e]; [|reflexivity].
    rewrite IH by (intro H; apply Hn; now right).
    apply get_set_other. intro E. apply Hn. now left.
Qed.

Lemma load_theses_valid (items : list (string * RawThesis.t)) :
  forall configs,
  Forall (fun item => valid_status (snd item)) items ->
  snd (RiskEngine.load_theses items configs) = None.
Proof.
  induction items as [|[n raw] items IH]; intros configs H; simpl.
  - reflexivity.
  - inversion H as [|? ? (st & Hst) H']; subst. simpl in Hst.
    rewrite Hst. now apply IH.
Qed.






(** * Further properties of the engine and of the code around it *)

(** ** The shape of a run *)

Lemma aggregate_exact_fold (accounts : list AccountData.t) :
  forall (bs : Dict.t string) (total : Q) (ps : list Position.t)
         (status : string),
  fold_left RiskEngine.aggregate_step accounts (bs, total, ps, status)
  = (fold_left (fun bs acc =>
                  Dict.set bs (account_key acc) (AccountData.status acc))
       accounts bs,
     fold_left (fun s acc => s + AccountData.equity acc)
       (filter is_ok accounts) total,
     (ps ++ flat_map AccountData.positions (filter is_ok accounts))%list,
     if forallb is_ok accounts then status else "DEGRADED").
Proof.
  induction accounts as [|acc accounts IH]; intros bs total ps status.
  - simpl. now rewrite app_nil_r.
  - cbn [fold_left filter forallb]. unfold RiskEngine.aggregate_step at 2.
    fold (account_key acc). fold (is_ok acc).
    destruct (is_ok acc); rewrite IH; simpl.
    + now rewrite <- app_assoc.
    + now destruct (forallb is_ok accounts).
Qed.

Lemma aggregate_exact (accounts : list AccountData.t) :
  RiskEngine.aggregate accounts
  = (run_broker_statuses accounts, sum_ok_equity accounts,
     ok_positions accounts, run_status accounts).
Proof.
  unfold RiskEngine.aggregate. rewrite aggregate_exact_fold. reflexivity.
Qed.

(** [compute], step by step, in terms of the quantities of the run. *)
Lemma compute_shape (re_match : string -> string -> ReOutcome)
    (self : RiskEngine.t) (timestamp : datetime)
    (accounts : list AccountData.t) (st : Storage.t) :
  let total := sum_ok_equity accounts in
  let peak := run_peak st accounts in
  let drawdown := run_drawdown st accounts in
  let mode := fst (RiskEngine._compute_mode self drawdown) in
  let risk_scale := snd (RiskEngine._compute_mode self drawdown) in
  let ps := run_positions re_match self accounts in
  RiskEngine.compute re_match self timestamp accounts st
  = if Qle_bool total 0 then (Raise equity_unavailable, st)
    else
      match RiskEngine.parse_old_mode (Storage.get_last_mode st) with
      | Raise e => (Raise e, st)
      | Ok old_mode =>
        let st1 := store_after_mode timestamp old_mode mode total drawdown st in
        match RiskEngine.map_positions re_match self (ok_positions accounts)
        with
        | Raise e => (Raise e, st1)
        | Ok _ =>
          match RiskEngine.compute_theses self total risk_scale
                  (snd (RiskEngine.group_by_thesis ps))
                  (fst (RiskEngine.group_by_thesis ps))
                  (initial_actions old_mode mode risk_scale) [] with
          | Raise e => (Raise e, st1)
          | Ok (actions, rs) =>
            let results := RiskEngine.sort_by_utilization rs in
            (Ok (RiskResult.mk timestamp total peak drawdown mode risk_scale
                   results ps (run_status accounts)
                   (run_broker_statuses accounts) actions
                   (mode_differs old_mode mode) old_mode),
             Storage.save_positions (map (position_row timestamp) ps)
               (Storage.save_thesis_metrics
                  (map (metric_row timestamp) results)
                  (Storage.save_equity_snapshot
                     (EquitySnapshot.mk timestamp total peak drawdown
                        (RiskMode_value mode) risk_scale
                        (run_status accounts))
                     st1)))
          end
        end
      end.
Proof.
  intros total peak drawdown mode risk_scale ps.
  subst ps risk_scale mode drawdown peak total.
  unfold run_positions, run_drawdown, run_peak, RiskEngine.compute.
  rewrite aggregate_exact.
  set (total := sum_ok_equity accounts).
  set (peak := PyFloat.max (Storage.get_peak st) total).
  set (drawdown := if PyFloat.gtb peak 0 then (total - peak) / peak else 0).
  set (ps := with_theses re_match self (ok_positions accounts)).
  destruct (Qle_bool total 0); [reflexivity|].
  unfold bind, reads, lift, ret, writes, RiskEngine._save_results.
  fold peak. fold drawdown.
  destruct (RiskEngine._compute_mode self drawdown) as [mode risk_scale].
  cbn [fst snd].
  destruct (RiskEngine.parse_old_mode (Storage.get_last_mode st))
    as [old_mode|e]; [|reflexivity].
  unfold store_after_mode, initial_actions, mode_differs.
  destruct (RiskEngine.map_positions re_match self (ok_positions accounts))
    as [mapped|e] eqn:Em.
  - apply map_positions_ok in Em. fold ps in Em. subst mapped.
    destruct (RiskEngine.group_by_thesis ps) as [mvs poss]. cbn [fst snd].
    destruct old_mode as [om|];
      [destruct (negb (RiskMode_eqb om mode))|];
      unfold bind, writes, ret; cbn [app];
      destruct mode; unfold RiskEngine.append, mode_change_entry, mode_entry;
      cbn [app];
      match goal with
      | |- context [RiskEngine.compute_theses ?s ?t ?r ?p ?i ?a []] =>
        destruct (RiskEngine.compute_theses s t r p i a [])
          as [[actions rs]|e]
      end; reflexivity.
  - destruct old_mode as [om|];
      [destruct (negb (RiskMode_eqb om mode))|]; reflexivity.
Qed.

Lemma compute_ok_shape (re_match : string -> string -> ReOutcome)
    (self : RiskEngine.t) (timestamp : datetime)
    (accounts : list AccountData.t) (st st' : Storage.t) (r : RiskResult.t) :
  RiskEngine.compute re_match self timestamp accounts st = (Ok r, st') ->
  exists old_mode rs,
    RiskEngine.parse_old_mode (Storage.get_last_mode st) = Ok old_mode
    /\ RiskEngine.compute_theses self (RiskResult.equity r)
         (RiskResult.risk_scale r)
         (snd (RiskEngine.group_by_thesis (RiskResult.positions r)))
         (fst (RiskEngine.group_by_thesis (RiskResult.positions r)))
         (initial_actions old_mode (RiskResult.mode r) (RiskResult.risk_scale r))
         []
       = Ok (RiskResult.actions r, rs)
    /\ r = RiskResult.mk timestamp (sum_ok_equity accounts)
             (run_peak st accounts) (run_drawdown st accounts)
             (fst (RiskEngine._compute_mode self (run_drawdown st accounts)))
             (snd (RiskEngine._compute_mode self (run_drawdown st accounts)))
             (RiskEngine.sort_by_utilization rs)
             (run_positions re_match self accounts)
             (run_status accounts) (run_broker_statuses accounts)
             (RiskResult.actions r)
             (mode_differs old_mode (RiskResult.mode r)) old_mode
    /\ st' = Storage.save_positions
               (map (position_row timestamp) (RiskResult.positions r))
               (Storage.save_thesis_metrics
                  (map (metric_row timestamp) (RiskResult.thesis_results r))
                  (Storage.save_equity_snapshot (snapshot_row r)
                     (store_after_mode timestamp old_mode (RiskResult.mode r)
                        (RiskResult.equity r) (RiskResult.drawdown r) st))).
Proof.
  rewrite compute_shape.
  destruct (Qle_bool (sum_ok_equity accounts) 0); [discriminate|].
  destruct (RiskEngine.parse_old_mode (Storage.get_last_mode st))
    as [old_mode|e]; [|discriminate].
  destruct (RiskEngine.map_positions _ _ _) as [mapped|e]; [|discriminate].
  destruct (RiskEngine.compute_theses _ _ _ _ _ _ _) as [[actions rs]|e] eqn:Et;
    [|discriminate].
  intro H. injection H as <- <-. exists old_mode, rs. simpl.
  repeat split; try reflexivity. exact Et.
Qed.

Lemma compute_raise_shape (re_match : string -> string -> ReOutcome)
    (self : RiskEngine.t) (timestamp : datetime)
    (accounts : list AccountData.t) (st st' : Storage.t) (e : PyError) :
  RiskEngine.compute re_match self timestamp accounts st = (Raise e, st') ->
  st' = st
  \/ ((e = ZeroDivisionError
       \/ exists pattern symbol, re_match pattern symbol = ReRaises e)
      /\ exists old_mode,
           RiskEngine.parse_old_mode (Storage.get_last_mode st) = Ok old_mode
           /\ st' = store_after_mode timestamp old_mode
                      (fst (RiskEngine._compute_mode self
                              (run_drawdown st accounts)))
                      (sum_ok_equity accounts) (run_drawdown st accounts) st).
Proof.
  rewrite compute_shape.
  destruct (Qle_bool (sum_ok_equity accounts) 0);
    [intro H; injection H as _ <-; now left|].
  destruct (RiskEngine.parse_old_mode (Storage.get_last_mode st))
    as [old_mode|e']; [|intro H; injection H as _ <-; now left].
  destruct (RiskEngine.map_positions _ _ _) as [mapped|e'] eqn:Em.
  - destruct (RiskEngine.compute_theses _ _ _ _ _ _ _)
      as [[actions rs]|e''] eqn:Et; [discriminate|].
    intro H. injection H as <- <-. right.
    apply compute_theses_raise in Et. destruct Et as (item & a & _ & Et).
    apply compute_thesis_raise in Et. split; [now left|].
    now exists old_mode.
  - intro H. injection H as <- <-. right.
    apply map_positions_raise in Em. split; [now right|].
    now exists old_mode.
Qed.

(** ** Failed accounts *)

Lemma filter_idem {A} (f : A -> bool) (l : list A) :
  filter f (filter f l) = filter f l.
Proof.
  induction l as [|x l IH]; simpl; [reflexivity|].
  destruct (f x) eqn:E; simpl; [rewrite E; now f_equal | exact IH].
Qed.

Lemma sum_ok_equity_filter (accounts : list AccountData.t) :
  sum_ok_equity (filter is_ok accounts) = sum_ok_equity accounts.
Proof.
  unfold sum_ok_equity. fold is_ok. unfold is_ok at 1.
  change (fun acc => String.eqb (AccountData.status acc) "OK") with is_ok.
  now rewrite filter_idem.
Qed.

Lemma ok_positions_filter (accounts : list AccountData.t) :
  ok_positions (filter is_ok accounts) = ok_positions accounts.
Proof.
  unfold ok_positions.
  change (fun acc => String.eqb (AccountData.status acc) "OK") with is_ok.
  now rewrite filter_idem.
Qed.

Lemma run_status_ok (accounts : list AccountData.t) :
  run_status accounts = "OK"
  <-> forall acc, In acc accounts -> AccountData.status acc = "OK".
Proof.
  unfold run_status.
  destruct (forallb is_ok accounts) eqn:E.
  - split; [|reflexivity]. intros _ acc Hin.
    rewrite forallb_forall in E. apply String.eqb_eq. now apply (E acc).
  - split; [discriminate|]. intro H. exfalso.
    assert (E' : forallb is_ok accounts = true).
    { apply forallb_forall. intros acc Hin. apply String.eqb_eq. now apply H. }
    congruence.
Qed.

Lemma run_status_filter (accounts : list AccountData.t) :
  run_status (filter is_ok accounts) = "OK".
Proof.
  apply run_status_ok. intros acc Hin. apply filter_In in Hin.
  now apply String.eqb_eq.
Qed.

(** X1.  The status of a result is OK when every account is OK and DEGRADED
    otherwise, and failed accounts change nothing else but
    [broker_statuses]: the run on the OK accounts alone returns the same
    equity, peak, drawdown, mode, scale, thesis results, positions, actions
    and mode change. *)
Theorem X1_failed_accounts_only_degrade
    (re_match : string -> string -> ReOutcome) (self : RiskEngine.t)
    (timestamp : datetime) (accounts : list AccountData.t)
    (st st' : Storage.t) (r : RiskResult.t) :
  RiskEngine.compute re_match self timestamp accounts st = (Ok r, st') ->
  (RiskResult.status r = "OK"
   <-> forall acc, In acc accounts -> AccountData.status acc = "OK")
  /\ (RiskResult.status r = "OK" \/ RiskResult.status r = "DEGRADED")
  /\ exists r0 st0,
       RiskEngine.compute re_match self timestamp (filter is_ok accounts) st
       = (Ok r0, st0)
       /\ RiskResult.status r0 = "OK"
       /\ risk_view r0 = risk_view r.
Proof.
  intro H.
  assert (Hs : RiskResult.status r = run_status accounts).
  { destruct (compute_ok_shape _ _ _ _ _ _ _ H) as (om & rs & _ & _ & -> & _).
    reflexivity. }
  split; [rewrite Hs; apply run_status_ok|].
  split; [rewrite Hs; unfold run_status; destruct (forallb _ _); auto|].
  rewrite compute_shape in H. rewrite compute_shape.
  unfold run_positions, run_drawdown, run_peak in *.
  rewrite sum_ok_equity_filter, ok_positions_filter, run_status_filter.
  destruct (Qle_bool (sum_ok_equity accounts) 0); [discriminate|].
  destruct (RiskEngine.parse_old_mode (Storage.get_last_mode st))
    as [old_mode|e]; [|discriminate].
  destruct (RiskEngine.map_positions _ _ _) as [mapped|e]; [|discriminate].
  destruct (RiskEngine.compute_theses _ _ _ _ _ _ _) as [[actions rs]|e];
    [|discriminate].
  injection H as <- _.
  do 2 eexists. split; [reflexivity|]. split; reflexivity.
Qed.

(** The sample account beside a failed one. *)
Lemma X1_failed_accounts_only_degrade_witness :
  exists r st' r0 st0,
    RiskEngine.compute SimpleRe.re_match Sample.engine 2%N Demo.mixed_accounts
      Sample.store = (Ok r, st')
    /\ RiskResult.status r = "DEGRADED"
    /\ RiskEngine.compute SimpleRe.re_match Sample.engine 2%N
         (filter is_ok Demo.mixed_accounts) Sample.store = (Ok r0, st0)
    /\ RiskResult.status r0 = "OK"
    /\ risk_view r0 = risk_view r.
Proof.
  destruct (X1_failed_accounts_only_degrade SimpleRe.re_match Sample.engine
              2%N Demo.mixed_accounts Sample.store
              (snd (RiskEngine.compute SimpleRe.re_match Sample.engine 2%N
                      Demo.mixed_accounts Sample.store))
              (match fst (RiskEngine.compute SimpleRe.re_match Sample.engine
                            2%N Demo.mixed_accounts Sample.store) with
               | Ok r => r
               | Raise _ =>
                 RiskResult.mk 0%N 0 0 0 NORMAL 0 [] [] "" [] [] false None
               end))
    as (_ & _ & r0 & st0 & E0 & S0 & V0).
  - vm_compute. reflexivity.
  - do 4 eexists. split; [vm_compute; reflexivity|].
    split; [reflexivity|]. split; [exact E0|]. split; [exact S0 | exact V0].
Defined.

Lemma broker_statuses_fold (accounts : list AccountData.t) (key : string) :
  forall bs,
  Dict.get
    (fold_left (fun bs acc =>
                  Dict.set bs (account_key acc) (AccountData.status acc))
       accounts bs) key
  = match last_with_key key accounts with
    | Some acc => Some (AccountData.status acc)
    | None => Dict.get bs key
    end.
Proof.
  unfold last_with_key.
  induction accounts as [|acc accounts IH] using rev_ind; intro bs.
  - reflexivity.
  - rewrite fold_left_app, rev_app_distr. simpl.
    destruct (String.eqb (account_key acc) key) eqn:E.
    + apply String.eqb_eq in E. subst key. apply get_set_same.
    + apply String.eqb_neq in E. rewrite get_set_other by exact E. apply IH.
Qed.

(** X2.  [broker_statuses] has an entry for every account, failed or not,
    under the key [broker:account_id]; when several accounts share a key the
    status of the last one is kept. *)
Theorem X2_broker_statuses_last_wins
    (re_match : string -> string -> ReOutcome) (self : RiskEngine.t)
    (timestamp : datetime) (accounts : list AccountData.t)
    (st st' : Storage.t) (r : RiskResult.t) :
  RiskEngine.compute re_match self timestamp accounts st = (Ok r, st') ->
  forall key,
    Dict.get (RiskResult.broker_statuses r) key
    = option_map AccountData.status (last_with_key key accounts).
Proof.
  intros H key.
  destruct (compute_ok_shape _ _ _ _ _ _ _ H) as (om & rs & _ & _ & -> & _).
  simpl. unfold run_broker_statuses. rewrite broker_statuses_fold.
  now destruct (last_with_key key accounts).
Qed.

(** The failed account is listed with its status. *)
Lemma X2_broker_statuses_last_wins_witness :
  Dict.get (RiskResult.broker_statuses (Demo.mixed_result))
    "Bad:456"
  = option_map AccountData.status
      (last_with_key "Bad:456" Demo.mixed_accounts)
  /\ last_with_key "Bad:456" Demo.mixed_accounts = Some Demo.failed.
Proof.
  split; [|reflexivity].
  apply (X2_broker_statuses_last_wins SimpleRe.re_match Sample.engine 2%N
           Demo.mixed_accounts Sample.store (snd Demo.mixed_run)).
  vm_compute. reflexivity.
Defined.

(** ** What a run writes *)

(** X3.  A run that returns a result only adds rows: one equity snapshot
    holding the figures of the result, one metric row per thesis result in
    the order of the result, one row per position, and one mode-change row
    exactly when the result reports a mode change; every row carries the
    timestamp of the run, and nothing that was stored is altered. *)
Theorem X3_successful_run_appends
    (re_match : string -> string -> ReOutcome) (self : RiskEngine.t)
    (timestamp : datetime) (accounts : list AccountData.t)
    (st st' : Storage.t) (r : RiskResult.t) :
  RiskEngine.compute re_match self timestamp accounts st = (Ok r, st') ->
  RiskResult.timestamp r = timestamp
  /\ Storage.equity_history st'
     = (Storage.equity_history st ++ [snapshot_row r])%list
  /\ Storage.thesis_metrics st'
     = (Storage.thesis_metrics st
          ++ map (metric_row timestamp) (RiskResult.thesis_results r))%list
  /\ Storage.positions st'
     = (Storage.positions st
          ++ map (position_row timestamp) (RiskResult.positions r))%list
  /\ Storage.mode_history st'
     = (Storage.mode_history st
          ++ if RiskResult.mode_changed r
             then [mode_change_row (Storage.get_last_mode st) r]
             else [])%list.
Proof.
  intro H.
  destruct (compute_ok_shape _ _ _ _ _ _ _ H) as (om & rs & _ & _ & Er & ->).
  assert (Ets : RiskResult.timestamp r = timestamp) by (rewrite Er; reflexivity).
  assert (Ech : RiskResult.mode_changed r = mode_differs om (RiskResult.mode r))
    by (rewrite Er at 1; reflexivity).
  split; [exact Ets|].
  unfold store_after_mode. rewrite <- Ech.
  destruct (RiskResult.mode_changed r); simpl;
    unfold mode_change_row; rewrite ?Ets, ?app_nil_r; repeat split; reflexivity.
Qed.

(** The sample run under a peak of 100000 with equity 88000: the mode goes
    from NORMAL to HALF and the change is logged. *)
Lemma X3_successful_run_appends_witness :
  RiskResult.mode_changed (Demo.half_result) = true
  /\ Storage.equity_history (Demo.half_store)
     = (Storage.equity_history Sample.store
          ++ [snapshot_row (Demo.half_result)])%list
  /\ Storage.mode_history (Demo.half_store)
     = (Storage.mode_history Sample.store
          ++ if RiskResult.mode_changed (Demo.half_result)
             then [mode_change_row (Storage.get_last_mode Sample.store)
                     (Demo.half_result)]
             else [])%list.
Proof.
  assert (H : RiskEngine.compute SimpleRe.re_match Sample.engine 2%N
                Demo.half_accounts Sample.store
              = (Ok (Demo.half_result), Demo.half_store))
    by (vm_compute; reflexivity).
  destruct (X3_successful_run_appends _ _ _ _ _ _ _ H)
    as (_ & He & _ & _ & Hm).
  split; [reflexivity|]. split; [exact He | exact Hm].
Defined.



(** ** Runs one after the other *)

Lemma parse_old_mode_value (m : RiskMode) :
  RiskEngine.parse_old_mode (Some (RiskMode_value m)) = Ok (Some m).
Proof. destruct m; reflexivity. Qed.

Lemma latest_In (rows : list EquitySnapshot.t) (b : EquitySnapshot.t) :
  Storage.latest rows = Some b -> In b rows.
Proof.
  unfold Storage.latest.
  induction rows as [|x rows IH] using rev_ind; [discriminate|].
  rewrite fold_left_app. simpl.
  destruct (fold_left _ rows None) as [b'|].
  - destruct (_ <=? _)%N; intro H; injection H as <-;
      apply in_or_app; [right; now left | left; now apply IH].
  - intro H. injection H as <-. apply in_or_app. right. now left.
Qed.

Lemma latest_snoc (rows : list EquitySnapshot.t) (x : EquitySnapshot.t) :
  (forall row, In row rows ->
     (EquitySnapshot.timestamp row <= EquitySnapshot.timestamp x)%N) ->
  Storage.latest (rows ++ [x]) = Some x.
Proof.
  intro H. unfold Storage.latest. rewrite fold_left_app. simpl.
  destruct (fold_left _ rows None) as [b|] eqn:E; [|reflexivity].
  apply latest_In in E. apply H in E. apply N.leb_le in E. now rewrite E.
Qed.

Lemma latest_snoc_older (rows : list EquitySnapshot.t)
    (x b : EquitySnapshot.t) :
  Storage.latest rows = Some b ->
  (EquitySnapshot.timestamp x < EquitySnapshot.timestamp b)%N ->
  Storage.latest (rows ++ [x]) = Some b.
Proof.
  intros E H. unfold Storage.latest in *. rewrite fold_left_app. simpl.
  rewrite E. apply N.leb_gt in H. now rewrite H.
Qed.

Lemma run_drawdown_first (st : Storage.t) (accounts : list AccountData.t) :
  Storage.equity_history st = [] -> 0 < sum_ok_equity accounts ->
  run_peak st accounts = sum_ok_equity accounts
  /\ run_drawdown st accounts == 0.
Proof.
  intros He Hpos.
  assert (Hp : run_peak st accounts = sum_ok_equity accounts).
  { unfold run_peak, Storage.get_peak, PyFloat.max. rewrite He. simpl.
    assert (G : PyFloat.gtb (sum_ok_equity accounts) 0 = true)
      by now apply gtb_true.
    now rewrite G. }
  split; [exact Hp|].
  unfold run_drawdown. rewrite Hp.
  destruct (PyFloat.gtb (sum_ok_equity accounts) 0); [|reflexivity].
  unfold Qdiv. ring.
Qed.

(** X5.  On a store without snapshots a run that returns a result reports
    its equity as the peak, a drawdown of zero, no previous mode and no mode
    change, logs no mode change, and, for a positive threshold, is in
    NORMAL mode. *)
Theorem X5_first_run
    (re_match : string -> string -> ReOutcome) (self : RiskEngine.t)
    (timestamp : datetime) (accounts : list AccountData.t)
    (st st' : Storage.t) (r : RiskResult.t) :
  Storage.equity_history st = [] ->
  RiskEngine.compute re_match self timestamp accounts st = (Ok r, st') ->
  RiskResult.peak r = RiskResult.equity r
  /\ RiskResult.drawdown r == 0
  /\ RiskResult.old_mode r = None
  /\ RiskResult.mode_changed r = false
  /\ Storage.mode_history st' = Storage.mode_history st
  /\ (0 < threshold_x self -> RiskResult.mode r = NORMAL).
Proof.
  intros He H.
  pose proof (compute_ok_inv _ _ _ _ _ _ _ H)
    as (Hpos & Ee & Ep & Ed & Em & _).
  destruct (run_drawdown_first st accounts He Hpos) as [Hp Hd].
  destruct (compute_ok_shape _ _ _ _ _ _ _ H) as (om & rs & Eo & _ & Er & ->).
  assert (Eom : om = None).
  { unfold Storage.get_last_mode in Eo. rewrite He in Eo. simpl in Eo.
    now injection Eo. }
  subst om.
  split; [now rewrite Ep, Ee, Hp|]. split; [now rewrite Ed|].
  split; [rewrite Er; reflexivity|].
  split; [rewrite Er; reflexivity|].
  split; [reflexivity|].
  intro HX. rewrite Em, compute_mode_fst.
  assert (G : PyFloat.gtb (run_drawdown st accounts) (- threshold_x self)
              = true) by (apply gtb_true; rewrite Hd; lra).
  now rewrite G.
Qed.

(** The sample run on an empty store. *)
Lemma X5_first_run_witness :
  RiskResult.peak (Demo.first_result) = 100000
  /\ RiskResult.old_mode (Demo.first_result) = None
  /\ RiskResult.mode (Demo.first_result) = NORMAL.
Proof.
  assert (H : RiskEngine.compute SimpleRe.re_match Sample.engine 2%N
                Sample.accounts Storage.empty
              = (Ok (Demo.first_result), snd Demo.first_run))
    by (vm_compute; reflexivity).
  destruct (X5_first_run SimpleRe.re_match Sample.engine 2%N Sample.accounts
              Storage.empty _ _ eq_refl H)
    as (Hp & _ & Ho & _ & _ & Hm).
  split; [exact Hp|]. split; [exact Ho|]. apply Hm. reflexivity.
Defined.

(** X6.  After a run that returns a result at a time not before any stored
    snapshot, the store gives back the mode and the peak of that result;
    so the next run that returns a result, at whatever time, has that mode
    as its old mode, reports a mode change exactly when its own mode
    differs from it, and has a peak that is at least as high. *)
Theorem X6_next_run_reads_back
    (re_match : string -> string -> ReOutcome) (self : RiskEngine.t)
    (timestamp : datetime) (accounts : list AccountData.t)
    (st st' : Storage.t) (r : RiskResult.t) :
  RiskEngine.compute re_match self timestamp accounts st = (Ok r, st') ->
  (forall row, In row (Storage.equity_history st) ->
     (EquitySnapshot.timestamp row <= timestamp)%N) ->
  Storage.get_last_mode st' = Some (RiskMode_value (RiskResult.mode r))
  /\ Storage.get_peak st' == RiskResult.peak r
  /\ forall timestamp2 accounts2 st2 r2,
       RiskEngine.compute re_match self timestamp2 accounts2 st'
       = (Ok r2, st2) ->
       RiskResult.old_mode r2 = Some (RiskResult.mode r)
       /\ RiskResult.mode_changed r2
          = negb (RiskMode_eqb (RiskResult.mode r) (RiskResult.mode r2))
       /\ RiskResult.peak r <= RiskResult.peak r2.
Proof.
  intros H Hts.
  assert (Hl : Storage.get_last_mode st'
               = Some (RiskMode_value (RiskResult.mode r))).
  { pose proof (compute_ok_inv _ _ _ _ _ _ _ H)
      as (_ & _ & _ & _ & _ & _ & _ & _ & Eh).
    unfold Storage.get_last_mode. rewrite Eh, latest_snoc; [reflexivity|].
    exact Hts. }
  assert (Hp : Storage.get_peak st' == RiskResult.peak r).
  { pose proof (compute_ok_inv _ _ _ _ _ _ _ H)
      as (_ & _ & Ep & _ & _ & _ & _ & _ & Eh).
    rewrite (get_peak_append _ _ _ Eh); simpl; [reflexivity|].
    rewrite Ep. apply max_ge_l. }
  split; [exact Hl|]. split; [exact Hp|].
  intros timestamp2 accounts2 st2 r2 H2.
  destruct (compute_ok_shape _ _ _ _ _ _ _ H2) as (om & rs & Eo & _ & Er & _).
  rewrite Hl, parse_old_mode_value in Eo. injection Eo as <-.
  pose proof (compute_ok_inv _ _ _ _ _ _ _ H2) as (_ & _ & Ep2 & _).
  split; [rewrite Er; reflexivity|].
  split; [rewrite Er at 1; reflexivity|].
  rewrite Ep2, <- Hp. apply max_ge_l.
Qed.

(** Two sample runs in a row: equity 88000, then 100000 again. *)
Lemma X6_next_run_reads_back_witness :
  Storage.get_last_mode (Demo.half_store) = Some "HALF"
  /\ RiskResult.old_mode (Demo.back_result) = Some HALF
  /\ RiskResult.mode_changed (Demo.back_result) = true.
Proof.
  assert (H : RiskEngine.compute SimpleRe.re_match Sample.engine 2%N
                Demo.half_accounts Sample.store
              = (Ok (Demo.half_result), Demo.half_store))
    by (vm_compute; reflexivity).
  assert (H2 : RiskEngine.compute SimpleRe.re_match Sample.engine 3%N
                 Sample.accounts (Demo.half_store)
               = (Ok (Demo.back_result), snd Demo.back_run))
    by (vm_compute; reflexivity).
  destruct (X6_next_run_reads_back _ _ _ _ _ _ _ H) as (Hl & _ & Hn).
  { intros row [<- | []]. vm_compute. discriminate. }
  destruct (Hn _ _ _ _ H2) as (Ho & Hc & _).
  split; [exact Hl|]. split; [exact Ho|]. rewrite Hc. reflexivity.
Defined.

(** ** The action log *)

Lemma compute_thesis_entries (self : RiskEngine.t) (total_equity risk_scale : Q)
    (thesis_positions : Dict.t (list Position.t)) (thesis_name : string)
    (mv : Q) (actions actions' : list string) (t : ThesisResult.t) :
  RiskEngine.compute_thesis self total_equity risk_scale thesis_positions
    thesis_name mv actions = Ok (actions', t) ->
  exists entries,
    actions' = (actions ++ entries)%list /\ thesis_entries_ok t entries.
Proof.
  unfold RiskEngine.compute_thesis, RiskEngine.append.
  fold (warning_entry thesis_name). fold (exit_entry thesis_name).
  fold (config_of self thesis_name).
  set (ps := Dict.get_default thesis_positions thesis_name []).
  set (cfg := config_of self thesis_name).
  set (acts1 := if existsb RiskEngine.is_short_option ps
                then (actions ++ [warning_entry thesis_name])%list
                else actions).
  assert (A1 : exists w,
             acts1 = (actions ++ w)%list
             /\ (existsb RiskEngine.is_short_option ps = true ->
                 In (warning_entry thesis_name) w)
             /\ (existsb RiskEngine.is_short_option ps = false -> w = [])).
  { subst acts1. destruct (existsb RiskEngine.is_short_option ps).
    - exists [warning_entry thesis_name].
      split; [reflexivity|]. split; [intros; now left | discriminate].
    - exists []. split; [now rewrite app_nil_r|]. split; [discriminate | auto]. }
  destruct A1 as (w & -> & Hw1 & Hw0).
  destruct (ThesisStatus_eqb (ThesisConfig.status cfg) BROKEN) eqn:EB.
  - apply status_eqb_BROKEN in EB.
    intro H. injection H as <- <-.
    exists (w ++ [exit_entry thesis_name])%list.
    split; [now rewrite app_assoc|].
    unfold thesis_entries_ok. simpl.
    split; [intro Hs; apply in_or_app; left; now apply Hw1|].
    split; [intros _; apply in_or_app; right; now left|].
    split; [congruence | discriminate].
  - assert (NB : ThesisConfig.status cfg <> BROKEN)
      by (intro E; apply status_eqb_BROKEN in E; congruence).
    destruct (PyFloat.xgtb _ _).
    + destruct (PyFloat.div _ _) as [target|e]; [|discriminate].
      intro H. injection H as <- <-.
      eexists (w ++ [_])%list.
      split; [now rewrite app_assoc|].
      unfold thesis_entries_ok. simpl.
      split; [intro Hs; apply in_or_app; left; now apply Hw1|].
      split; [congruence|].
      split; [|discriminate].
      intros _ a Ha. injection Ha as <-.
      apply in_or_app. right. now left.
    + intro H. injection H as <- <-.
      exists w. split; [reflexivity|].
      unfold thesis_entries_ok. simpl.
      split; [exact Hw1|]. split; [congruence|].
      split; [discriminate|]. intros _. exact Hw0.
Qed.

Lemma compute_theses_entries (self : RiskEngine.t)
    (total_equity risk_scale : Q)
    (thesis_positions : Dict.t (list Position.t))
    (items : list (string * Q)) :
  forall (actions actions' : list string)
         (results results' : list ThesisResult.t),
  RiskEngine.compute_theses self total_equity risk_scale thesis_positions
    items actions results = Ok (actions', results') ->
  exists rs entries,
    results' = (results ++ rs)%list
    /\ actions' = (actions ++ List.concat entries)%list
    /\ Forall2 thesis_entries_ok rs entries.
Proof.
  induction items as [|[name mv] items IH];
    intros actions actions' results results' H; simpl in H.
  - injection H as <- <-. exists [], []. simpl.
    rewrite !app_nil_r. repeat split. constructor.
  - destruct (RiskEngine.compute_thesis _ _ _ _ name mv actions)
      as [[a1 t]|e] eqn:E; [|discriminate].
    apply compute_thesis_entries in E. destruct E as (new & -> & Hnew).
    apply IH in H. destruct H as (rs & entries & -> & -> & HF).
    exists (t :: rs), (new :: entries). unfold RiskEngine.append. simpl.
    rewrite <- !app_assoc. repeat split. now constructor.
Qed.

Lemma Forall2_In_l {A B} (R : A -> B -> Prop) (l1 : list A) (l2 : list B)
    (x : A) :
  Forall2 R l1 l2 -> In x l1 -> exists y, In y l2 /\ R x y.
Proof.
  induction 1 as [|a b l1 l2 HR _ IH]; intro Hin; [contradiction|].
  destruct Hin as [<- | Hin].
  - exists b. split; [now left | exact HR].
  - destruct (IH Hin) as (y & Hy & Rxy). exists y. split; [now right | exact Rxy].
Qed.

Lemma concat_nil_Forall {A} (ls : list (list A)) :
  List.concat ls = [] <-> Forall (fun l => l = []) ls.
Proof.
  induction ls as [|l ls IH]; simpl.
  - split; constructor.
  - split.
    + intro H. apply app_eq_nil in H. destruct H as [-> H].
      constructor; [reflexivity | now apply IH].
    + intro H. inversion H; subst. simpl. now apply IH.
Qed.

Lemma initial_actions_nil (old_mode : option RiskMode) (mode : RiskMode)
    (risk_scale : Q) :
  initial_actions old_mode mode risk_scale = []
  <-> mode = NORMAL /\ mode_differs old_mode mode = false.
Proof.
  unfold initial_actions, mode_differs. split.
  - intro H. apply app_eq_nil in H. destruct H as [H1 H2].
    destruct mode; try discriminate. split; [reflexivity|].
    destruct old_mode as [om|]; [|reflexivity].
    destruct (negb (RiskMode_eqb om NORMAL)); [discriminate | reflexivity].
  - intros [-> H]. destruct old_mode as [om|]; [|reflexivity].
    now rewrite H.
Qed.

Lemma thesis_entries_nil (t : ThesisResult.t) :
  thesis_entries_ok t [] -> quiet t.
Proof.
  intros (Hs & Hb & Hr & _). unfold quiet.
  assert (NB : ThesisResult.status t <> BROKEN)
    by (intro E; exact (Hb E)).
  split.
  - destruct (ThesisResult.action t) as [a|]; [|reflexivity].
    exfalso. exact (Hr NB a eq_refl).
  - destruct (existsb _ _); [|reflexivity]. exfalso. now apply Hs.
Qed.

(** X7.  The action log of a result is complete: it has the mode-change
    entry when the mode changed, the mode entry when the mode is not NORMAL,
    and for every thesis result the warning when one of its positions is a
    short option, the EXIT entry when it is BROKEN and the REDUCE entry with
    its utilization when it is to be reduced.  The log is empty exactly when
    the mode is NORMAL and unchanged and no thesis has an action or a short
    option. *)
Theorem X7_action_log_complete
    (re_match : string -> string -> ReOutcome) (self : RiskEngine.t)
    (timestamp : datetime) (accounts : list AccountData.t)
    (st st' : Storage.t) (r : RiskResult.t) :
  RiskEngine.compute re_match self timestamp accounts st = (Ok r, st') ->
  (RiskResult.mode_changed r = true ->
   exists om, RiskResult.old_mode r = Some om
              /\ om <> RiskResult.mode r
              /\ In (mode_change_entry om (RiskResult.mode r))
                    (RiskResult.actions r))
  /\ (RiskResult.mode r <> NORMAL ->
      In (mode_entry (RiskResult.mode r) (RiskResult.risk_scale r))
         (RiskResult.actions r))
  /\ (forall t, In t (RiskResult.thesis_results r) ->
        (existsb RiskEngine.is_short_option (ThesisResult.positions t) = true ->
         In (warning_entry (ThesisResult.name t)) (RiskResult.actions r))
        /\ (ThesisResult.status t = BROKEN ->
            In (exit_entry (ThesisResult.name t)) (RiskResult.actions r))
        /\ (ThesisResult.status t <> BROKEN ->
            forall a, ThesisResult.action t = Some a ->
              In (reduce_entry (ThesisResult.name t) a
                    (ThesisResult.utilization t))
                 (RiskResult.actions r)))
  /\ (RiskResult.actions r = []
      <-> RiskResult.mode r = NORMAL
          /\ RiskResult.mode_changed r = false
          /\ Forall quiet (RiskResult.thesis_results r)).
Proof.
  intro H.
  destruct (compute_ok_shape _ _ _ _ _ _ _ H) as (om & rs & _ & Et & Er & _).
  assert (Eold : RiskResult.old_mode r = om) by (rewrite Er; reflexivity).
  assert (Ech : RiskResult.mode_changed r = mode_differs om (RiskResult.mode r))
    by (rewrite Er at 1; reflexivity).
  assert (Ers : RiskResult.thesis_results r = RiskEngine.sort_by_utilization rs)
    by (rewrite Er; reflexivity).
  apply compute_theses_entries in Et.
  destruct Et as (rs0 & entries & E0 & Ea & HF). simpl in E0. subst rs0.
  assert (Hin : forall t, In t (RiskResult.thesis_results r) ->
                  exists e, In e entries /\ thesis_entries_ok t e).
  { intros t Ht. rewrite Ers in Ht.
    apply (Permutation_in _ (sort_perm rs)) in Ht.
    now apply (Forall2_In_l _ _ _ _ HF). }
  split; [|split; [|split]].
  - intro Hc. rewrite Ech in Hc. unfold mode_differs in Hc.
    destruct om as [om|]; [|discriminate].
    exists om. split; [exact Eold|]. split.
    + intro E. subst om. destruct (RiskResult.mode r); discriminate.
    + rewrite Ea. apply in_or_app. left. unfold initial_actions.
      rewrite Hc. apply in_or_app. left. now left.
  - intro Hm. rewrite Ea. apply in_or_app. left. unfold initial_actions.
    apply in_or_app. right. destruct (RiskResult.mode r); [congruence | |];
      now left.
  - intros t Ht. destruct (Hin t Ht) as (e & He & Hs & Hb & Hr & _).
    assert (Hsub : forall x, In x e -> In x (RiskResult.actions r)).
    { intros x Hx. rewrite Ea. apply in_or_app. right.
      apply in_concat. now exists e. }
    split; [intro; now apply Hsub, Hs|].
    split; [intro; now apply Hsub, Hb|].
    intros NB a Ha. now apply Hsub, Hr.
  - rewrite Ea. split.
    + intro Hnil. apply app_eq_nil in Hnil. destruct Hnil as [Hi Hc].
      apply initial_actions_nil in Hi. destruct Hi as [Hm Hd].
      split; [exact Hm|]. split; [now rewrite Ech|].
      apply Forall_forall. intros t Ht.
      destruct (Hin t Ht) as (e & He & Hok).
      apply concat_nil_Forall in Hc. rewrite Forall_forall in Hc.
      rewrite (Hc e He) in Hok. now apply thesis_entries_nil.
    + intros (Hm & Hc & Hq). rewrite Ech in Hc.
      rewrite (proj2 (initial_actions_nil om _ _) (conj Hm Hc)). simpl.
      apply concat_nil_Forall.
      assert (Hq' : Forall quiet rs).
      { rewrite Ers in Hq.
        now apply (Permutation_Forall (sort_perm rs)). }
      clear - HF Hq'. induction HF as [|t e rs entries Hok _ IH].
      * constructor.
      * inversion Hq' as [|? ? [Qa Qs] Hq'']; subst.
        constructor; [|now apply IH].
        destruct Hok as (_ & _ & _ & Hnil). now apply Hnil.
Qed.

(** The run at 88000: the change to HALF, the mode entry and the REDUCE of
    Test_Thesis are in the log. *)
Lemma X7_action_log_complete_witness :
  In (mode_change_entry NORMAL HALF)
     (RiskResult.actions (Demo.half_result))
  /\ In (mode_entry HALF 0.5)
        (RiskResult.actions (Demo.half_result))
  /\ RiskResult.actions (Demo.half_result)
     = ["MODE CHANGE: NORMAL -> HALF";
        "Account in HALF mode - risk scaled to 50%";
        "Test_Thesis: REDUCE $5,333 (Util=136.4%)"].
Proof.
  assert (H : RiskEngine.compute SimpleRe.re_match Sample.engine 2%N
                Demo.half_accounts Sample.store
              = (Ok (Demo.half_result), Demo.half_store))
    by (vm_compute; reflexivity).
  destruct (X7_action_log_complete _ _ _ _ _ _ _ H) as (Hc & Hm & _ & _).
  split; [|split; [|reflexivity]].
  - destruct (Hc eq_refl) as (om & Eo & _ & Hin).
    injection Eo as <-. exact Hin.
  - apply Hm. discriminate.
Defined.

(** ** Loading the theses: one entry with a bad status *)

Lemma load_theses_app (pre rest : list (string * RawThesis.t)) :
  forall configs,
  RiskEngine.load_theses (pre ++ rest) configs
  = match snd (RiskEngine.load_theses pre configs) with
    | None =>
      RiskEngine.load_theses rest (fst (RiskEngine.load_theses pre configs))
    | Some _ => RiskEngine.load_theses pre configs
    end.
Proof.
  induction pre as [|[n raw] pre IH]; intro configs; simpl.
  - reflexivity.
  - destruct (ThesisStatus_of_value _) as [st|e]; [apply IH | reflexivity].
Qed.

Lemma invalid_status_raises (raw : RawThesis.t) :
  ~ valid_status raw ->
  exists e,
    ThesisStatus_of_value (RiskEngine.or_default (RawThesis.status raw) "ACTIVE")
    = Raise e.
Proof.
  intro H. unfold valid_status in H.
  destruct (ThesisStatus_of_value _) as [st|e].
  - exfalso. apply H. now exists st.
  - now exists e.
Qed.

(** X9.  When the status of one entry of [theses:] is none of ACTIVE, WATCH
    and BROKEN, while those of the entries before it are: the configuration
    is the one of the entries before it, with [_UNMAPPED] set to the fallback
    (stress 0.25, budget 0.02, ACTIVE), whatever the file configures for
    [_UNMAPPED].  So a thesis that is named only from the bad entry on is not
    configured, and the engine evaluates it with the defaults. *)
Theorem X9_bad_status_truncates_thesis_config
    (pre post : list (string * RawThesis.t)) (name : string)
    (raw : RawThesis.t) :
  Forall (fun item => valid_status (snd item)) pre ->
  ~ valid_status raw ->
  let configs :=
    RiskEngine._load_thesis_config
      (Some (Some (pre ++ (name, raw) :: post)%list)) in
  configs
  = Dict.set (RiskEngine._load_thesis_config (Some (Some pre))) "_UNMAPPED"
      fallback_unmapped
  /\ Dict.get configs "_UNMAPPED" = Some fallback_unmapped
  /\ (forall n, n <> "_UNMAPPED" -> ~ In n (map fst pre) ->
      Dict.get configs n = None
      /\ forall account_config mappings,
           config_of (RiskEngine.mk account_config configs mappings) n
           = RiskEngine.default_thesis n).
Proof.
  intros HV HI configs.
  assert (E : configs
              = Dict.set (RiskEngine._load_thesis_config (Some (Some pre)))
                  "_UNMAPPED" fallback_unmapped).
  { subst configs. unfold RiskEngine._load_thesis_config. simpl.
    rewrite load_theses_app.
    pose proof (load_theses_valid pre [] HV) as Hpre.
    rewrite Hpre. simpl.
    destruct (invalid_status_raises raw HI) as (e & ->).
    destruct (RiskEngine.load_theses pre []) as [c o]. simpl in Hpre.
    subst o. reflexivity. }
  split; [exact E|]. split.
  - rewrite E. apply get_set_same.
  - intros n Hn Hin.
    assert (G : Dict.get configs n = None).
    { rewrite E. rewrite get_set_other by congruence.
      unfold RiskEngine._load_thesis_config. simpl.
      pose proof (load_theses_valid pre [] HV) as Hpre.
      pose proof (load_theses_other pre n [] Hin) as Ho.
      destruct (RiskEngine.load_theses pre []) as [c o]. simpl in *.
      subst o. exact Ho. }
    split; [exact G|]. intros ac ms. unfold config_of. simpl.
    now rewrite G.
Qed.

(** A file whose third entry has the status [active]: the configured
    [_UNMAPPED] (stress 0.50) is replaced, and [Late_Thesis] is not loaded. *)
Lemma X9_bad_status_truncates_thesis_config_witness :
  Dict.keys (RiskEngine._load_thesis_config
               (Some (Some DemoConfig.typo_theses)))
  = ["_UNMAPPED"; "Test_Thesis"]
  /\ Dict.get (RiskEngine._load_thesis_config
                 (Some (Some DemoConfig.typo_theses))) "_UNMAPPED"
     = Some fallback_unmapped
  /\ Dict.get (RiskEngine._load_thesis_config
                 (Some (Some DemoConfig.typo_theses))) "Late_Thesis" = None.
Proof.
  assert (HV : Forall (fun item : string * RawThesis.t => valid_status (snd item))
                 (firstn 2 DemoConfig.typo_theses)).
  { repeat constructor; eexists; vm_compute; reflexivity. }
  assert (HI : ~ valid_status
                 (RawThesis.mk (Some 0.25) (Some 0.05) (Some "active") None None)).
  { intros (st & H). vm_compute in H. discriminate. }
  destruct (X9_bad_status_truncates_thesis_config
              (firstn 2 DemoConfig.typo_theses)
              (skipn 3 DemoConfig.typo_theses) "Typo_Thesis" _ HV HI)
    as (E & HU & HL).
  split; [|split].
  - change (firstn 2 DemoConfig.typo_theses ++
            ("Typo_Thesis",
             RawThesis.mk (Some 0.25) (Some 0.05) (Some "active") None None)
            :: skipn 3 DemoConfig.typo_theses)%list
      with DemoConfig.typo_theses in E.
    rewrite E. vm_compute. reflexivity.
  - exact HU.
  - apply (HL "Late_Thesis").
    + discriminate.
    + vm_compute. intros [H | [H | []]]; discriminate.
Defined.

(** ** The store: the peak is a running maximum, the last mode follows the
    timestamps *)

Ltac qmax_at a b :=
  let H := fresh "H" in
  let q := fresh "q" in
  destruct (Q.max_spec a b) as [[? H] | [? H]];
  revert H; generalize (Qmax a b); intros q H.

Lemma gtb_pick (x m : Q) : (if PyFloat.gtb x m then x else m) == Qmax x m.
Proof.
  destruct (PyFloat.gtb x m) eqn:E.
  - apply gtb_true in E. rewrite Q.max_l; lra.
  - apply gtb_false in E. rewrite Q.max_r; lra.
Qed.

Lemma sql_max_nil (l : list Q) : Storage.sql_max l = None -> l = [].
Proof.
  destruct l as [|x l]; [reflexivity|]. simpl.
  destruct (Storage.sql_max l); discriminate.
Qed.

Lemma sql_max_app (l : list Q) (p : Q) :
  exists m', Storage.sql_max (l ++ [p]) = Some m'
             /\ m' == match Storage.sql_max l with
                      | None => p
                      | Some m => Qmax m p
                      end.
Proof.
  induction l as [|x l (m' & E & Hm')]; simpl.
  - exists p. split; [reflexivity | lra].
  - rewrite E. eexists. split; [reflexivity|].
    pose proof (gtb_pick x m') as G.
    revert G. generalize (if PyFloat.gtb x m' then x else m'). intros y G.
    destruct (Storage.sql_max l) as [m|] eqn:El.
    + pose proof (gtb_pick x m) as G'.
      revert G'. generalize (if PyFloat.gtb x m then x else m). intros z G'.
      revert Hm' G G'. qmax_at m p; qmax_at x m'; qmax_at x m; intros;
        qmax_at z p; lra.
    + revert Hm' G. qmax_at x m'; qmax_at x p; intros; lra.
Qed.

Lemma sql_max_attained (l : list Q) (m : Q) :
  Storage.sql_max l = Some m -> In m l.
Proof.
  revert m. induction l as [|x l IH]; intros m H; simpl in H.
  - discriminate.
  - destruct (Storage.sql_max l) as [m'|].
    + injection H as <-. destruct (PyFloat.gtb x m');
        [now left | right; now apply IH].
    + injection H as <-. now left.
Qed.

Lemma get_peak_raw (st : Storage.t) :
  Storage.get_peak st
  == match Storage.sql_max (map EquitySnapshot.peak (Storage.equity_history st))
     with
     | Some m => m
     | None => 0
     end.
Proof.
  unfold Storage.get_peak. destruct (Storage.sql_max _) as [m|]; [|lra].
  destruct (Qeq_bool m 0) eqn:Z; [|lra].
  apply Qeq_bool_iff in Z. lra.
Qed.

(** X10.  [get_peak] is 0 on an empty history, and otherwise the greatest
    peak of the snapshots saved so far: one of them has it, and none has a
    greater one. *)
Theorem X10_get_peak_is_greatest_saved_peak (st : Storage.t) :
  (Storage.equity_history st = [] -> Storage.get_peak st = 0)
  /\ (Storage.equity_history st <> [] ->
      exists row, In row (Storage.equity_history st)
                  /\ Storage.get_peak st == EquitySnapshot.peak row)
  /\ Forall (fun row => EquitySnapshot.peak row <= Storage.get_peak st)
       (Storage.equity_history st).
Proof.
  split; [|split].
  - intro E. unfold Storage.get_peak. now rewrite E.
  - intro NE. pose proof (get_peak_raw st) as R.
    destruct (Storage.sql_max _) as [m|] eqn:E.
    + apply sql_max_attained in E. apply in_map_iff in E.
      destruct E as (row & <- & Hin). exists row. split; [exact Hin | exact R].
    + apply sql_max_nil in E. apply map_eq_nil in E. contradiction.
  - pose proof (get_peak_upper st) as H. rewrite Forall_map in H. exact H.
Qed.

Lemma X10_get_peak_is_greatest_saved_peak_witness :
  exists row, In row (Storage.equity_history Demo.half_store)
              /\ Storage.get_peak Demo.half_store == EquitySnapshot.peak row.
Proof.
  apply (proj1 (proj2 (X10_get_peak_is_greatest_saved_peak Demo.half_store))).
  discriminate.
Defined.

(** X11.  Saving a snapshot: the peak read back is the greater of the peak
    read before and the peak saved (for a first snapshot, when the peak saved
    is not negative); the last mode is the mode saved when no recorded
    timestamp is later, and stays what it was when the latest recorded
    timestamp is later.  Saving a mode change, thesis metrics or positions
    changes neither. *)
Theorem X11_snapshot_round_trip (st : Storage.t) (s : EquitySnapshot.t) :
  let st' := Storage.save_equity_snapshot s st in
  (0 <= EquitySnapshot.peak s \/ Storage.equity_history st <> [] ->
   Storage.get_peak st' == Qmax (Storage.get_peak st) (EquitySnapshot.peak s))
  /\ ((forall row, In row (Storage.equity_history st) ->
         (EquitySnapshot.timestamp row <= EquitySnapshot.timestamp s)%N) ->
      Storage.get_last_mode st' = Some (EquitySnapshot.mode s))
  /\ (forall b, Storage.latest (Storage.equity_history st) = Some b ->
        (EquitySnapshot.timestamp s < EquitySnapshot.timestamp b)%N ->
        Storage.get_last_mode st' = Storage.get_last_mode st)
  /\ (forall timestamp old_mode new_mode equity drawdown metrics rows,
        let st2 :=
          Storage.save_positions rows
            (Storage.save_thesis_metrics metrics
               (Storage.save_mode_change timestamp old_mode new_mode equity
                  drawdown st)) in
        Storage.get_peak st2 = Storage.get_peak st
        /\ Storage.get_last_mode st2 = Storage.get_last_mode st).
Proof.
  intro st'. split; [|split; [|split]].
  - intro H. rewrite (get_peak_raw st'), (get_peak_raw st).
    subst st'. simpl. rewrite map_app. simpl.
    destruct (sql_max_app (map EquitySnapshot.peak (Storage.equity_history st))
                (EquitySnapshot.peak s)) as (m' & -> & Hm').
    rewrite Hm'.
    destruct (Storage.sql_max _) as [m|] eqn:E; [reflexivity|].
    apply sql_max_nil in E. apply map_eq_nil in E.
    destruct H as [H | H]; [|contradiction].
    rewrite Q.max_r; lra.
  - intro H. subst st'. unfold Storage.get_last_mode. simpl.
    now rewrite latest_snoc.
  - intros b E H. subst st'. unfold Storage.get_last_mode. simpl.
    now rewrite (latest_snoc_older _ _ _ E H), E.
  - intros. split; reflexivity.
Qed.

(** On the store left by the sample run at time 2: a snapshot saved for time
    1 with a higher peak raises the peak and leaves the last mode. *)
Lemma X11_snapshot_round_trip_witness :
  let late := EquitySnapshot.mk 1%N 120000 120000 0 "NORMAL" 1.0 "OK" in
  Storage.get_peak (Storage.save_equity_snapshot late Demo.half_store)
  == 120000
  /\ Storage.get_last_mode (Storage.save_equity_snapshot late Demo.half_store)
     = Some "HALF".
Proof.
  intro late.
  destruct (X11_snapshot_round_trip Demo.half_store late) as (H1 & _ & H3 & _).
  split.
  - rewrite H1 by (left; discriminate). vm_compute. reflexivity.
  - let b := eval vm_compute in
      (Storage.latest (Storage.equity_history Demo.half_store)) in
    match b with
    | Some ?x => rewrite (H3 x); reflexivity
    end.
Defined.

(** ** Loading the mapping table *)

Section Loading.

Variable strip : string -> string.
Variable py_float : string -> option Q.

Lemma load_rows_readable (rows : list MappingRow.t) :
  forall mappings,
  Forall (fun row => Loader.mapping_of_row strip py_float row <> None) rows ->
  exists ms,
    Forall2 (fun row m => Loader.mapping_of_row strip py_float row = Some m)
      rows ms
    /\ Loader.load_rows strip py_float rows mappings = (mappings ++ ms)%list.
Proof.
  induction rows as [|row rows IH]; intros mappings H.
  - exists []. split; [constructor | now rewrite app_nil_r].
  - inversion H as [|? ? Hrow Hrows]; subst. simpl.
    destruct (Loader.mapping_of_row strip py_float row) as [m|] eqn:E;
      [|congruence].
    destruct (IH (RiskEngine.append mappings m) Hrows) as (ms & F & ->).
    exists (m :: ms). split; [now constructor|].
    unfold RiskEngine.append. now rewrite <- app_assoc.
Qed.

Lemma load_rows_app (pre rest : list MappingRow.t) :
  forall mappings,
  Forall (fun row => Loader.mapping_of_row strip py_float row <> None) pre ->
  Loader.load_rows strip py_float (pre ++ rest) mappings
  = Loader.load_rows strip py_float rest
      (Loader.load_rows strip py_float pre mappings).
Proof.
  induction pre as [|row pre IH]; intros mappings H; simpl.
  - reflexivity.
  - inversion H as [|? ? Hrow Hrows]; subst.
    destruct (Loader.mapping_of_row strip py_float row) as [m|];
      [now apply IH | congruence].
Qed.

(** X12.  [_load_mappings] keeps one rule per row, in the order of the file,
    up to the first row it cannot read (a row too short for one of the three
    columns, or a weight that is no number): that row and every row after it
    are dropped.  So although the weight is never used, a bad weight removes
    its rule and all later ones, and a symbol that only they match, the
    rules kept passing it over, is [_UNMAPPED]. *)
Theorem X12_mapping_table_stops_at_bad_row
    (re_match : string -> string -> ReOutcome)
    (pre post : list MappingRow.t) (bad : MappingRow.t) :
  Forall (fun row => Loader.mapping_of_row strip py_float row <> None) pre ->
  Loader.mapping_of_row strip py_float bad = None ->
  let table :=
    Loader._load_mappings strip py_float (Some (pre ++ bad :: post)%list) in
  table = Loader._load_mappings strip py_float (Some pre)
  /\ Forall2 (fun row m => Loader.mapping_of_row strip py_float row = Some m)
       pre table
  /\ forall account_config thesis_configs symbol,
       Forall (fun m => rule_misses re_match m symbol = true) table ->
       RiskEngine._map_position_to_thesis re_match
         (RiskEngine.mk account_config thesis_configs table) symbol
       = Ok ("_UNMAPPED", 1.0).
Proof.
  intros Hpre Hbad table.
  assert (E : table = Loader._load_mappings strip py_float (Some pre)).
  { subst table. unfold Loader._load_mappings.
    rewrite load_rows_app by exact Hpre. simpl. now rewrite Hbad. }
  split; [exact E|]. split.
  - rewrite E. unfold Loader._load_mappings.
    destruct (load_rows_readable pre [] Hpre) as (ms & F & ->). exact F.
  - intros ac tc symbol Hno.
    unfold RiskEngine._map_position_to_thesis. simpl.
    rewrite <- (app_nil_r table). now rewrite resolve_skip by exact Hno.
Qed.

End Loading.

(** The second row of the table has the weight [half]: only the first rule
    is loaded, and [BROKEN], which the third row names, is not mapped. *)
Lemma X12_mapping_table_stops_at_bad_row_witness :
  DemoMapping.load (Some DemoMapping.rows)
  = [Mapping.mk "AAPL" "Test_Thesis" 1.0]
  /\ RiskEngine._map_position_to_thesis SimpleRe.re_match
       (RiskEngine.mk (RiskEngine._load_account_config None) []
          (DemoMapping.load (Some DemoMapping.rows))) "BROKEN"
     = Ok ("_UNMAPPED", 1.0).
Proof.
  assert (Hpre : Forall
            (fun row =>
               Loader.mapping_of_row PyStr.strip PyStr.py_float row <> None)
            (firstn 1 DemoMapping.rows)).
  { repeat constructor. vm_compute. discriminate. }
  destruct (X12_mapping_table_stops_at_bad_row PyStr.strip PyStr.py_float
              SimpleRe.re_match (firstn 1 DemoMapping.rows)
              (skipn 2 DemoMapping.rows)
              (DemoMapping.row "MSFT" "Test_Thesis" "half") Hpre eq_refl)
    as (E & _ & HU).
  split.
  - vm_compute. reflexivity.
  - apply (HU (RiskEngine._load_account_config None) [] "BROKEN").
    vm_compute. repeat constructor.
Defined.

(** ** Notifications built from a result *)

Lemma RiskMode_eqb_eq (a b : RiskMode) : RiskMode_eqb a b = true <-> a = b.
Proof. destruct a, b; simpl; split; congruence. Qed.

Lemma RiskMode_of_value_inv (s : string) (m : RiskMode) :
  RiskMode_of_value s = Ok m -> s = RiskMode_value m.
Proof.
  unfold RiskMode_of_value.
  destruct (String.eqb s "NORMAL") eqn:E1;
    [apply String.eqb_eq in E1; intro H; injection H as <-; exact E1|].
  destruct (String.eqb s "HALF") eqn:E2;
    [apply String.eqb_eq in E2; intro H; injection H as <-; exact E2|].
  destruct (String.eqb s "MIN") eqn:E3;
    [apply String.eqb_eq in E3; intro H; injection H as <-; exact E3|].
  discriminate.
Qed.

Lemma parse_old_mode_some (o : option string) (om : RiskMode) :
  RiskEngine.parse_old_mode o = Ok (Some om) -> o = Some (RiskMode_value om).
Proof.
  unfold RiskEngine.parse_old_mode. destruct o as [s|]; [|discriminate].
  destruct (String.eqb s ""); [discriminate|].
  destruct (RiskMode_of_value s) as [m|e] eqn:E; [|discriminate].
  intro H. injection H as <-. now rewrite (RiskMode_of_value_inv _ _ E).
Qed.

(** X13.  On a result of [compute], [notify_mode_change] never fails on a
    missing old mode.  It stays silent exactly when there was no earlier
    mode or the mode is the earlier one; otherwise the last stored mode is a
    different mode, and the title names the change from it to the mode of
    the result.  A result with [mode_changed] set and no old mode, which
    [compute] never returns, makes it raise. *)
Theorem X13_mode_change_notification
    (re_match : string -> string -> ReOutcome) (self : RiskEngine.t)
    (timestamp : datetime) (accounts : list AccountData.t)
    (st st' : Storage.t) (r : RiskResult.t) :
  RiskEngine.compute re_match self timestamp accounts st = (Ok r, st') ->
  Notifier.notify_mode_change r <> Notifier.AttributeError
  /\ (Notifier.notify_mode_change r = Notifier.Silent
      <-> forall om, RiskResult.old_mode r = Some om -> om = RiskResult.mode r)
  /\ (forall title message,
        Notifier.notify_mode_change r = Notifier.Notify title message ->
        exists om,
          Storage.get_last_mode st = Some (RiskMode_value om)
          /\ om <> RiskResult.mode r
          /\ title = "Mode Change: " ++ RiskMode_value om ++ " -> "
                       ++ RiskMode_value (RiskResult.mode r))
  /\ (forall r0, RiskResult.mode_changed r0 = true ->
        RiskResult.old_mode r0 = None ->
        Notifier.notify_mode_change r0 = Notifier.AttributeError).
Proof.
  intro H.
  destruct (compute_ok_shape _ _ _ _ _ _ _ H) as (om & rs & Eo & _ & Er & _).
  assert (Em : RiskResult.mode_changed r = mode_differs om (RiskResult.mode r))
    by (rewrite Er at 1; reflexivity).
  assert (Eom : RiskResult.old_mode r = om) by (rewrite Er; reflexivity).
  unfold Notifier.notify_mode_change. rewrite Em, Eom.
  split; [|split; [|split]].
  - destruct om as [m|]; simpl; [|discriminate].
    destruct (RiskMode_eqb m (RiskResult.mode r)); simpl; discriminate.
  - destruct om as [m|]; simpl.
    + destruct (RiskMode_eqb m (RiskResult.mode r)) eqn:E; simpl.
      * apply RiskMode_eqb_eq in E. split; [|reflexivity].
        intros _ m' Hm'. congruence.
      * split; [discriminate|]. intro Hall.
        specialize (Hall m eq_refl). apply RiskMode_eqb_eq in Hall.
        congruence.
    + split; [discriminate | reflexivity].
  - intros title message. destruct om as [m|]; simpl; [|discriminate].
    destruct (RiskMode_eqb m (RiskResult.mode r)) eqn:E; simpl;
      [discriminate|].
    intro HN. injection HN as <- _. exists m.
    split; [now apply parse_old_mode_some|]. split; [|reflexivity].
    intro Heq. apply RiskMode_eqb_eq in Heq. congruence.
  - intros r0 Hc Ho. rewrite Hc, Ho. reflexivity.
Qed.

(** The run at equity 88000 after a NORMAL snapshot notifies of the change
    to HALF. *)
Lemma X13_mode_change_notification_witness :
  Notifier.notify_mode_change Demo.half_result <> Notifier.AttributeError
  /\ exists message,
       Notifier.notify_mode_change Demo.half_result
       = Notifier.Notify "Mode Change: NORMAL -> HALF" message.
Proof.
  assert (H : RiskEngine.compute SimpleRe.re_match Sample.engine 2%N
                Demo.half_accounts Sample.store
              = (Ok Demo.half_result, Demo.half_store))
    by (vm_compute; reflexivity).
  destruct (X13_mode_change_notification SimpleRe.re_match Sample.engine 2%N
              Demo.half_accounts Sample.store Demo.half_store
              Demo.half_result H) as (HA & _).
  split; [exact HA|].
  let v := eval vm_compute in (Notifier.notify_mode_change Demo.half_result) in
  match v with
  | Notifier.Notify _ ?m => exists m
  end.
  vm_compute. reflexivity.
Defined.

Lemma filter_none {A} (p : A -> bool) (l : list A) :
  Forall (fun x => p x = false) l -> filter p l = [].
Proof.
  induction 1 as [|y l Hy _ IH]; simpl; [reflexivity|]. now rewrite Hy.
Qed.

(** In a descending list the theses over budget come first. *)
Lemma over_budget_prefix (l : list ThesisResult.t) :
  StronglySorted util_ge l ->
  exists rest,
    l = (filter Notifier.over_budget l ++ rest)%list
    /\ Forall (fun t => Notifier.over_budget t = false) rest.
Proof.
  induction 1 as [|x l Hs (rest & E & F) Hx]; simpl.
  - exists []. split; [reflexivity | constructor].
  - destruct (Notifier.over_budget x) eqn:Ex.
    + exists rest. split; [simpl; now rewrite <- E | exact F].
    + assert (Hall : Forall (fun t => Notifier.over_budget t = false) l).
      { eapply Forall_impl; [|exact Hx]. intros y Hy.
        unfold Notifier.over_budget in *. unfold util_ge in Hy.
        exact (xge_trans _ _ _ Ex Hy). }
      exists (x :: l). split; [|now constructor].
      now rewrite (filter_none _ _ Hall).
Qed.

(** X14.  On a result of [compute], the theses that
    [notify_utilization_breach] lists are the first entries of the thesis
    results, in their order, and no later one is over budget; each of them
    carries an action, EXIT for a BROKEN thesis and the REDUCE text
    otherwise, so the message never reads [Action: None]; the method is
    silent exactly when no thesis is over budget; and a BROKEN thesis within
    its budget has the action EXIT without being listed. *)
Theorem X14_breach_notification
    (re_match : string -> string -> ReOutcome) (self : RiskEngine.t)
    (timestamp : datetime) (accounts : list AccountData.t)
    (st st' : Storage.t) (r : RiskResult.t) :
  RiskEngine.compute re_match self timestamp accounts st = (Ok r, st') ->
  (exists rest,
      RiskResult.thesis_results r = (Notifier.breaches r ++ rest)%list
      /\ Forall (fun t => Notifier.over_budget t = false) rest)
  /\ Forall (fun t =>
               ThesisResult.action t
               = Some (match ThesisResult.status t with
                       | BROKEN => "EXIT"
                       | _ => reduce_text (ThesisResult.reduce_amount t)
                       end))
       (Notifier.breaches r)
  /\ (Notifier.notify_utilization_breach r = Notifier.Silent
      <-> Forall (fun t => Notifier.over_budget t = false)
            (RiskResult.thesis_results r))
  /\ (forall t, In t (RiskResult.thesis_results r) ->
        ThesisResult.status t = BROKEN ->
        Notifier.over_budget t = false ->
        ThesisResult.action t = Some "EXIT"
        /\ ~ In t (Notifier.breaches r)).
Proof.
  intro H.
  pose proof (run_thesis_ok _ _ _ _ _ _ _ H) as HF.
  destruct (run_theses _ _ _ _ _ _ _ H) as (rs & Hs & _).
  assert (HS : StronglySorted util_ge (RiskResult.thesis_results r))
    by (rewrite Hs; apply sort_sorted).
  split; [|split; [|split]].
  - exact (over_budget_prefix _ HS).
  - apply Forall_forall. intros t Hin.
    apply filter_In in Hin. destruct Hin as [Hin Ho].
    rewrite Forall_forall in HF.
    destruct (HF t Hin) as (_ & _ & _ & _ & _ & _ & HA).
    unfold action_ok in HA. unfold Notifier.over_budget in Ho.
    rewrite Ho in HA. destruct (ThesisResult.status t); tauto.
  - unfold Notifier.notify_utilization_breach, Notifier.breaches.
    split.
    + intro HN. apply Forall_forall. intros t Hin.
      destruct (Notifier.over_budget t) eqn:Ho; [|reflexivity].
      assert (Hb : In t (filter Notifier.over_budget
                           (RiskResult.thesis_results r)))
        by (apply filter_In; now split).
      destruct (filter Notifier.over_budget (RiskResult.thesis_results r));
        [contradiction | discriminate].
    + intro Hall. now rewrite (filter_none _ _ Hall).
  - intros t Hin Hb Ho. rewrite Forall_forall in HF.
    destruct (HF t Hin) as (_ & _ & _ & _ & _ & _ & HA).
    unfold action_ok in HA. rewrite Hb in HA. split; [tauto|].
    intro Hin'. apply filter_In in Hin'. destruct Hin' as [_ Ho'].
    congruence.
Qed.

(** At equity 88000 in HALF mode, Test_Thesis is over budget (136%) and is
    the one thesis listed; the BROKEN thesis is not in this account. *)
Lemma X14_breach_notification_witness :
  map ThesisResult.name (Notifier.breaches Demo.half_result)
  = ["Test_Thesis"]
  /\ Forall (fun t =>
               ThesisResult.action t
               = Some (match ThesisResult.status t with
                       | BROKEN => "EXIT"
                       | _ => reduce_text (ThesisResult.reduce_amount t)
                       end))
       (Notifier.breaches Demo.half_result).
Proof.
  assert (H : RiskEngine.compute SimpleRe.re_match Sample.engine 2%N
                Demo.half_accounts Sample.store
              = (Ok Demo.half_result, Demo.half_store))
    by (vm_compute; reflexivity).
  destruct (X14_breach_notification SimpleRe.re_match Sample.engine 2%N
              Demo.half_accounts Sample.store Demo.half_store
              Demo.half_result H) as (_ & HA & _).
  split; [vm_compute; reflexivity | exact HA].
Defined.

(** ** The rows written to the sheet *)

Lemma substring_length (m : nat) (s : string) :
  (String.length (String.substring 0 m s) <= m)%nat.
Proof.
  revert s. induction m as [|m IH]; intro s; destruct s as [|c s]; simpl;
    try lia.
  specialize (IH s). lia.
Qed.

Lemma substring_prefix (m : nat) (s : string) :
  exists rest, s = String.substring 0 m s ++ rest.
Proof.
  revert s. induction m as [|m IH]; intro s; destruct s as [|c s]; simpl.
  - now exists "".
  - now exists (String c s).
  - now exists "".
  - destruct (IH s) as (rest & E). exists rest. now rewrite <- E.
Qed.

Lemma first_seen_nil (seen ids : list string) :
  first_seen seen ids = [] ->
  forall x, In x ids -> existsb (String.eqb x) seen = true.
Proof.
  intros H x Hin.
  destruct (existsb (String.eqb x) seen) eqn:E; [reflexivity|].
  assert (Hx : In x (first_seen seen ids)) by (apply first_seen_In; now split).
  rewrite H in Hx. contradiction.
Qed.

Section Sheet.

Variable isoformat : datetime -> string.

(** X15.  The row that [write_snapshot] appends for a result of [compute]:
    its first seven cells are the row of [write_account] and hold the fields
    of the equity snapshot that the run stored; the top thesis is the first
    thesis result, and no thesis result has a greater utilization; without
    thesis results, which is the case exactly when the OK accounts hold no
    position, the two cells are the empty text and 0; the number of actions
    is that of the whole log, while the summary is at most 200 characters
    of the first three entries joined. *)
Theorem X15_snapshot_row_of_a_run
    (re_match : string -> string -> ReOutcome) (self : RiskEngine.t)
    (timestamp : datetime) (accounts : list AccountData.t)
    (st st' : Storage.t) (r : RiskResult.t) :
  RiskEngine.compute re_match self timestamp accounts st = (Ok r, st') ->
  let row := SheetsWriter.snapshot_row isoformat r in
  firstn 7 row = SheetsWriter.account_row isoformat r
  /\ (exists s,
        Storage.equity_history st' = (Storage.equity_history st ++ [s])%list
        /\ SheetsWriter.account_row isoformat r
           = [SheetsWriter.Str (isoformat (EquitySnapshot.timestamp s));
              SheetsWriter.Num (EquitySnapshot.equity s);
              SheetsWriter.Num (EquitySnapshot.peak s);
              SheetsWriter.Num (EquitySnapshot.drawdown s);
              SheetsWriter.Str (EquitySnapshot.mode s);
              SheetsWriter.Num (EquitySnapshot.risk_scale s);
              SheetsWriter.Str (EquitySnapshot.status s)])
  /\ (forall top rest,
        RiskResult.thesis_results r = top :: rest ->
        nth_error row 7 = Some (SheetsWriter.Str (ThesisResult.name top))
        /\ nth_error row 8
           = Some (SheetsWriter.XNum (ThesisResult.utilization top))
        /\ Forall (util_ge top) rest)
  /\ (RiskResult.thesis_results r = [] <-> RiskResult.positions r = [])
  /\ (RiskResult.thesis_results r = [] ->
      nth_error row 7 = Some (SheetsWriter.Str "")
      /\ nth_error row 8 = Some (SheetsWriter.Int 0))
  /\ nth_error row 9
     = Some (SheetsWriter.Int (List.length (RiskResult.actions r)))
  /\ exists summary rest,
       nth_error row 10 = Some (SheetsWriter.Str summary)
       /\ (String.length summary <= 200)%nat
       /\ String.concat "; " (firstn 3 (RiskResult.actions r))
          = summary ++ rest.
Proof.
  intros H row. subst row. unfold SheetsWriter.snapshot_row.
  split; [reflexivity|]. split; [|split; [|split; [|split; [|split]]]].
  - pose proof (compute_ok_inv _ _ _ _ _ _ _ H)
      as (_ & _ & _ & _ & _ & _ & _ & _ & Eh).
    pose proof (compute_ok_shape _ _ _ _ _ _ _ H) as (om & rs & _ & _ & Er & _).
    assert (Et : RiskResult.timestamp r = timestamp)
      by (rewrite Er; reflexivity).
    eexists. split; [exact Eh|]. unfold SheetsWriter.account_row. simpl.
    now rewrite Et.
  - intros top rest E. rewrite E. simpl.
    split; [reflexivity|]. split; [reflexivity|].
    destruct (run_theses _ _ _ _ _ _ _ H) as (rs & Hs & _).
    pose proof (sort_sorted rs) as HS. rewrite <- Hs, E in HS.
    now inversion HS.
  - destruct (run_theses _ _ _ _ _ _ _ H) as (rs & Hs & Hn & _).
    split.
    + intro E. rewrite E in Hs.
      assert (Ers : rs = []).
      { pose proof (sort_perm rs) as P. rewrite <- Hs in P.
        exact (Permutation_nil P). }
      rewrite Ers in Hn. simpl in Hn. symmetry in Hn.
      destruct (RiskResult.positions r) as [|p ps]; [reflexivity|].
      pose proof (first_seen_nil _ _ Hn (Position.thesis p)
                    (or_introl eq_refl)) as Hx.
      discriminate.
    + intro E. rewrite E in Hn. simpl in Hn.
      apply map_eq_nil in Hn. rewrite Hn in Hs. exact Hs.
  - intro E. rewrite E. simpl. now split.
  - reflexivity.
  - simpl.
    destruct (RiskResult.actions r) as [|a l] eqn:Ea.
    + exists "", "". simpl. repeat split. lia.
    + destruct (substring_prefix 200 (String.concat "; " (firstn 3 (a :: l))))
        as (rest & E).
      eexists. exists rest. split; [reflexivity|].
      split; [apply substring_length | exact E].
Qed.

End Sheet.

(** The run at equity 88000: the top thesis is Test_Thesis, the log has
    three entries. *)
Lemma X15_snapshot_row_of_a_run_witness :
  nth_error (SheetsWriter.snapshot_row (fun _ => "2024-01-02T00:00:00")
               Demo.half_result) 7
  = Some (SheetsWriter.Str "Test_Thesis")
  /\ nth_error (SheetsWriter.snapshot_row (fun _ => "2024-01-02T00:00:00")
                  Demo.half_result) 9
     = Some (SheetsWriter.Int 3).
Proof.
  assert (H : RiskEngine.compute SimpleRe.re_match Sample.engine 2%N
                Demo.half_accounts Sample.store
              = (Ok Demo.half_result, Demo.half_store))
    by (vm_compute; reflexivity).
  destruct (X15_snapshot_row_of_a_run (fun _ => "2024-01-02T00:00:00")
              SimpleRe.re_match Sample.engine 2%N Demo.half_accounts
              Sample.store Demo.half_store Demo.half_result H)
    as (_ & _ & HT & _ & _ & HN & _).
  split.
  - let v := eval vm_compute in (RiskResult.thesis_results Demo.half_result) in
    match v with
    | ?top :: ?rest =>
      destruct (HT top rest) as (H7 & _); [vm_compute; reflexivity|];
        rewrite H7; vm_compute; reflexivity
    end.
  - rewrite HN. vm_compute. reflexivity.
Defined.

(** ** The Schwab connector *)

Lemma parse_position_ok (account_id : string) (pos : Schwab.RawPosition.t) :
  exists p,
    Schwab.parse_position account_id pos = Ok p
    /\ Position.broker p = "Schwab"
    /\ Position.account_id p = account_id
    /\ Position.mv p
       = RiskEngine.or_default (Schwab.RawPosition.marketValue pos) 0
    /\ Position.qty p = net_quantity pos
    /\ (if String.eqb (asset_type_of pos) "OPTION"
        then Position.instrument_type p = OPTION
             /\ Position.multiplier p = 100.0
        else Position.instrument_type p <> OPTION
             /\ Position.multiplier p = 1.0)
    /\ (~ Position.qty p == 0 ->
        Position.price p
        = Position.mv p / (Position.qty p * Position.multiplier p))
    /\ (Position.qty p == 0 -> Position.price p = 0).
Proof.
  unfold Schwab.parse_position. fold (asset_type_of pos).
  fold (net_quantity pos).
  set (mv := RiskEngine.or_default (Schwab.RawPosition.marketValue pos) 0).
  set (qty := net_quantity pos).
  assert (K : forall (it : InstrumentType) (m : Q), ~ m == 0 ->
            exists price,
              (if negb (Qeq_bool qty 0) then PyFloat.div mv (qty * m)
               else Ok 0) = Ok price
              /\ (~ qty == 0 -> price = mv / (qty * m))
              /\ (qty == 0 -> price = 0)).
  { intros it m Hm. destruct (Qeq_bool qty 0) eqn:E; simpl.
    - apply Qeq_bool_iff in E. exists 0.
      split; [reflexivity|]. split; [intro; contradiction | reflexivity].
    - apply Qeq_bool_false in E.
      assert (Hd : ~ qty * m == 0).
      { intro Hz. apply Qmult_integral in Hz. tauto. }
      rewrite (div_ok _ _ Hd). eexists. split; [reflexivity|].
      split; [intros _; reflexivity | intro; contradiction]. }
  destruct (String.eqb (asset_type_of pos) "OPTION") eqn:E1.
  { destruct (K OPTION 100.0) as (price & -> & H1 & H2); [discriminate|].
    eexists. split; [reflexivity|]. simpl.
    repeat split; try reflexivity; assumption. }
  destruct (String.eqb (asset_type_of pos) "CASH_EQUIVALENT") eqn:E2.
  { destruct (K CASH 1.0) as (price & -> & H1 & H2); [discriminate|].
    eexists. split; [reflexivity|]. simpl.
    repeat split; try reflexivity; try assumption; discriminate. }
  destruct (String.eqb (asset_type_of pos) "ETF") eqn:E3.
  { destruct (K ETF 1.0) as (price & -> & H1 & H2); [discriminate|].
    eexists. split; [reflexivity|]. simpl.
    repeat split; try reflexivity; try assumption; discriminate. }
  destruct (K STOCK 1.0) as (price & -> & H1 & H2); [discriminate|].
  eexists. split; [reflexivity|]. simpl.
  repeat split; try reflexivity; try assumption; discriminate.
Qed.

Lemma parse_positions_ok (account_id : string)
    (raw : list Schwab.RawPosition.t) :
  forall positions,
  exists ps,
    Schwab.parse_positions account_id raw positions = Ok (positions ++ ps)%list
    /\ Forall2 (fun pos p => Schwab.parse_position account_id pos = Ok p)
         raw ps.
Proof.
  induction raw as [|pos raw IH]; intro positions; simpl.
  - exists []. split; [now rewrite app_nil_r | constructor].
  - destruct (parse_position_ok account_id pos) as (p & E & _).
    rewrite E. destruct (IH (RiskEngine.append positions p)) as (ps & -> & F).
    exists (p :: ps). split; [|now constructor].
    unfold RiskEngine.append. now rewrite <- app_assoc.
Qed.

(** X16.  When the account request answers, [get_account_data] of the Schwab
    connector returns an account with status OK and no error.  It has one
    position per raw position, in order; the market value is the reported
    one and the quantity is long minus short; the multiplier is 100 for an
    OPTION and 1 otherwise; the price is the quotient
    [mv / (qty * multiplier)] when the quantity is not zero, and 0 when it
    is zero, so that the schema [mv = qty * price * multiplier] then holds
    only for a market value of zero; and the position counts as a short
    option of the engine exactly when it is an OPTION with more short than
    long. *)
Theorem X16_schwab_positions_as_reported
    (account_id : string) (data : Schwab.Response.t) :
  let acc := Schwab.get_account_data account_id (inr data) in
  AccountData.status acc = "OK"
  /\ AccountData.error_message acc = None
  /\ AccountData.broker acc = "Schwab"
  /\ AccountData.account_id acc = account_id
  /\ Forall2
       (fun pos p =>
          Position.mv p
          = RiskEngine.or_default (Schwab.RawPosition.marketValue pos) 0
          /\ Position.qty p = net_quantity pos
          /\ (Position.instrument_type p = OPTION
              <-> asset_type_of pos = "OPTION")
          /\ Position.multiplier p
             = (if String.eqb (asset_type_of pos) "OPTION" then 100.0
                else 1.0)
          /\ (~ Position.qty p == 0 ->
              Position.price p
              = Position.mv p / (Position.qty p * Position.multiplier p))
          /\ (Position.qty p == 0 ->
              Position.price p = 0 /\ (schema_ok p <-> Position.mv p == 0))
          /\ (RiskEngine.is_short_option p = true
              <-> asset_type_of pos = "OPTION" /\ net_quantity pos < 0))
       (Schwab.raw_positions data) (AccountData.positions acc).
Proof.
  intro acc. subst acc. unfold Schwab.get_account_data.
  fold (Schwab.raw_positions data).
  destruct (parse_positions_ok account_id (Schwab.raw_positions data) [])
    as (ps & -> & F).
  simpl. repeat (split; [reflexivity|]).
  eapply Forall2_impl; [|exact F]. intros pos p E. simpl in E.
  destruct (parse_position_ok account_id pos)
    as (p' & E' & _ & _ & Hmv & Hq & Ht & Hs & Hz).
  rewrite E in E'. injection E' as <-.
  split; [exact Hmv|]. split; [exact Hq|].
  assert (Hopt : Position.instrument_type p = OPTION
                 <-> asset_type_of pos = "OPTION").
  { destruct (String.eqb (asset_type_of pos) "OPTION") eqn:Eo.
    - apply String.eqb_eq in Eo. tauto.
    - apply String.eqb_neq in Eo. tauto. }
  split; [exact Hopt|]. split.
  { destruct (String.eqb (asset_type_of pos) "OPTION"); tauto. }
  split; [exact Hs|]. split.
  { intro Hq0. split; [now apply Hz|].
    unfold schema_ok. rewrite (Hz Hq0), Hq0. split; intro Hx; lra. }
  unfold RiskEngine.is_short_option. rewrite <- Hq.
  destruct (Position.instrument_type p) eqn:Ei;
    try (split; [discriminate | intros [Ho _]; apply Hopt in Ho; discriminate]).
  split.
  - intro Hl. apply ltb_true in Hl. split; [now apply Hopt | exact Hl].
  - intros [_ Hl]. now apply ltb_true.
Qed.

(** Two shares worth 300 and three short option contracts worth -600. *)
Lemma X16_schwab_positions_as_reported_witness :
  AccountData.status (Schwab.get_account_data "111" (inr DemoSchwab.response))
  = "OK"
  /\ map (fun p => Qred (Position.price p))
       (AccountData.positions
          (Schwab.get_account_data "111" (inr DemoSchwab.response)))
     = [150; 2]
  /\ map RiskEngine.is_short_option
       (AccountData.positions
          (Schwab.get_account_data "111" (inr DemoSchwab.response)))
     = [false; true].
Proof.
  destruct (X16_schwab_positions_as_reported "111" DemoSchwab.response)
    as (HS & _).
  split; [exact HS|]. split; vm_compute; reflexivity.
Defined.

(** ** Collecting the accounts of a connector *)

Lemma fold_append {A B} (g : A -> B) (l : list A) :
  forall init,
  fold_left (fun acc x => RiskEngine.append acc (g x)) l init
  = (init ++ map g l)%list.
Proof.
  induction l as [|x l IH]; intro init; simpl.
  - now rewrite app_nil_r.
  - rewrite IH. unfold RiskEngine.append. now rewrite <- app_assoc.
Qed.

Lemma get_all_accounts_data_map (self : BaseConnector.t) :
  BaseConnector.get_all_accounts_data self
  = map (collected self) (BaseConnector.get_accounts self).
Proof.
  unfold BaseConnector.get_all_accounts_data.
  change (map (collected self) (BaseConnector.get_accounts self))
    with ([] ++ map (collected self) (BaseConnector.get_accounts self))%list.
  rewrite <- fold_append.
  generalize (@nil AccountData.t).
  induction (BaseConnector.get_accounts self) as [|x l IH]; intro init;
    simpl; [reflexivity|].
  rewrite <- IH. unfold collected.
  now destruct (BaseConnector.get_account_data self x).
Qed.

Lemma collected_ok_filter (self : BaseConnector.t) (ids : list string) :
  filter is_ok (map (collected self) ids)
  = filter is_ok
      (flat_map
         (fun account_id =>
            match BaseConnector.get_account_data self account_id with
            | inr data => [data]
            | inl _ => []
            end) ids).
Proof.
  induction ids as [|x ids IH]; simpl; [reflexivity|].
  destruct (BaseConnector.get_account_data self x) as [e|data] eqn:E.
  - assert (Hc : is_ok (collected self x) = false)
      by (unfold collected; now rewrite E).
    rewrite Hc. exact IH.
  - assert (Hc : collected self x = data)
      by (unfold collected; now rewrite E).
    rewrite Hc. simpl. destruct (is_ok data); now rewrite IH.
Qed.

(** X17.  [get_all_accounts_data] returns one entry per account id, in
    order: the data fetched, or, when fetching raised, an entry for that id
    with status ERROR, no equity and no positions, carrying the text of the
    exception.  A failed fetch therefore never stops the collection, and what
    the engine adds up, equity and positions of the OK accounts, is what it
    would add up over the accounts fetched without an exception; the run is
    OK only if every fetch succeeded with status OK.  For the Schwab
    connector, whose [get_account_data] catches its own exceptions, every id
    gets an entry of that id from the connector itself. *)
Theorem X17_collection_survives_failed_fetches (self : BaseConnector.t) :
  let accounts := BaseConnector.get_all_accounts_data self in
  Forall2
    (fun account_id acc =>
       BaseConnector.get_account_data self account_id = inr acc
       \/ exists e,
            BaseConnector.get_account_data self account_id = inl e
            /\ acc = AccountData.mk (BaseConnector.broker_name self)
                       account_id 0 0 [] "ERROR" (Some e))
    (BaseConnector.get_accounts self) accounts
  /\ sum_ok_equity accounts = sum_ok_equity (fetched self)
  /\ ok_positions accounts = ok_positions (fetched self)
  /\ (run_status accounts = "OK"
      <-> forall account_id, In account_id (BaseConnector.get_accounts self) ->
            exists acc,
              BaseConnector.get_account_data self account_id = inr acc
              /\ AccountData.status acc = "OK")
  /\ (forall ids responses,
        BaseConnector.get_all_accounts_data (Schwab.connector ids responses)
        = map (fun account_id =>
                 Schwab.get_account_data account_id (responses account_id))
            ids).
Proof.
  intro accounts. subst accounts. rewrite get_all_accounts_data_map.
  split; [|split; [|split; [|split]]].
  - induction (BaseConnector.get_accounts self) as [|x l IH]; simpl;
      constructor; [|exact IH].
    unfold collected.
    destruct (BaseConnector.get_account_data self x) as [e|data];
      [right; now exists e | now left].
  - unfold sum_ok_equity, fetched.
    change (fun acc => String.eqb (AccountData.status acc) "OK") with is_ok.
    now rewrite collected_ok_filter.
  - unfold ok_positions, fetched.
    change (fun acc => String.eqb (AccountData.status acc) "OK") with is_ok.
    now rewrite collected_ok_filter.
  - rewrite run_status_ok. split.
    + intros Hall x Hin.
      specialize (Hall (collected self x) (in_map _ _ _ Hin)).
      unfold collected in Hall.
      destruct (BaseConnector.get_account_data self x) as [e|data];
        [discriminate | now exists data].
    + intros Hall acc Hin. apply in_map_iff in Hin.
      destruct Hin as (x & <- & Hin).
      destruct (Hall x Hin) as (data & E & Hs).
      unfold collected. now rewrite E.
  - intros ids responses. rewrite get_all_accounts_data_map. simpl.
    apply map_ext. intro x. reflexivity.
Qed.

(** Account 111 answers and account 222 fails: two entries, the equity of
    the first one, and a run that is not OK. *)
Lemma X17_collection_survives_failed_fetches_witness :
  let accounts :=
    BaseConnector.get_all_accounts_data
      (Schwab.connector DemoSchwab.ids DemoSchwab.responses) in
  map AccountData.status accounts = ["OK"; "ERROR"]
  /\ sum_ok_equity accounts = 0 + 50000
  /\ run_status accounts <> "OK".
Proof.
  intro accounts.
  destruct (X17_collection_survives_failed_fetches
              (Schwab.connector DemoSchwab.ids DemoSchwab.responses))
    as (_ & HE & _ & HR & HS).
  split; [|split].
  - subst accounts. rewrite HS. vm_compute. reflexivity.
  - subst accounts. rewrite HE. reflexivity.
  - subst accounts. intro Hok. pose proof (proj1 HR Hok) as Hall.
    destruct (Hall "222") as (acc & E & Hst); [right; now left|].
    vm_compute in E. injection E as <-. discriminate.
Defined.

(** ** The Fidelity connector: grouping the rows by account *)

Lemma add_position_keys (d : Dict.t AccountData.t) (account_id : string)
    (p : Position.t) :
  Dict.keys (Fidelity.add_position d account_id p)
  = (Dict.keys d ++ first_seen (Dict.keys d) [account_id])%list.
Proof.
  unfold Fidelity.add_position. simpl. rewrite <- mem_keys.
  destruct (Dict.mem d account_id) eqn:E.
  - rewrite keys_set, E. now rewrite app_nil_r.
  - rewrite keys_set.
    assert (M : Dict.mem (Dict.set d account_id
                            (AccountData.mk "Fidelity" account_id 0 0 []
                               "OK" None)) account_id = true)
      by (unfold Dict.mem; now rewrite get_set_same).
    rewrite M. now rewrite keys_set, E.
Qed.

Lemma add_position_get (d : Dict.t AccountData.t) (account_id : string)
    (p : Position.t) (k : string) :
  Dict.get (Fidelity.add_position d account_id p) k
  = if String.eqb account_id k
    then Some (grown (Dict.get_default d k (fresh_account k)) p)
    else Dict.get d k.
Proof.
  unfold Fidelity.add_position.
  destruct (String.eqb account_id k) eqn:Ek.
  - apply String.eqb_eq in Ek. subst k. rewrite get_set_same.
    f_equal. unfold grown, fresh_account.
    destruct (Dict.mem d account_id) eqn:E; [reflexivity|].
    rewrite get_default_set_same.
    now rewrite (get_default_absent d account_id _ E).
  - apply String.eqb_neq in Ek. rewrite get_set_other by exact Ek.
    destruct (Dict.mem d account_id); [reflexivity|].
    now rewrite get_set_other by exact Ek.
Qed.

Lemma add_positions_keys (items : list (string * Position.t)) :
  forall d,
  Dict.keys (add_positions d items)
  = (Dict.keys d ++ first_seen (Dict.keys d) (map fst items))%list.
Proof.
  induction items as [|[k p] items IH]; intro d; simpl.
  - now rewrite app_nil_r.
  - unfold add_positions in *. simpl. rewrite IH, add_position_keys. simpl.
    destruct (existsb (String.eqb k) (Dict.keys d)).
    + now rewrite app_nil_r.
    + rewrite first_seen_snoc_seen. now rewrite <- app_assoc.
Qed.

Lemma add_positions_get (items : list (string * Position.t)) (k : string) :
  forall d,
  Dict.get (add_positions d items) k
  = match filter (fun item => String.eqb (fst item) k) items with
    | [] => Dict.get d k
    | ms =>
      Some (fold_left grown (map snd ms)
              (Dict.get_default d k (fresh_account k)))
    end.
Proof.
  induction items as [|[k' p] items IH]; intro d; simpl.
  - reflexivity.
  - unfold add_positions in *. simpl. rewrite IH.
    pose proof (add_position_get d k' p k) as G.
    unfold Dict.get_default at 1. rewrite G.
    destruct (String.eqb k' k); simpl.
    + now destruct (filter _ items).
    + unfold Dict.get_default. reflexivity.
Qed.

Lemma grown_fold (ps : list Position.t) :
  forall acc,
  fold_left grown ps acc
  = AccountData.mk (AccountData.broker acc) (AccountData.account_id acc)
      (AccountData.equity acc)
      (fold_left (fun s p => s + Position.mv p) (filter is_cash ps)
         (AccountData.cash acc))
      (AccountData.positions acc ++ ps)
      (AccountData.status acc) (AccountData.error_message acc).
Proof.
  induction ps as [|p ps IH]; intro acc; simpl.
  - rewrite app_nil_r. now destruct acc.
  - rewrite IH. unfold grown, is_cash, RiskEngine.append.
    destruct (Fidelity.InstrumentType_eqb (Position.instrument_type p) CASH);
      simpl; now rewrite <- app_assoc.
Qed.

Lemma dict_values_by_key {V} (d : Dict.t V) (f : string -> V) :
  (forall k v, In (k, v) d -> v = f k) ->
  Dict.values d = map f (Dict.keys d).
Proof.
  unfold Dict.values, Dict.keys.
  induction d as [|[k v] d IH]; intro H; simpl; [reflexivity|].
  rewrite (H k v) by now left. f_equal. apply IH.
  intros k' v' Hin. apply H. now right.
Qed.

Lemma held_by_items (items : list (string * Position.t)) (k : string) :
  Forall (fun item => Position.account_id (snd item) = fst item) items ->
  map snd (filter (fun item => String.eqb (fst item) k) items)
  = held_by k (map snd items).
Proof.
  unfold held_by. induction 1 as [|[k' p] items Hx _ IH]; simpl;
    [reflexivity|].
  simpl in Hx. rewrite Hx.
  destruct (String.eqb k' k); simpl; now rewrite IH.
Qed.

(** The accounts the loop leaves, from an empty dict. *)
Lemma add_positions_closed (items : list (string * Position.t)) :
  Forall (fun item => Position.account_id (snd item) = fst item) items ->
  map (fun account =>
         Fidelity.with_equity account
           (sum_mv (AccountData.positions account)))
    (Dict.values (add_positions [] items))
  = accounts_of (map snd items).
Proof.
  intro HF.
  set (all := map snd items).
  set (f := fun k =>
              AccountData.mk "Fidelity" k 0
                (sum_mv (filter is_cash (held_by k all))) (held_by k all)
                "OK" None).
  assert (HK : Dict.keys (add_positions [] items)
               = first_seen [] (map Position.account_id all)).
  { rewrite add_positions_keys. simpl. f_equal. subst all.
    rewrite map_map. apply map_ext_Forall.
    eapply Forall_impl; [|exact HF]. intros. now symmetry. }
  rewrite (dict_values_by_key _ f).
  - rewrite HK, map_map. unfold accounts_of. apply map_ext. intro k.
    reflexivity.
  - intros k v Hin.
    assert (ND : NoDup (Dict.keys (add_positions [] items)))
      by (rewrite HK; apply first_seen_NoDup).
    pose proof (In_get _ _ _ ND Hin) as G.
    rewrite add_positions_get in G.
    pose proof (held_by_items items k HF) as HH. fold all in HH.
    destruct (filter (fun item => String.eqb (fst item) k) items)
      as [|m ms] eqn:Ef; [discriminate|].
    rewrite HH, grown_fold in G. injection G as <-. subst f. simpl.
    unfold Dict.get_default, fresh_account, sum_mv. reflexivity.
Qed.

Lemma find_from_ge (strip : string -> string) (headers : list string)
    (key : string) :
  forall i j, Fidelity.find_from strip i headers key = Some j -> (i <= j)%nat.
Proof.
  induction headers as [|h hs IH]; intros i j H; simpl in H; [discriminate|].
  destruct (Fidelity._normalize_column strip h key).
  - injection H as <-. lia.
  - apply IH in H. lia.
Qed.

Lemma first_seen_constant (k : string) (l : list string) :
  Forall (fun x => x = k) l -> l <> [] -> first_seen [] l = [k].
Proof.
  intros H NE. destruct H as [|x l Hx Hl]; [contradiction|]. subst x.
  simpl. f_equal. clear NE.
  induction Hl as [|y l Hy _ IH]; simpl; [reflexivity|].
  subst y. rewrite String.eqb_refl. simpl. exact IH.
Qed.

Lemma find_by_id (l : list AccountData.t) (acc : AccountData.t) :
  NoDup (map AccountData.account_id l) -> In acc l ->
  find (fun a => String.eqb (AccountData.account_id a)
                   (AccountData.account_id acc)) l = Some acc.
Proof.
  induction l as [|a l IH]; intros ND Hin; simpl; [contradiction|].
  simpl in ND. inversion ND as [|? ? Hnin ND']; subst.
  destruct Hin as [-> | Hin].
  - now rewrite String.eqb_refl.
  - destruct (String.eqb (AccountData.account_id a)
                (AccountData.account_id acc)) eqn:E.
    + apply String.eqb_eq in E. exfalso. apply Hnin. rewrite E.
      now apply in_map.
    + now apply IH.
Qed.

Section FidelityProperties.

Variable strip : string -> string.
Variable upper : string -> string.
Variable lower : string -> string.
Variable first_word : string -> string.
Variable py_float : string -> option Q.
Variable remove_money : string -> string.
Variable is_option_symbol : string -> bool.

Local Abbreviation position_of_row :=
  (Fidelity.position_of_row strip upper lower first_word py_float
     remove_money is_option_symbol).
Local Abbreviation parse_row :=
  (Fidelity.parse_row strip upper lower first_word py_float remove_money
     is_option_symbol).
Local Abbreviation _parse_csv :=
  (Fidelity._parse_csv strip upper lower first_word py_float remove_money
     is_option_symbol).
Local Abbreviation positions_of :=
  (row_positions strip upper lower first_word py_float remove_money
     is_option_symbol).
Local Abbreviation number_of := (number_at strip py_float remove_money).



(** What a row that is not skipped gives. *)
Lemma position_of_row_spec (cols : Fidelity.Columns) (row : list string)
    (account_id : string) (p : Position.t) :
  position_of_row cols row = Some (account_id, p) ->
  Position.account_id p = account_id
  /\ Position.broker p = "Fidelity"
  /\ Position.qty p = number_of (Fidelity.qty_col cols) row
  /\ Position.multiplier p
     = (if Fidelity.InstrumentType_eqb (Position.instrument_type p) OPTION
        then 100.0 else 1.0)
  /\ (let price := number_of (Fidelity.price_col cols) row in
      let mv := number_of (Fidelity.value_col cols) row in
      Position.price p
      = (if Fidelity.truthy mv && negb (Fidelity.truthy price)
            && Fidelity.truthy (Position.qty p)
         then mv / Position.qty p else price)
      /\ Position.mv p
         = (if Fidelity.truthy (Position.price p)
               && Fidelity.truthy (Position.qty p)
               && negb (Fidelity.truthy mv)
            then Position.price p * Position.qty p else mv))
  /\ (match Fidelity.account_col cols with
      | Some (S _) => True
      | _ => account_id = first_word "default"
      end).
Proof.
  unfold Fidelity.position_of_row.
  destruct (List.length row <=? Fidelity.symbol_col cols)%nat; [discriminate|].
  destruct (_ || _); [discriminate|].
  intro H. injection H as <- <-. simpl.
  repeat split.
  destruct (Fidelity.account_col cols) as [[|k]|]; simpl;
    [|exact I|]; reflexivity.
Qed.

Lemma parse_rows_fold (cols : Fidelity.Columns) (rows : list (list string)) :
  forall d,
  fold_left (parse_row cols) rows d
  = add_positions d
      (flat_map
         (fun row =>
            match position_of_row cols row with
            | Some item => [item]
            | None => []
            end) rows).
Proof.
  induction rows as [|row rows IH]; intro d; simpl; [reflexivity|].
  rewrite IH. unfold Fidelity.parse_row.
  destruct (position_of_row cols row) as [[k p]|]; reflexivity.
Qed.

Lemma row_items_positions (cols : Fidelity.Columns)
    (rows : list (list string)) :
  map snd
    (flat_map
       (fun row =>
          match position_of_row cols row with
          | Some item => [item]
          | None => []
          end) rows)
  = positions_of cols rows
  /\ Forall (fun item => Position.account_id (snd item) = fst item)
       (flat_map
          (fun row =>
             match position_of_row cols row with
             | Some item => [item]
             | None => []
             end) rows).
Proof.
  unfold row_positions.
  induction rows as [|row rows [IH1 IH2]]; simpl.
  - split; [reflexivity | constructor].
  - destruct (position_of_row cols row) as [[k p]|] eqn:E; simpl.
    + split; [now rewrite IH1|]. constructor; [|exact IH2].
      simpl. now apply position_of_row_spec in E.
    + now split.
Qed.

Lemma parse_csv_closed (headers : list string) (rows : list (list string))
    (symbol_col : nat) :
  Fidelity._find_column strip headers "symbol" = Some symbol_col ->
  _parse_csv (inr (headers, rows))
  = accounts_of (positions_of (columns_of strip headers symbol_col) rows).
Proof.
  intro H. unfold Fidelity._parse_csv. rewrite H.
  fold (columns_of strip headers symbol_col).
  rewrite parse_rows_fold.
  destruct (row_items_positions (columns_of strip headers symbol_col) rows)
    as [E F].
  rewrite <- E. now apply add_positions_closed.
Qed.

Lemma accounts_of_ids (ps : list Position.t) :
  map AccountData.account_id (accounts_of ps)
  = first_seen [] (map Position.account_id ps).
Proof.
  unfold accounts_of. rewrite map_map. simpl. apply map_id.
Qed.

(** X18.  When the header has a symbol column, [_parse_csv] groups the
    positions of the rows it does not skip by account id: one account per
    id, in the order in which the ids first occur and with no id twice; each
    account has status OK and holds, in file order, exactly the positions of
    its id, at least one; its equity is the sum of the market values of all
    its positions, cash positions included, and its cash the sum over its
    cash positions; and every position built is in the account of its id. *)
Theorem X18_fidelity_accounts_group_the_rows
    (headers : list string) (rows : list (list string)) (symbol_col : nat) :
  Fidelity._find_column strip headers "symbol" = Some symbol_col ->
  let ps := positions_of (columns_of strip headers symbol_col) rows in
  let accounts := _parse_csv (inr (headers, rows)) in
  accounts = accounts_of ps
  /\ map AccountData.account_id accounts
     = first_seen [] (map Position.account_id ps)
  /\ NoDup (map AccountData.account_id accounts)
  /\ Forall
       (fun acc =>
          AccountData.status acc = "OK"
          /\ AccountData.positions acc
             = held_by (AccountData.account_id acc) ps
          /\ AccountData.positions acc <> []
          /\ AccountData.equity acc = sum_mv (AccountData.positions acc)
          /\ AccountData.cash acc
             = sum_mv (filter is_cash (AccountData.positions acc)))
       accounts
  /\ (forall p, In p ps ->
        exists acc, In acc accounts
                    /\ AccountData.account_id acc = Position.account_id p
                    /\ In p (AccountData.positions acc)).
Proof.
  intros H ps accounts.
  assert (E : accounts = accounts_of ps) by (now apply parse_csv_closed).
  split; [exact E|]. rewrite E.
  split; [apply accounts_of_ids|].
  split; [rewrite accounts_of_ids; apply first_seen_NoDup|].
  split.
  - unfold accounts_of. apply Forall_forall. intros acc Hin.
    apply in_map_iff in Hin. destruct Hin as (k & <- & Hk). simpl.
    repeat split.
    apply first_seen_In in Hk. destruct Hk as [Hk _].
    apply in_map_iff in Hk. destruct Hk as (p & Hp & Hin).
    intro Hnil.
    assert (Hh : In p (held_by k ps)).
    { unfold held_by. apply filter_In. split; [exact Hin|].
      rewrite Hp. apply String.eqb_refl. }
    rewrite Hnil in Hh. contradiction.
  - intros p Hin.
    exists (account_of (Position.account_id p)
              (held_by (Position.account_id p) ps)).
    split; [|split; [reflexivity|]].
    + unfold accounts_of.
      apply (in_map (fun k => account_of k (held_by k ps))).
      apply first_seen_In. split; [now apply in_map | reflexivity].
    + simpl. unfold held_by. apply filter_In. split; [exact Hin|].
      apply String.eqb_refl.
Qed.

End FidelityProperties.

(** The export with the account number in the last column: two accounts. *)
Lemma X18_fidelity_accounts_group_the_rows_witness :
  map AccountData.account_id DemoFidelity.parsed_moved = ["X111"; "Y222"]
  /\ NoDup (map AccountData.account_id DemoFidelity.parsed_moved)
  /\ Forall
       (fun acc =>
          AccountData.equity acc = sum_mv (AccountData.positions acc))
       DemoFidelity.parsed_moved.
Proof.
  assert (P : DemoFidelity.parsed_moved
              = DemoFidelity.parse
                  (inr (DemoFidelity.headers_moved, DemoFidelity.rows_moved)))
    by (vm_compute; reflexivity).
  destruct (X18_fidelity_accounts_group_the_rows PyStr.strip PyStr.upper
              PyStr.lower PyStr.first_word PyStr.py_float
              DemoFidelity.remove_money DemoFidelity.is_option_symbol
              DemoFidelity.headers_moved DemoFidelity.rows_moved 0 eq_refl)
    as (_ & _ & ND & HF & _).
  fold DemoFidelity.parse in ND, HF. rewrite <- P in ND, HF.
  split; [vm_compute; reflexivity|]. split; [exact ND|].
  eapply Forall_impl; [|exact HF]. intros acc H. apply H.
Defined.

Section FidelityColumns.

Variable strip : string -> string.
Variable upper : string -> string.
Variable lower : string -> string.
Variable first_word : string -> string.
Variable py_float : string -> option Q.
Variable remove_money : string -> string.
Variable is_option_symbol : string -> bool.

Local Abbreviation position_of_row :=
  (Fidelity.position_of_row strip upper lower first_word py_float
     remove_money is_option_symbol).
Local Abbreviation _parse_csv :=
  (Fidelity._parse_csv strip upper lower first_word py_float remove_money
     is_option_symbol).
Local Abbreviation positions_of :=
  (row_positions strip upper lower first_word py_float remove_money
     is_option_symbol).
Local Abbreviation number_of := (number_at strip py_float remove_money).

Lemma row_positions_Forall (P : Position.t -> Prop) (cols : Fidelity.Columns)
    (rows : list (list string)) :
  (forall row account_id p,
      position_of_row cols row = Some (account_id, p) -> P p) ->
  Forall P (positions_of cols rows).
Proof.
  intro H. unfold row_positions.
  induction rows as [|row rows IH]; simpl; [constructor|].
  destruct (position_of_row cols row) as [[k p]|] eqn:E; simpl;
    [|exact IH].
  constructor; [now apply (H row k p) | exact IH].
Qed.

Lemma held_by_all (k : string) (ps : list Position.t) :
  Forall (fun p => Position.account_id p = k) ps -> held_by k ps = ps.
Proof.
  unfold held_by. induction 1 as [|p ps Hp _ IH]; simpl; [reflexivity|].
  rewrite Hp, String.eqb_refl. now rewrite IH.
Qed.

(** X19.  A column is used only when its index is truthy, so the first
    column of the file is never used as the account column or as the
    quantity column.  When the first header is an account header, every
    position is booked to the account [default], whatever the rows say, and
    the result is that one account (or no account).  When the first header
    is a quantity header, every position has the quantity 0, and its price
    and market value are the numbers of the price and value cells. *)
Theorem X19_first_column_is_never_used
    (h : string) (hs : list string) (rows : list (list string))
    (symbol_col : nat) :
  Fidelity._find_column strip (h :: hs) "symbol" = Some symbol_col ->
  first_word "default" = "default" ->
  let cols := columns_of strip (h :: hs) symbol_col in
  let ps := positions_of cols rows in
  (Fidelity._normalize_column strip h "account" = true ->
   Forall (fun p => Position.account_id p = "default") ps
   /\ _parse_csv (inr (h :: hs, rows))
      = match ps with
        | [] => []
        | _ :: _ => [account_of "default" ps]
        end)
  /\ (Fidelity._normalize_column strip h "quantity" = true ->
      forall row account_id p,
        position_of_row cols row = Some (account_id, p) ->
        Position.qty p = 0
        /\ Position.price p = number_of (Fidelity.price_col cols) row
        /\ Position.mv p = number_of (Fidelity.value_col cols) row).
Proof.
  intros Hs Hw cols ps. split.
  - intro Ha.
    assert (Hc : Fidelity.account_col cols = Some 0%nat).
    { subst cols. unfold columns_of. simpl.
      unfold Fidelity._find_column. simpl. now rewrite Ha. }
    assert (HF : Forall (fun p => Position.account_id p = "default") ps).
    { apply row_positions_Forall. intros row k p E.
      apply position_of_row_spec in E.
      destruct E as (E1 & _ & _ & _ & _ & E6).
      rewrite Hc in E6. congruence. }
    split; [exact HF|].
    rewrite (parse_csv_closed _ _ _ _ _ _ _ _ _ _ Hs).
    fold cols. fold ps. unfold accounts_of. clearbody ps.
    destruct ps as [|p ps']; [reflexivity|].
    rewrite (first_seen_constant "default").
    + cbn [map]. now rewrite (held_by_all _ _ HF).
    + rewrite Forall_map. exact HF.
    + discriminate.
  - intros Hq row k p E.
    assert (Hc : Fidelity.qty_col cols = Some 0%nat).
    { subst cols. unfold columns_of. simpl.
      unfold Fidelity._find_column. simpl. now rewrite Hq. }
    apply position_of_row_spec in E.
    destruct E as (_ & _ & Eq & _ & (Ep & Em) & _).
    rewrite Hc in Eq. unfold number_at, Fidelity.cell in Eq.
    split; [exact Eq|].
    rewrite Eq in Ep, Em.
    assert (T0 : Fidelity.truthy 0 = false) by reflexivity.
    rewrite T0 in Ep, Em. rewrite !andb_false_r in Ep.
    rewrite andb_false_r in Em. simpl in Em.
    split; [exact Ep | exact Em].
Qed.


(** X21.  The account ids of the parsed data are distinct, whatever the
    file, so [get_account_data] gives back each parsed account under its id;
    the [get_all_accounts_data] of this connector returns what the one it
    overrides would collect from [get_accounts] and [get_account_data]; and
    an id that is not among the accounts gives an ERROR entry. *)
Theorem X21_fidelity_override_agrees_with_base
    (content : string + list string * list (list string)) :
  let parsed_data := _parse_csv content in
  NoDup (Fidelity.get_accounts parsed_data)
  /\ (forall acc, In acc parsed_data ->
        Fidelity.get_account_data parsed_data (AccountData.account_id acc)
        = acc)
  /\ BaseConnector.get_all_accounts_data (fidelity_connector parsed_data)
     = Fidelity.get_all_accounts_data parsed_data
  /\ (forall account_id,
        ~ In account_id (Fidelity.get_accounts parsed_data) ->
        Fidelity.get_account_data parsed_data account_id
        = AccountData.mk "Fidelity" account_id 0 0 [] "ERROR"
            (Some "Account not found in CSV")).
Proof.
  intro parsed_data.
  assert (ND : NoDup (Fidelity.get_accounts parsed_data)).
  { subst parsed_data. unfold Fidelity.get_accounts.
    destruct content as [e | [headers rows]].
    - simpl. constructor; [intros [] | constructor].
    - destruct (Fidelity._find_column strip headers "symbol") as [c|] eqn:Es.
      + rewrite (parse_csv_closed _ _ _ _ _ _ _ _ _ _ Es), accounts_of_ids.
        apply first_seen_NoDup.
      + unfold Fidelity._parse_csv. rewrite Es. simpl.
        constructor; [intros [] | constructor]. }
  assert (HG : forall acc, In acc parsed_data ->
             Fidelity.get_account_data parsed_data (AccountData.account_id acc)
             = acc).
  { intros acc Hin. unfold Fidelity.get_account_data.
    now rewrite (find_by_id _ _ ND Hin). }
  split; [exact ND|]. split; [exact HG|]. split.
  - rewrite get_all_accounts_data_map. unfold fidelity_connector. simpl.
    unfold Fidelity.get_accounts, Fidelity.get_all_accounts_data.
    rewrite map_map. unfold collected. simpl.
    transitivity (map (fun acc : AccountData.t => acc) parsed_data);
      [apply map_ext_in; exact HG | apply map_id].
  - intros k Hk. unfold Fidelity.get_account_data.
    destruct (find _ parsed_data) as [acc|] eqn:Ef; [|reflexivity].
    apply find_some in Ef. destruct Ef as [Hin Heq].
    apply String.eqb_eq in Heq. exfalso. apply Hk. rewrite <- Heq.
    unfold Fidelity.get_accounts. now apply in_map.
Qed.

End FidelityColumns.

(** The export with the account number in the first column: the two
    accounts of the file are merged into [default]. *)
Lemma X19_first_column_is_never_used_witness :
  map AccountData.account_id DemoFidelity.parsed = ["default"]
  /\ map AccountData.account_id DemoFidelity.parsed_moved = ["X111"; "Y222"].
Proof.
  assert (P : DemoFidelity.parsed
              = DemoFidelity.parse
                  (inr (DemoFidelity.headers, DemoFidelity.rows)))
    by (vm_compute; reflexivity).
  destruct (X19_first_column_is_never_used PyStr.strip PyStr.upper
              PyStr.lower PyStr.first_word PyStr.py_float
              DemoFidelity.remove_money DemoFidelity.is_option_symbol
              "Account Number" (tl DemoFidelity.headers) DemoFidelity.rows 1
              eq_refl eq_refl) as [HA _].
  destruct (HA eq_refl) as [_ E].
  split; [|vm_compute; reflexivity].
  rewrite P. unfold DemoFidelity.parse.
  change DemoFidelity.headers
    with ("Account Number" :: tl DemoFidelity.headers).
  rewrite E. vm_compute. reflexivity.
Defined.


(** ** Running again *)

Lemma set_thesis_twice (p : Position.t) (a b : string) :
  Position.set_thesis (Position.set_thesis p a) b = Position.set_thesis p b.
Proof. reflexivity. Qed.

Lemma map_positions_reset (re_match : string -> string -> ReOutcome)
    (self : RiskEngine.t) (ps : list Position.t) (th : string) :
  RiskEngine.map_positions re_match self
    (map (fun p => Position.set_thesis p th) ps)
  = RiskEngine.map_positions re_match self ps.
Proof.
  induction ps as [|p ps IH]; [reflexivity|].
  cbn [map RiskEngine.map_positions]. rewrite IH. simpl.
  now destruct (RiskEngine._map_position_to_thesis re_match self
                  (Position.symbol p)) as [[thesis weight]|e].
Qed.

Lemma with_theses_reset (re_match : string -> string -> ReOutcome)
    (self : RiskEngine.t) (ps : list Position.t) (th : string) :
  with_theses re_match self (map (fun p => Position.set_thesis p th) ps)
  = with_theses re_match self ps.
Proof. unfold with_theses. rewrite map_map. now apply map_ext. Qed.

Lemma ok_positions_without_thesis (accounts : list AccountData.t) :
  ok_positions (map without_thesis accounts)
  = map (fun p => Position.set_thesis p "_UNMAPPED") (ok_positions accounts).
Proof.
  unfold ok_positions.
  induction accounts as [|acc accounts IH]; simpl; [reflexivity|].
  destruct (String.eqb (AccountData.status acc) "OK"); simpl; [|exact IH].
  now rewrite map_app, IH.
Qed.

(** What [compute] reads of the accounts. *)
Lemma without_thesis_reads (re_match : string -> string -> ReOutcome)
    (self : RiskEngine.t) (accounts : list AccountData.t) :
  sum_ok_equity (map without_thesis accounts) = sum_ok_equity accounts
  /\ run_status (map without_thesis accounts) = run_status accounts
  /\ run_broker_statuses (map without_thesis accounts)
     = run_broker_statuses accounts
  /\ run_positions re_match self (map without_thesis accounts)
     = run_positions re_match self accounts
  /\ RiskEngine.map_positions re_match self
       (ok_positions (map without_thesis accounts))
     = RiskEngine.map_positions re_match self (ok_positions accounts).
Proof.
  split; [|split; [|split; [|split]]].
  - unfold sum_ok_equity. generalize 0.
    induction accounts as [|acc accounts IH]; intro s; simpl; [reflexivity|].
    destruct (String.eqb (AccountData.status acc) "OK"); simpl; apply IH.
  - unfold run_status.
    replace (forallb is_ok (map without_thesis accounts))
      with (forallb is_ok accounts); [reflexivity|].
    induction accounts as [|acc accounts IH]; simpl; [reflexivity|].
    now rewrite IH.
  - unfold run_broker_statuses. generalize (@nil (string * string)).
    induction accounts as [|acc accounts IH]; intro bs; simpl; [reflexivity|].
    apply IH.
  - unfold run_positions.
    rewrite ok_positions_without_thesis. apply with_theses_reset.
  - rewrite ok_positions_without_thesis. apply map_positions_reset.
Qed.

Lemma compute_reads (re_match : string -> string -> ReOutcome)
    (self : RiskEngine.t) (timestamp : datetime)
    (accounts accounts2 : list AccountData.t) (st : Storage.t) :
  sum_ok_equity accounts2 = sum_ok_equity accounts ->
  run_status accounts2 = run_status accounts ->
  run_broker_statuses accounts2 = run_broker_statuses accounts ->
  run_positions re_match self accounts2 = run_positions re_match self accounts ->
  RiskEngine.map_positions re_match self (ok_positions accounts2)
  = RiskEngine.map_positions re_match self (ok_positions accounts) ->
  RiskEngine.compute re_match self timestamp accounts2 st
  = RiskEngine.compute re_match self timestamp accounts st.
Proof.
  intros H1 H2 H3 H4 H5. rewrite !compute_shape.
  unfold run_drawdown, run_peak. now rewrite H1, H2, H3, H4, H5.
Qed.

(** X22.  [compute] overwrites the [thesis] field of the positions it is
    given and never reads it: accounts that differ only in that field give
    the same outcome and the same store.  In particular the accounts as a
    call leaves them for its caller, with the field set, give what the
    accounts gave before the call. *)
Theorem X22_input_thesis_is_never_read
    (re_match : string -> string -> ReOutcome) (self : RiskEngine.t)
    (timestamp : datetime) (accounts accounts2 : list AccountData.t)
    (st : Storage.t) :
  map without_thesis accounts2 = map without_thesis accounts ->
  RiskEngine.compute re_match self timestamp accounts2 st
  = RiskEngine.compute re_match self timestamp accounts st
  /\ RiskEngine.compute re_match self timestamp
       (map (after_compute re_match self) accounts) st
     = RiskEngine.compute re_match self timestamp accounts st.
Proof.
  intro H.
  assert (K : forall l l',
             map without_thesis l' = map without_thesis l ->
             RiskEngine.compute re_match self timestamp l' st
             = RiskEngine.compute re_match self timestamp l st).
  { intros l l' E.
    destruct (without_thesis_reads re_match self l)
      as (A1 & A2 & A3 & A4 & A5).
    destruct (without_thesis_reads re_match self l')
      as (B1 & B2 & B3 & B4 & B5).
    rewrite E in B1, B2, B3, B4, B5.
    apply compute_reads; congruence. }
  split; [now apply K|]. apply K.
  rewrite map_map. apply map_ext. intro acc.
  unfold after_compute, without_thesis.
  destruct (is_ok acc); [|reflexivity]. simpl. f_equal.
  unfold with_theses. rewrite map_map. now apply map_ext.
Qed.

(** The sample account with every position labelled [Elsewhere]. *)
Lemma X22_input_thesis_is_never_read_witness :
  RiskEngine.compute SimpleRe.re_match Sample.engine 2%N
    (map (fun acc =>
            AccountData.mk (AccountData.broker acc)
              (AccountData.account_id acc) (AccountData.equity acc)
              (AccountData.cash acc)
              (map (fun p => Position.set_thesis p "Elsewhere")
                 (AccountData.positions acc))
              (AccountData.status acc) (AccountData.error_message acc))
       Sample.accounts) Sample.store
  = RiskEngine.compute SimpleRe.re_match Sample.engine 2%N Sample.accounts
      Sample.store.
Proof.
  apply (X22_input_thesis_is_never_read SimpleRe.re_match Sample.engine 2%N
           Sample.accounts). reflexivity.
Defined.

(** The action log is only ever extended: earlier entries do not change
    what a thesis evaluates to. *)
Lemma compute_thesis_frame (self : RiskEngine.t) (total_equity risk_scale : Q)
    (thesis_positions : Dict.t (list Position.t)) (thesis_name : string)
    (mv : Q) (before actions : list string) :
  RiskEngine.compute_thesis self total_equity risk_scale thesis_positions
    thesis_name mv (before ++ actions)
  = match RiskEngine.compute_thesis self total_equity risk_scale
            thesis_positions thesis_name mv actions with
    | Ok (actions', t) => Ok ((before ++ actions')%list, t)
    | Raise e => Raise e
    end.
Proof.
  unfold RiskEngine.compute_thesis, RiskEngine.append. cbv zeta.
  repeat match goal with
         | |- context [existsb ?f ?l] => destruct (existsb f l)
         | |- context [ThesisStatus_eqb ?a ?b] =>
           destruct (ThesisStatus_eqb a b)
         | |- context [PyFloat.xgtb ?a ?b] => destruct (PyFloat.xgtb a b)
         | |- context [PyFloat.div ?a ?b] => destruct (PyFloat.div a b)
         end;
    rewrite <- ?app_assoc; reflexivity.
Qed.

Lemma compute_theses_frame (self : RiskEngine.t) (total_equity risk_scale : Q)
    (thesis_positions : Dict.t (list Position.t))
    (items : list (string * Q)) (before : list string) :
  forall (actions : list string) (results : list ThesisResult.t),
  RiskEngine.compute_theses self total_equity risk_scale thesis_positions
    items (before ++ actions) results
  = match RiskEngine.compute_theses self total_equity risk_scale
            thesis_positions items actions results with
    | Ok (actions', rs) => Ok ((before ++ actions')%list, rs)
    | Raise e => Raise e
    end.
Proof.
  induction items as [|[name mv] items IH]; intros actions results; simpl.
  - reflexivity.
  - rewrite compute_thesis_frame.
    destruct (RiskEngine.compute_thesis self total_equity risk_scale
                thesis_positions name mv actions) as [[a t]|e];
      [apply IH | reflexivity].
Qed.

Lemma compute_mode_proper (self : RiskEngine.t) (d1 d2 : Q) :
  d1 == d2 ->
  RiskEngine._compute_mode self d1 = RiskEngine._compute_mode self d2.
Proof.
  intro H. unfold RiskEngine._compute_mode.
  now rewrite !(gtb_proper d1 d2 H _ _ (Qeq_refl _)).
Qed.

(** X23.  Running again changes nothing but the log of rows: after a run
    that returned a result, at a time not before any stored snapshot, a
    second run on the same accounts, at whatever time, returns a result too,
    with the same equity, peak, drawdown, mode, scale, status, positions and
    thesis results; it reports no mode change, and its action log is the log
    of the first run without the mode-change entry. *)
Theorem X23_running_again_is_stable
    (re_match : string -> string -> ReOutcome) (self : RiskEngine.t)
    (timestamp timestamp2 : datetime) (accounts : list AccountData.t)
    (st st' : Storage.t) (r : RiskResult.t) :
  RiskEngine.compute re_match self timestamp accounts st = (Ok r, st') ->
  (forall row, In row (Storage.equity_history st) ->
     (EquitySnapshot.timestamp row <= timestamp)%N) ->
  exists r2 st2,
    RiskEngine.compute re_match self timestamp2 accounts st' = (Ok r2, st2)
    /\ RiskResult.equity r2 = RiskResult.equity r
    /\ RiskResult.peak r2 == RiskResult.peak r
    /\ RiskResult.drawdown r2 == RiskResult.drawdown r
    /\ RiskResult.mode r2 = RiskResult.mode r
    /\ RiskResult.risk_scale r2 = RiskResult.risk_scale r
    /\ RiskResult.status r2 = RiskResult.status r
    /\ RiskResult.positions r2 = RiskResult.positions r
    /\ RiskResult.thesis_results r2 = RiskResult.thesis_results r
    /\ RiskResult.old_mode r2 = Some (RiskResult.mode r)
    /\ RiskResult.mode_changed r2 = false
    /\ RiskResult.actions r
       = ((if RiskResult.mode_changed r
           then match RiskResult.old_mode r with
                | Some om => [mode_change_entry om (RiskResult.mode r)]
                | None => []
                end
           else []) ++ RiskResult.actions r2)%list.
Proof.
  intros H Hts.
  pose proof (compute_ok_inv _ _ _ _ _ _ _ H)
    as (Hpos & Eeq & Epk & Edd & Emo & Esc & _ & _ & Eh).
  destruct (compute_ok_shape _ _ _ _ _ _ _ H)
    as (om & rs & Eo & Ec & Er & _).
  assert (Hl : Storage.get_last_mode st'
               = Some (RiskMode_value (RiskResult.mode r))).
  { unfold Storage.get_last_mode. rewrite Eh, latest_snoc; [reflexivity|].
    exact Hts. }
  assert (Hp : Storage.get_peak st' == RiskResult.peak r).
  { rewrite (get_peak_append _ _ _ Eh); simpl; [reflexivity|].
    rewrite Epk. apply max_ge_l. }
  assert (Hge : sum_ok_equity accounts <= RiskResult.peak r)
    by (rewrite Epk; apply max_ge_r).
  assert (Hpk2 : run_peak st' accounts == RiskResult.peak r).
  { unfold run_peak, PyFloat.max.
    assert (G : PyFloat.gtb (sum_ok_equity accounts) (Storage.get_peak st')
                = false) by (apply gtb_false; rewrite Hp; exact Hge).
    rewrite G. exact Hp. }
  assert (Hpp : 0 < RiskResult.peak r) by lra.
  assert (Hdd2 : run_drawdown st' accounts == RiskResult.drawdown r).
  { rewrite Edd. unfold run_drawdown.
    assert (G1 : PyFloat.gtb (run_peak st' accounts) 0 = true)
      by (apply gtb_true; rewrite Hpk2; exact Hpp).
    assert (G2 : PyFloat.gtb (run_peak st accounts) 0 = true)
      by (apply gtb_true; rewrite <- Epk; exact Hpp).
    rewrite G1, G2, Hpk2, <- Epk. reflexivity. }
  assert (Hm2 : RiskEngine._compute_mode self (run_drawdown st' accounts)
                = (RiskResult.mode r, RiskResult.risk_scale r)).
  { rewrite (compute_mode_proper self _ _ Hdd2), Edd.
    rewrite Emo, Esc.
    now destruct (RiskEngine._compute_mode self (run_drawdown st accounts)). }
  pose proof (compute_shape re_match self timestamp2 accounts st') as S.
  cbv zeta in S. rewrite Hm2 in S. cbn [fst snd] in S.
  assert (Q0 : Qle_bool (sum_ok_equity accounts) 0 = false)
    by (apply Qle_bool_false; exact Hpos).
  rewrite Q0, Hl, parse_old_mode_value in S.
  rewrite (compute_ok_mapped _ _ _ _ _ _ _ H) in S.
  assert (Ei : initial_actions om (RiskResult.mode r) (RiskResult.risk_scale r)
               = ((if mode_differs om (RiskResult.mode r)
                   then match om with
                        | Some m => [mode_change_entry m (RiskResult.mode r)]
                        | None => []
                        end
                   else [])
                  ++ initial_actions (Some (RiskResult.mode r))
                       (RiskResult.mode r) (RiskResult.risk_scale r))%list).
  { unfold initial_actions, mode_differs.
    assert (Rf : RiskMode_eqb (RiskResult.mode r) (RiskResult.mode r) = true)
      by now apply RiskMode_eqb_eq.
    rewrite Rf. simpl.
    destruct om as [m|]; [|reflexivity].
    now destruct (negb (RiskMode_eqb m (RiskResult.mode r))). }
  assert (Eps : RiskResult.positions r = run_positions re_match self accounts)
    by (rewrite Er; reflexivity).
  rewrite Eps, Eeq, Ei, compute_theses_frame in Ec.
  set (pre := if mode_differs om (RiskResult.mode r)
              then match om with
                   | Some m => [mode_change_entry m (RiskResult.mode r)]
                   | None => []
                   end
              else []) in *.
  destruct (RiskEngine.compute_theses self (sum_ok_equity accounts)
              (RiskResult.risk_scale r)
              (snd (RiskEngine.group_by_thesis
                      (run_positions re_match self accounts)))
              (fst (RiskEngine.group_by_thesis
                      (run_positions re_match self accounts)))
              (initial_actions (Some (RiskResult.mode r)) (RiskResult.mode r)
                 (RiskResult.risk_scale r)) [])
    as [[acts2 rs2]|e] eqn:E2; [|discriminate].
  injection Ec as Eacts Ers. subst rs2.
  eexists. eexists. split; [exact S|]. simpl.
  assert (Emc : RiskResult.mode_changed r = mode_differs om (RiskResult.mode r))
    by (rewrite Er at 1; reflexivity).
  assert (Eom : RiskResult.old_mode r = om) by (rewrite Er; reflexivity).
  assert (Est : RiskResult.status r = run_status accounts)
    by (rewrite Er; reflexivity).
  assert (Etr : RiskResult.thesis_results r = RiskEngine.sort_by_utilization rs)
    by (rewrite Er; reflexivity).
  repeat split; try assumption; try (symmetry; assumption).
  - unfold mode_differs.
    assert (Rf : RiskMode_eqb (RiskResult.mode r) (RiskResult.mode r) = true)
      by now apply RiskMode_eqb_eq.
    now rewrite Rf.
  - rewrite Emc, Eom. fold pre. symmetry. exact Eacts.
Qed.

(** The run at equity 88000, and the same accounts again one tick later. *)
Lemma X23_running_again_is_stable_witness :
  exists r2 st2,
    RiskEngine.compute SimpleRe.re_match Sample.engine 3%N Demo.half_accounts
      Demo.half_store = (Ok r2, st2)
    /\ RiskResult.mode r2 = HALF
    /\ RiskResult.mode_changed r2 = false
    /\ RiskResult.thesis_results r2
       = RiskResult.thesis_results Demo.half_result.
Proof.
  assert (H : RiskEngine.compute SimpleRe.re_match Sample.engine 2%N
                Demo.half_accounts Sample.store
              = (Ok Demo.half_result, Demo.half_store))
    by (vm_compute; reflexivity).
  destruct (X23_running_again_is_stable SimpleRe.re_match Sample.engine 2%N
              3%N Demo.half_accounts Sample.store Demo.half_store
              Demo.half_result H)
    as (r2 & st2 & E & _ & _ & _ & Hm & _ & _ & _ & Ht & _ & Hc & _).
  { intros row [<- | []]. vm_compute. discriminate. }
  exists r2, st2. split; [exact E|]. split; [rewrite Hm; reflexivity|].
  split; [exact Hc | exact Ht].
Defined.
